(** * Semantic search cache of the sports chatbot

    A shallow embedding of [utils/cache_utils.py], [utils/embedding_utils.py],
    the cache constants of [config.py] and, of [utils/web_search.py], the
    coordinator [get_search_results_with_cache] and the scraper
    [_perform_web_search_and_extract], and proofs about them; with the
    coordinator of the earlier single-file version,
    [previous/streamlit_app.py], for comparison.

    Conventions of the model.
    - The three module globals of [cache_utils.py] and the files under
      [CACHE_DIR] form one [state] record that every function threads.
    - A numpy array is its list of components; a Python [float] is a binary64
      primitive float.  The callee-side mutation of an array argument is
      returned next to the result, and the caller carries on with it.
    - What lives outside the repository (faiss' float32 kernels, [hashlib],
      string formatting of floats) is the interface [Externals]; the remote
      collaborators answering during one call form a [world].
    - Python strings are modelled by [string], one character per code point
      below 256.
    - The index file and the mapping file are typed: each is absent, present
      but unreadable (reading or parsing raises, a key that [int] rejects
      included), or holds a value of the shape [save_faiss_cache] writes.  The
      paths recorded in the mapping are looked up among the entry files.
    - The scraper is given what the browser and the HTML parser answer, one
      outcome per [try] block: the block ran to its end, or it raised an
      exception of a class its handlers tell apart.
    - Every function returns the list of calls it made (embedding request,
      live search, entry file written, vector handed to the index), so that
      "no live search was performed" is a statement about that list. *)

From Stdlib Require Import ZArith Ascii String List Bool.
From Stdlib Require Import Floats DecimalString DecimalNat DecimalFacts.
From stdpp Require Import base option list gmap strings.

(** ** Python values that cross the coordinator's boundary *)

(** The argument of [get_search_results_with_cache]: a [str], or any other
    object, of which only the truth value is ever inspected. *)
Inductive pyobj : Type :=
  | PyStr (s : string)
  | PyNonStr (truthy : bool).

(** Values of a stored or returned dictionary: text sections and the reserved
    status fields are strings, [_cache_timestamp] is a float. *)
Inductive pyval : Type :=
  | PStr (s : string)
  | PFloat (x : float).

(** A result dictionary ([dict] with [str] keys). *)
Abbreviation payload := (gmap string pyval).

(** What the scraper builds: named text sections, every value a [str]. *)
Abbreviation sections := (gmap string string).

(** The same dictionary object, seen as a result dictionary. *)
Definition as_payload (p : sections) : payload := PStr <$> p.

(** A one-dimensional float32 numpy array. *)
Definition vec : Type := list float.

(** ** External library functions *)

Class Externals : Type := {
  (** [faiss.normalize_L2] on a [1 x d] array: the array it leaves behind. *)
  normalize_L2 : vec -> vec;
  (** The metric of [IndexFlatIP]: float32 inner product of query and row. *)
  fvec_inner_product : vec -> vec -> float;
  (** [f'{x:.4f}']. *)
  format_4f : float -> string;
  (** [hashlib.sha1(s.encode('utf-8')).hexdigest()]. *)
  sha1_hexdigest : string -> string;
  (** Normalization works in place: the array keeps its shape. *)
  normalize_L2_length : forall x : vec, length (normalize_L2 x) = length x
}.

(** ** [config.py] *)

Definition EMBEDDING_DIM : nat := 768.
Definition CACHE_DIR : string := "search_cache_v6_text_commentary".
Definition path_join (a b : string) : string := a +:+ "/" +:+ b.
Definition CACHE_INDEX_FILE : string := path_join CACHE_DIR "faiss_index_v6.idx".
Definition CACHE_MAPPING_FILE : string := path_join CACHE_DIR "faiss_mapping_v6.json".

(** [CACHE_SIMILARITY_THRESHOLD = 0.96]: the binary64 number nearest to 0.96. *)
Definition CACHE_SIMILARITY_THRESHOLD : float := 0x1.eb851eb851eb8p-1%float.

(** ** The vector index ([faiss.IndexFlatIP]) *)

Record IndexFlatIP : Type := {
  d : nat;
  xb : list vec
}.

Definition ntotal (idx : IndexFlatIP) : nat := length (xb idx).

(** [faiss.IndexFlatIP(EMBEDDING_DIM)]. *)
Definition new_index : IndexFlatIP := {| d := EMBEDDING_DIM; xb := [] |}.

(** [index.add(x.reshape(1, -1))]: the wrapper asserts the dimension, then the
    row is copied behind the existing ones. *)
Definition index_add (idx : IndexFlatIP) (x : vec) : option IndexFlatIP :=
  if decide (length x = d idx)
  then Some {| d := d idx; xb := xb idx ++ [x] |}
  else None.

(** The lowest float32, with which faiss seeds the best score. *)
Definition FLT_LOWEST : float := (-0x1.fffffep+127)%float.

Section Search.
Context `{Externals}.

(** Top-1 scan: a row replaces the current best when its score is strictly
    larger; the label stays [-1] while nothing was selected. *)
Fixpoint top1 (q : vec) (rows : list vec) (i : Z) (best : float * Z) : float * Z :=
  match rows with
  | [] => best
  | x :: rows' =>
      let ip := fvec_inner_product q x in
      top1 q rows' (i + 1)%Z (if (fst best <? ip)%float then (ip, i) else best)
  end.

(** [D, I = index.search(q.reshape(1, -1), 1)], read at [D[0][0]] and
    [I[0][0]]; [None] when the wrapper's dimension assertion fails. *)
Definition index_search (idx : IndexFlatIP) (q : vec) : option (float * Z) :=
  if decide (length q = d idx)
  then Some (top1 q (xb idx) 0%Z (FLT_LOWEST, (-1)%Z))
  else None.
End Search.

(** ** Files *)

(** A file that is read back as a value of type [A]. *)
Inductive file (A : Type) : Type :=
  | Absent                (* [os.path.exists] is false *)
  | Unreadable            (* present; reading or parsing it raises *)
  | Stored (a : A).
Arguments Absent {A}.
Arguments Unreadable {A}.
Arguments Stored {A} a.

(** The parsed mapping file, keys already through [int(k)]; either key of the
    outer object may be missing. *)
Record mapping_json : Type := {
  mj_next_id : option Z;
  mj_mapping : option (list (Z * (string * string)))
}.

(** An entry file that exists: a JSON object, or something [json.load] or the
    dictionary operations after it raise on. *)
Inductive entry_file : Type :=
  | Garbled
  | Json (p : payload).

(** ** Process state: the globals of [cache_utils.py] and the cache directory *)

Record state : Type := {
  faiss_index : option IndexFlatIP;
  index_id_to_data : gmap Z (string * string);
  next_faiss_id : Z;
  index_file : file IndexFlatIP;
  mapping_file : file mapping_json;
  entry_files : gmap string entry_file
}.

(** ** Collaborators, as they answer during one call *)

Record world : Type := {
  (** [services.gemini_service.get_client()] is not [None]. *)
  client_ready : bool;
  (** [client.models.embed_content]: the values of the first embedding, as
      float32; [None] when the call raises or returns no embedding. *)
  embed_content : string -> option vec;
  (** [_perform_web_search_and_extract]. *)
  live_search : string -> sections;
  (** [time.time()]. *)
  time_now : float;
  (** Whether creating and writing the file at a path succeeds. *)
  can_write : string -> bool
}.

(** Observable calls, in the order they are made. *)
Inductive event : Type :=
  | EvEmbed (text : string)       (* remote embedding request *)
  | EvLive (query : string)       (* live web search *)
  | EvIndexAdd (v : vec)          (* vector handed to [faiss_index.add] *)
  | EvWriteEntry (path : string). (* entry file written *)

(** ** Python string helpers *)

(** [str.isspace] on one character (code points below 256). *)
Definition is_space (c : ascii) : bool :=
  let n := nat_of_ascii c in
  ((9 <=? n) && (n <=? 13)) || ((28 <=? n) && (n <=? 32)) ||
  (n =? 133) || (n =? 160).

Fixpoint lstrip (s : string) : string :=
  match s with
  | EmptyString => EmptyString
  | String c s' => if is_space c then lstrip s' else s
  end.

Fixpoint rstrip (s : string) : string :=
  match s with
  | EmptyString => EmptyString
  | String c s' =>
      match rstrip s' with
      | EmptyString => if is_space c then EmptyString else String c EmptyString
      | r => String c r
      end
  end.

(** [s.strip()]. *)
Definition strip (s : string) : string := rstrip (lstrip s).

(** ** Dictionary helpers *)

(** [key in p]. *)
Definition has_key (key : string) (p : payload) : bool :=
  bool_decide (is_Some (p !! key)).

(** Truth value of a dictionary: it is not empty. *)
Definition truthy_dict (p : payload) : bool := negb (bool_decide (size p = 0)).

(** [p.pop(key, None)], for the dictionary left behind. *)
Definition pop (key : string) (p : payload) : payload := delete key p.

(** ** Setters for the fields of [state] *)

Definition set_globals (idx : IndexFlatIP) (m : gmap Z (string * string))
    (n : Z) (st : state) : state :=
  {| faiss_index := Some idx; index_id_to_data := m; next_faiss_id := n;
     index_file := index_file st; mapping_file := mapping_file st;
     entry_files := entry_files st |}.

Definition set_index_file (f : file IndexFlatIP) (st : state) : state :=
  {| faiss_index := faiss_index st; index_id_to_data := index_id_to_data st;
     next_faiss_id := next_faiss_id st;
     index_file := f; mapping_file := mapping_file st;
     entry_files := entry_files st |}.

Definition set_mapping_file (f : file mapping_json) (st : state) : state :=
  {| faiss_index := faiss_index st; index_id_to_data := index_id_to_data st;
     next_faiss_id := next_faiss_id st;
     index_file := index_file st; mapping_file := f;
     entry_files := entry_files st |}.

Definition set_entry_files (fs : gmap string entry_file) (st : state) : state :=
  {| faiss_index := faiss_index st; index_id_to_data := index_id_to_data st;
     next_faiss_id := next_faiss_id st;
     index_file := index_file st; mapping_file := mapping_file st;
     entry_files := fs |}.

(** ** [cache_utils.py] *)

(** [{int(k): v for k, v in loaded_data.get("mapping", {}).items()}]: the
    items are inserted one after the other. *)
Definition mapping_of_json (mj : mapping_json) : gmap Z (string * string) :=
  foldl (fun m kv => <[kv.1 := kv.2]> m) ∅ (default [] (mj_mapping mj)).

(** The [try] block of [load_faiss_cache]: the three globals it returns, or
    [None] when an exception leaves the block. *)
Definition try_load (st : state)
    : option (IndexFlatIP * gmap Z (string * string) * Z) :=
  match index_file st with
  | Stored idx =>
      match mapping_file st with
      | Stored mj =>
          let m := mapping_of_json mj in
          let n := default 0%Z (mj_next_id mj) in
          if decide (ntotal idx ≠ size m)
          then None       (* raise ValueError("Cache inconsistency ...") *)
          else Some (idx, m, n)
      | _ => None         (* open / json.load raises *)
      end
  | _ => None             (* faiss.read_index raises *)
  end.

(** [os.path.exists(path)] for the two files of the persisted pair. *)
Definition exists_file {A} (f : file A) : bool :=
  match f with Absent => false | _ => true end.

(** [load_faiss_cache()]: the index it returns (the global [faiss_index]
    afterwards) and the state it leaves. *)
Definition load_faiss_cache (st : state) : IndexFlatIP * state :=
  match faiss_index st with
  | Some idx => (idx, st)
  | None =>
      match
        (if exists_file (index_file st) && exists_file (mapping_file st)
         then try_load st else None)
      with
      | Some (idx, m, n) => (idx, set_globals idx m n st)
      | None => (new_index, set_globals new_index ∅ 0%Z st)
      end
  end.

(** [save_faiss_cache()]: index first, then mapping; an exception while
    writing is logged and ends the attempt. *)
Definition save_faiss_cache (w : world) (st : state) : state :=
  match faiss_index st with
  | Some idx =>
      if (0 <? next_faiss_id st)%Z && (0 <? ntotal idx)%nat then
        if can_write w CACHE_INDEX_FILE then
          let st1 := set_index_file (Stored idx) st in
          if can_write w CACHE_MAPPING_FILE then
            set_mapping_file
              (Stored {| mj_next_id := Some (next_faiss_id st);
                         mj_mapping := Some (map_to_list (index_id_to_data st)) |})
              st1
          else st1
        else st
      else st
  | None => st
  end.

(** ** [embedding_utils.py] *)

(** [get_embedding(text, task_type="RETRIEVAL_QUERY")]: the array, or [None];
    with the remote request it made, if any. *)
Definition get_embedding (w : world) (text : string) : option vec * list event :=
  if negb (client_ready w) then (None, [])
  else
    match text with
    | EmptyString => (None, [])               (* [not text] *)
    | _ =>
        let text := strip text in
        match text with
        | EmptyString => (None, [])
        | _ =>
            match embed_content w text with
            | Some (x :: values) => (Some (x :: values), [EvEmbed text])
            | Some [] => (None, [EvEmbed text])   (* no values returned *)
            | None => (None, [EvEmbed text])      (* request raised *)
            end
        end
    end.

Section Cache.
Context `{Externals}.

(** The pair every miss of [get_from_cache] returns. *)
Definition MISS : option payload * float := (None, (-1)%float).

(** [f'HIT (Similarity: {similarity_score:.4f})']. *)
Definition hit_status (similarity_score : float) : string :=
  "HIT (Similarity: " +:+ format_4f similarity_score +:+ ")".

(** Lines 121-133 of [get_from_cache]: the branch taken once the score met the
    threshold. *)
Definition cached_entry_lookup (st : state) (nearest_neighbor_id : Z)
    (similarity_score : float) : option payload * float :=
  match index_id_to_data st !! nearest_neighbor_id with
  | Some (cached_query_str, cached_filepath) =>
      match entry_files st !! cached_filepath with
      | Some (Json cached_data) =>
          let cached_data := pop "_cached_original_query" cached_data in
          let cached_data := pop "_cache_timestamp" cached_data in
          let cached_data :=
            <["_cache_status" := PStr (hit_status similarity_score)]> cached_data in
          (Some cached_data, similarity_score)
      | Some Garbled => MISS        (* raises inside the [try] *)
      | None => MISS                (* [os.path.exists] is false *)
      end
  | None => MISS
  end.

(** [get_from_cache(query, query_vector)].  The second component is the
    content of the caller's array when the call returns: [reshape(1, -1)] is a
    view on it and [faiss.normalize_L2] writes through that view. *)
Definition get_from_cache (st : state) (query : string) (query_vector : vec)
    : (option payload * float) * vec * state :=
  let '(idx, st) := load_faiss_cache st in
  if (ntotal idx =? 0)%nat then (MISS, query_vector, st)
  else
    let query_vector := normalize_L2 query_vector in
    match index_search idx query_vector with
    | Some (similarity_score, nearest_neighbor_id) =>
        if (CACHE_SIMILARITY_THRESHOLD <=? similarity_score)%float
        then (cached_entry_lookup st nearest_neighbor_id similarity_score,
              query_vector, st)
        else (MISS, query_vector, st)
    | None => (MISS, query_vector, st)      (* raises inside the [try] *)
    end.

(** [os.path.join(CACHE_DIR, f"{query_hash}.json")]. *)
Definition cache_filepath (query : string) : string :=
  path_join CACHE_DIR (sha1_hexdigest query +:+ ".json").

(** [add_to_cache(query, query_vector, result_data)]. *)
Definition add_to_cache (w : world) (st : state) (query : string)
    (query_vector : option vec) (result_data : payload)
    : bool * state * list event :=
  let '(idx, st) := load_faiss_cache st in
  let path := cache_filepath query in
  let result_to_save :=
    <["_cache_timestamp" := PFloat (time_now w)]>
      (<["_cached_original_query" := PStr query]> result_data) in
  if can_write w path then
    let st := set_entry_files (<[path := Json result_to_save]> (entry_files st)) st in
    match query_vector with
    | Some v =>
        let current_id := next_faiss_id st in
        match index_add idx v with
        | Some idx' =>
            let st := set_globals idx'
                        (<[current_id := (query, path)]> (index_id_to_data st))
                        (next_faiss_id st + 1)%Z st in
            (true, save_faiss_cache w st, [EvWriteEntry path; EvIndexAdd v])
        | None => (false, st, [EvWriteEntry path; EvIndexAdd v])
        end
    | None => (false, st, [EvWriteEntry path])
    end
  else (false, st, []).

(** ** [web_search.py]: the coordinator *)

Definition invalid_query_error : payload :=
  <["error" := PStr "Invalid or empty query received."]>
    (<["_cache_status" := PStr "Error"]> ∅).

Definition empty_query_error : payload :=
  <["error" := PStr "Empty query received."]>
    (<["_cache_status" := PStr "Error"]> ∅).

Definition empty_results_error : payload :=
  <["error" := PStr "Live search returned empty results."]>
    (<["_cache_status" := PStr "Live Search Failed (Empty)"]> ∅).

(** Calls made so far, put in front of those of the rest of the function. *)
Definition after_calls (evs : list event) (out : payload * state * list event)
    : payload * state * list event :=
  (out.1.1, out.1.2, evs ++ out.2).

(** The part of [get_search_results_with_cache] after a cache miss. *)
Definition live_and_cache (w : world) (st : state) (query : string)
    (query_vector : vec) : payload * state * list event :=
  let found := live_search w query in
  let live_data := as_payload found in
  if negb (has_key "error" live_data) && truthy_dict live_data then
    let '(_, st, evs) := add_to_cache w st query (Some query_vector) live_data in
    (<["_cache_status" := PStr "Live Search (Cache Miss)"]> live_data,
     st, EvLive query :: evs)
  else if has_key "error" live_data then
    (<["_cache_status" :=
         PStr ("Live Search Failed (" +:+
               default "Unknown error" (found !! "error") +:+ ")")]> live_data,
     st, [EvLive query])
  else (empty_results_error, st, [EvLive query]).

(** [get_search_results_with_cache(query)]: the dictionary returned, the state
    left behind and the calls made. *)
Definition get_search_results_with_cache (w : world) (st : state) (query : pyobj)
    : payload * state * list event :=
  match query with
  | PyNonStr _ => (invalid_query_error, st, [])
  | PyStr EmptyString => (invalid_query_error, st, [])
  | PyStr query =>
      let query := strip query in
      match query with
      | EmptyString => (empty_query_error, st, [])
      | _ =>
          match get_embedding w query with
          | (None, evs) =>
              let live_data := as_payload (live_search w query) in
              (<["_cache_status" := PStr "Live Search (Embedding Failed)"]> live_data,
               st, evs ++ [EvLive query])
          | (Some query_vector, evs) =>
              let '(cached, query_vector, st) := get_from_cache st query query_vector in
              match fst cached with
              | Some cached_data => (cached_data, st, evs)
              | None => after_calls evs (live_and_cache w st query query_vector)
              end
          end
      end
  end.

End Cache.

(** ** [cache_utils.py]: what the sidebar shows *)

(** The dictionary [get_cache_info] returns; [info_items] is [None] where the
    code puts the string "N/A". *)
Record cache_info : Type := {
  info_status : string;
  info_items : option nat;
  info_directory : string;
  info_threshold : float
}.

(** [get_cache_info()], given [os.path.abspath]. *)
Definition get_cache_info (abspath : string -> string) (st : state)
    : cache_info * state :=
  let '(_, st) := load_faiss_cache st in
  ({| info_status :=
        match faiss_index st with Some _ => "Loaded" | None => "Not Loaded" end;
      info_items := ntotal <$> faiss_index st;
      info_directory := abspath CACHE_DIR;
      info_threshold := CACHE_SIMILARITY_THRESHOLD |},
   st).

(** ** [web_search.py]: the scraper

    [_perform_web_search_and_extract] drives a browser.  What the browser and
    the HTML parser answer is given stage by stage: each [try] block of the
    function either runs to its end, with the text or the elements it
    obtained, or raises an exception that the handlers tell apart by its
    class. *)

(** The classes the handlers distinguish; a timeout is a WebDriver error
    too, and is caught first wherever it has a handler of its own. *)
Inductive exn_class : Type :=
  | TimeoutException
  | WebDriverException
  | OtherException.

(** An exception: its class, [type(e).__name__] and [str(e)]. *)
Record exn : Type := {
  exn_kind : exn_class;
  exn_name : string;
  exn_text : string
}.

Inductive outcome (A : Type) : Type :=
  | Done (a : A)
  | Raises (e : exn).
Arguments Done {A} a.
Arguments Raises {A} e.

Record browser : Type := {
  (** The block that creates the driver ([webdriver.Chrome] and its two
      settings). *)
  start_driver : outcome unit;
  (** [quote_plus(query)] and [driver.set_page_load_timeout], outside any
      inner [try]. *)
  prepare_search : outcome unit;
  (** [driver.get(url)] and [driver.title]. *)
  open_results : outcome unit;
  (** [wait.until(presence_of_element_located(...))]. *)
  await_results : outcome unit;
  (** The block that parses the result page: [main_page_text] after
      [re.sub]. *)
  read_results : outcome string;
  (** [soup_main.select("li.b_algo h2 a[href]")]: per element its stripped
      text and its [href]. *)
  result_links : outcome (list (string * string));
  (** The block that visits link number [i]: [page_text] after [re.sub],
      before it is cut. *)
  visit_link : nat -> string -> outcome string
}.

Definition LINK_LOAD_TIMEOUT : nat := 15.

(** [needle in hay]. *)
Fixpoint contains (needle hay : string) : bool :=
  String.prefix needle hay ||
  match hay with
  | EmptyString => false
  | String _ hay' => contains needle hay'
  end.

(** [bool(s)] of a string. *)
Definition nonempty (s : string) : bool :=
  match s with EmptyString => false | _ => true end.

(** The condition under which a result link is kept. *)
Definition keep_link (title link : string) : bool :=
  nonempty link && nonempty title &&
  (String.prefix "http://" link || String.prefix "https://" link) &&
  negb (contains "#" link) && negb (contains "microsoft" link) &&
  negb (contains "bing" link).

(** The loop over [link_elements]: a kept link is appended, and the loop
    stops as soon as three are collected. *)
Fixpoint select_links (link_elements main_results_links : list (string * string))
    : list (string * string) :=
  match link_elements with
  | [] => main_results_links
  | (title, link) :: rest =>
      let main_results_links :=
        if keep_link title link
        then main_results_links ++ [(title, link)] else main_results_links in
      if (3 <=? length main_results_links)%nat then main_results_links
      else select_links rest main_results_links
  end.

(** [f"Source [{i+1}]: {link_url} (Title: {link_title})"]. *)
Definition source_key (i : nat) (link_url link_title : string) : string :=
  "Source [" +:+ NilZero.string_of_uint (Nat.to_uint (i + 1)) +:+ "]: " +:+ link_url
    +:+ " (Title: " +:+ link_title +:+ ")".

(** The exception the last handler of the link loop raises itself: its
    message formats [type(e)], and no [e] is bound there. *)
Definition unbound_e : exn :=
  {| exn_kind := OtherException; exn_name := "NameError";
     exn_text := "name 'e' is not defined" |}.

(** The loop over [links_to_visit], from link number [i] on: the dictionary
    so far, and the exception that left the loop, if one did. *)
Fixpoint visit_links (b : browser) (i : nat) (links : list (string * string))
    (scraped_data : sections) : sections * option exn :=
  match links with
  | [] => (scraped_data, None)
  | (link_title, link_url) :: rest =>
      let key := source_key i link_url link_title in
      match visit_link b i link_url with
      | Done page_text =>
          let page_text := String.substring 0 4000 page_text in
          visit_links b (S i) rest
            (<[key := if nonempty page_text then page_text
                      else "[No relevant text found on page]"]> scraped_data)
      | Raises e =>
          match exn_kind e with
          | TimeoutException =>
              visit_links b (S i) rest
                (<[key := "[Timeout Error loading page: "
                          +:+ NilZero.string_of_uint (Nat.to_uint LINK_LOAD_TIMEOUT)
                          +:+ "s]"]> scraped_data)
          | WebDriverException =>
              visit_links b (S i) rest
                (<[key := "[WebDriver Error: " +:+ exn_text e +:+ "]"]> scraped_data)
          | OtherException => (scraped_data, Some unbound_e)
          end
      end
  end.

(** The handler of the outermost [try]. *)
Definition major_error (e : exn) (scraped_data : sections) : sections :=
  <["error" := "Major error during web search execution: "
               +:+ exn_name e +:+ " - " +:+ exn_text e]> scraped_data.

(** [links_to_visit]: the links collected from the result page; none when
    the selection raises. *)
Definition links_to_visit (b : browser) : list (string * string) :=
  match result_links b with
  | Done link_elements => select_links link_elements []
  | Raises _ => []
  end.

(** The part of the function from the parsing of the result page on. *)
Definition scrape_pages (b : browser) (scraped_data : sections) : sections :=
  let scraped_data :=
    <["Bing Search Results Page" :=
        match read_results b with
        | Done main_page_text =>
            if nonempty main_page_text
            then String.substring 0 5000 main_page_text
            else "[No relevant text found on main search page]"
        | Raises e => "[Error parsing main page: " +:+ exn_text e +:+ "]"
        end]> scraped_data in
  match visit_links b 0 (links_to_visit b) scraped_data with
  | (scraped_data, None) => scraped_data
  | (scraped_data, Some e) => major_error e scraped_data
  end.

(** [_perform_web_search_and_extract(query)], given [quote_plus]. *)
Definition _perform_web_search_and_extract (quote_plus : string -> string)
    (b : browser) (query : string) : sections :=
  let scraped_data : sections := {[ "_cache_status" := "Live Search Triggered" ]} in
  match start_driver b with
  | Raises e =>
      match exn_kind e with
      | OtherException =>
          <["error" := "Unexpected error during WebDriver initialization: "
                       +:+ exn_text e]> scraped_data
      | _ =>
          <["error" := "WebDriver initialization failed: " +:+ exn_text e
                       +:+ ". Ensure ChromeDriver is installed/in PATH."]> scraped_data
      end
  | Done _ =>
      match prepare_search b with
      | Raises e => major_error e scraped_data
      | Done _ =>
          let url := "https://www.bing.com/search?q=" +:+ quote_plus query
                     +:+ "&form=QBLH" in
          let after_wait :=
            match await_results b with
            | Done _ => scrape_pages b scraped_data
            | Raises e =>
                match exn_kind e with
                | TimeoutException => scrape_pages b scraped_data
                | _ => major_error e scraped_data
                end
            end in
          match open_results b with
          | Done _ => after_wait
          | Raises e =>
              match exn_kind e with
              | TimeoutException => after_wait
              | WebDriverException =>
                  <["error" := "WebDriver error during navigation to " +:+ url
                               +:+ ": " +:+ exn_text e]> scraped_data
              | OtherException => major_error e scraped_data
              end
          end
      end
  end.

(** ** [previous/streamlit_app.py]: the single-file version

    The earlier version of the application keeps the same three globals and
    the same cache directory in one file.  Its [save_faiss_cache],
    [get_embedding] and the [try] block of its [load_faiss_cache] are those of
    the current modules; its coordinator does the lookup and the insertion
    itself. *)

Module previous.

(** [load_faiss_cache()]: the three components it returns; nothing is
    assigned. *)
Definition load_faiss_cache (st : state)
    : IndexFlatIP * gmap Z (string * string) * Z :=
  match
    (if exists_file (index_file st) && exists_file (mapping_file st)
     then try_load st else None)
  with
  | Some loaded => loaded
  | None => (new_index, ∅, 0%Z)
  end.

(** The assignment of the loaded components to the globals when the script
    starts. *)
Definition assign_globals (st : state) : state :=
  let '(idx, m, n) := load_faiss_cache st in set_globals idx m n st.

Section Coordinator.
Context `{Externals}.

(** The block under [if faiss_index.ntotal > 0]: the cached dictionary, if
    the lookup hit, and the state left. *)
Definition search_cache (st : state) (idx : IndexFlatIP) (new_query_vector : vec)
    : option payload * state :=
  if (0 <? ntotal idx)%nat then
    match index_search idx new_query_vector with
    | Some (similarity_score, nearest_neighbor_id) =>
        if (CACHE_SIMILARITY_THRESHOLD <=? similarity_score)%float then
          match index_id_to_data st !! nearest_neighbor_id with
          | Some (cached_query_str, cached_filepath) =>
              match entry_files st !! cached_filepath with
              | Some (Json cached_data) =>
                  let cached_data := pop "_cached_original_query" cached_data in
                  let cached_data := pop "_cache_timestamp" cached_data in
                  (Some (<["_cache_status" := PStr (hit_status similarity_score)]>
                           cached_data), st)
              | Some Garbled => (None, st)    (* raises inside the inner [try] *)
              | None =>
                  (* [del index_id_to_data[nearest_neighbor_id]] *)
                  (None,
                   set_globals idx (delete nearest_neighbor_id (index_id_to_data st))
                     (next_faiss_id st) st)
              end
          | None => (None, st)
          end
        else (None, st)
    | None => (None, st)                      (* raises inside the [try] *)
    end
  else (None, st).

(** The [else] branch of the final test: live search, and caching of a
    usable result. *)
Definition live_and_cache (w : world) (st : state) (idx : IndexFlatIP)
    (query : string) (new_query_vector : vec) : payload * state * list event :=
  let found := live_search w query in
  let live_data := as_payload found in
  let '(live_data, st, evs) :=
    if negb (has_key "error" live_data) && truthy_dict live_data then
      let cache_filepath := cache_filepath query in
      let live_data_to_save :=
        <["_cache_timestamp" := PFloat (time_now w)]>
          (<["_cached_original_query" := PStr query]> live_data) in
      if can_write w cache_filepath then
        let st :=
          set_entry_files
            (<[cache_filepath := Json live_data_to_save]> (entry_files st)) st in
        let current_id := next_faiss_id st in
        match index_add idx new_query_vector with
        | Some idx' =>
            let st := set_globals idx'
                        (<[current_id := (query, cache_filepath)]> (index_id_to_data st))
                        (next_faiss_id st + 1)%Z st in
            (live_data, save_faiss_cache w st,
             [EvWriteEntry cache_filepath; EvIndexAdd new_query_vector])
        | None =>
            (<["_cache_status" := PStr "Live Search (Cache Save Failed)"]> live_data,
             st, [EvWriteEntry cache_filepath; EvIndexAdd new_query_vector])
        end
      else
        (<["_cache_status" := PStr "Live Search (Cache Save Failed)"]> live_data,
         st, [])
    else if has_key "error" live_data then
      (<["_cache_status" :=
           PStr ("Live Search Failed (" +:+
                 default "Unknown error" (found !! "error") +:+ ")")]> live_data,
       st, [])
    else (empty_results_error, st, []) in
  let live_data :=
    if has_key "_cache_status" live_data then live_data
    else <["_cache_status" := PStr "Live Search (Cache Miss)"]> live_data in
  let live_data := pop "_cache_timestamp" (pop "_cached_original_query" live_data) in
  (live_data, st, EvLive query :: evs).

(** [get_search_results_with_cache(query)] of the single-file version. *)
Definition get_search_results_with_cache (w : world) (st : state) (query : pyobj)
    : payload * state * list event :=
  match query with
  | PyNonStr _ => (invalid_query_error, st, [])
  | PyStr EmptyString => (invalid_query_error, st, [])
  | PyStr query =>
      let query := strip query in
      match query with
      | EmptyString => (empty_query_error, st, [])
      | _ =>
          match faiss_index st with
          | None =>
              (<["_cache_status" := PStr "Live Search (FAISS Not Init)"]>
                 (as_payload (live_search w query)),
               st, [EvLive query])
          | Some idx =>
              match get_embedding w query with
              | (None, evs) =>
                  (<["_cache_status" := PStr "Live Search (Embedding Failed)"]>
                     (as_payload (live_search w query)),
                   st, evs ++ [EvLive query])
              | (Some new_query_vector, evs) =>
                  let new_query_vector := normalize_L2 new_query_vector in
                  let '(cached_data, st) := search_cache st idx new_query_vector in
                  match cached_data with
                  | Some cached_data => (cached_data, st, evs)
                  | None =>
                      after_calls evs
                        (live_and_cache w st idx query new_query_vector)
                  end
              end
          end
      end
  end.

End Coordinator.
End previous.

(** ** A computable instance of the external functions

    Binary64 arithmetic in the order faiss' scalar kernels use, an exact
    [%.4f] renderer, and a hexadecimal rendering of the query in the place of
    its SHA-1 digest.  The theorems below hold for every instance; this one
    evaluates them on concrete inputs. *)

(** [fvec_norm_L2sqr]. *)
Definition norm_L2sqr (x : vec) : float :=
  fold_left (fun acc xi => (acc + xi * xi)%float) x 0%float.

(** [fvec_renorm_L2] on one row: scaled by [1 / sqrt(nr)] when [nr > 0]. *)
Definition renorm_L2 (x : vec) : vec :=
  let nr := norm_L2sqr x in
  if (0 <? nr)%float
  then let inv_nr := (1 / sqrt nr)%float in map (fun xi => (xi * inv_nr)%float) x
  else x.

(** [fvec_inner_product]. *)
Definition inner_product (q x : vec) : float :=
  fold_left (fun acc ab => (acc + fst ab * snd ab)%float) (combine q x) 0%float.

(** The integer nearest to [m * 2^e * 10^4], ties to even. *)
Definition scaled_4 (m : positive) (e : Z) : Z :=
  let num := (Z.pos m * 10000)%Z in
  if (0 <=? e)%Z then (num * 2 ^ e)%Z
  else
    let den := (2 ^ (- e))%Z in
    let q := (num / den)%Z in
    let r := (num mod den)%Z in
    if (2 * r <? den)%Z then q
    else if (den <? 2 * r)%Z then (q + 1)%Z
    else if Z.even q then q else (q + 1)%Z.

(** Decimal digits of an integer. *)
Definition decimal (n : Z) : string := NilZero.string_of_int (Z.to_int n).

(** [n / 10^4] written with four decimals, for [n >= 0]. *)
Definition fixed_4 (n : Z) : string :=
  decimal (n / 10000) +:+ "." +:+
  match decimal (10000 + n mod 10000) with
  | String _ frac => frac
  | EmptyString => EmptyString
  end.

(** [f'{x:.4f}']: the exact value of [x], rounded to four decimals. *)
Definition render_4f (x : float) : string :=
  match Prim2SF x with
  | S754_nan => "nan"
  | S754_infinity s => if s then "-inf" else "inf"
  | S754_zero s => if s then "-0.0000" else "0.0000"
  | S754_finite s m e =>
      (if s then "-" else "") +:+ fixed_4 (scaled_4 m e)
  end.

(** The lower-case hexadecimal digit of [n < 16]. *)
Definition hex_digit (n : nat) : ascii :=
  ascii_of_nat (if (n <? 10) then 48 + n else 87 + n).

(** Two hexadecimal digits per character. *)
Fixpoint hex_of_string (s : string) : string :=
  match s with
  | EmptyString => EmptyString
  | String c s' =>
      let n := nat_of_ascii c in
      String (hex_digit (n / 16)) (String (hex_digit (n mod 16)) (hex_of_string s'))
  end.

Lemma renorm_L2_length (x : vec) : length (renorm_L2 x) = length x.
Proof.
  unfold renorm_L2. destruct (0 <? norm_L2sqr x)%float; [|reflexivity].
  apply length_map.
Qed.

Definition binary64_externals : Externals := {|
  normalize_L2 := renorm_L2;
  fvec_inner_product := inner_product;
  format_4f := render_4f;
  sha1_hexdigest := hex_of_string;
  normalize_L2_length := renorm_L2_length
|}.

(** ** Notions used in the statements *)

(** The cold cache: what a reset leaves in the three globals. *)
Definition cold (st : state) : state := set_globals new_index ∅ 0%Z st.

(** The on-disk situations that cannot be loaded. *)
Definition unloadable (st : state) : Prop :=
  index_file st = Absent \/ mapping_file st = Absent \/
  index_file st = Unreadable \/ mapping_file st = Unreadable \/
  exists idx mj, index_file st = Stored idx /\ mapping_file st = Stored mj /\
                 ntotal idx <> size (mapping_of_json mj).

(** A query that is not a string, or a string that is empty once trimmed. *)
Definition blank (query : pyobj) : Prop :=
  match query with
  | PyStr s => strip s = ""
  | PyNonStr _ => True
  end.

(** An event that changes the cache: an entry file written or a vector handed
    to the index. *)
Definition touches_cache (e : event) : bool :=
  match e with
  | EvIndexAdd _ | EvWriteEntry _ => true
  | EvEmbed _ | EvLive _ => false
  end.

(** The event is a live search. *)
Definition is_live (e : event) : bool :=
  match e with EvLive _ => true | _ => false end.

(** The invariant appends maintain: the mapping has one record per vector, the
    counter is the number of vectors, and every key lies below the counter. *)
Definition dense (st : state) : Prop :=
  exists idx : IndexFlatIP,
    faiss_index st = Some idx /\
    size (index_id_to_data st) = ntotal idx /\
    next_faiss_id st = Z.of_nat (ntotal idx) /\
    forall k : Z, is_Some (index_id_to_data st !! k) -> (0 <= k < next_faiss_id st)%Z.

(** What [add_to_cache] writes into the entry file. *)
Definition saved_entry (w : world) (query : string) (result_data : payload) : payload :=
  <["_cache_timestamp" := PFloat (time_now w)]>
    (<["_cached_original_query" := PStr query]> result_data).

(** The state a successful append leaves. *)
Definition appended `{Externals} (w : world) (st : state) (idx : IndexFlatIP)
    (query : string) (v : vec) (result_data : payload) : state :=
  save_faiss_cache w
    (set_globals {| d := d idx; xb := xb idx ++ [v] |}
       (<[next_faiss_id st := (query, cache_filepath query)]> (index_id_to_data st))
       (next_faiss_id st + 1)%Z
       (set_entry_files
          (<[cache_filepath query := Json (saved_entry w query result_data)]>
             (entry_files st)) st)).

(** States of a process that started on a cold cache: resolve calls, and
    entry files changed from outside. *)
Inductive run `{Externals} : state -> Prop :=
  | run_cold (st : state) : run (cold st)
  | run_resolve (w : world) (st : state) (query : pyobj) :
      run st -> run (get_search_results_with_cache w st query).1.2
  | run_files (fs : gmap string entry_file) (st : state) :
      run st -> run (set_entry_files fs st).

(** A process restart: the globals are gone, the files stay. *)
Definition restart (st : state) : state :=
  {| faiss_index := None; index_id_to_data := ∅; next_faiss_id := 0;
     index_file := index_file st; mapping_file := mapping_file st;
     entry_files := entry_files st |}.

(** What the link loop stores for a link whose block ended as [o]; nothing
    when the block raised an exception that is neither a timeout nor a
    WebDriver error. *)
Definition link_text (o : outcome string) : option string :=
  match o with
  | Done page_text =>
      let page_text := String.substring 0 4000 page_text in
      Some (if nonempty page_text then page_text
            else "[No relevant text found on page]")
  | Raises e =>
      match exn_kind e with
      | TimeoutException =>
          Some ("[Timeout Error loading page: "
                +:+ NilZero.string_of_uint (Nat.to_uint LINK_LOAD_TIMEOUT) +:+ "s]")
      | WebDriverException => Some ("[WebDriver Error: " +:+ exn_text e +:+ "]")
      | OtherException => None
      end
  end.

(** A stage raised. *)
Definition raised {A : Type} (o : outcome A) : Prop := exists e, o = Raises e.

(** A stage raised something other than a timeout. *)
Definition fatal {A : Type} (o : outcome A) : Prop :=
  exists e, o = Raises e /\ exn_kind e <> TimeoutException.

(** The run gets as far as parsing the result page. *)
Definition reaches_results (b : browser) : Prop :=
  ~ raised (start_driver b) /\ ~ raised (prepare_search b) /\
  ~ fatal (open_results b) /\ ~ fatal (await_results b).

(** The text stored for the result page. *)
Definition main_page_entry (b : browser) : string :=
  match read_results b with
  | Done main_page_text =>
      if nonempty main_page_text
      then String.substring 0 5000 main_page_text
      else "[No relevant text found on main search page]"
  | Raises e => "[Error parsing main page: " +:+ exn_text e +:+ "]"
  end.

(** A result link passes the filter. *)
Definition kept (tag : string * string) : bool := keep_link tag.1 tag.2.

(** The dictionary the scraper starts from. *)
Abbreviation fresh_result :=
  ({[ "_cache_status" := "Live Search Triggered" ]} : sections).

(** ** Sample states and worlds *)

(** A process that has touched nothing yet: globals not initialised, empty
    cache directory. *)
Definition pristine : state :=
  {| faiss_index := None; index_id_to_data := ∅; next_faiss_id := 0;
     index_file := Absent; mapping_file := Absent; entry_files := ∅ |}.

(** A state whose globals were never initialised and whose persisted pair
    disagrees on the size: one stored vector, no mapping record. *)
Definition torn_state : state :=
  {| faiss_index := None; index_id_to_data := ∅; next_faiss_id := 0;
     index_file := Stored {| d := 2; xb := [[1%float; 0%float]] |};
     mapping_file := Stored {| mj_next_id := Some 1%Z; mj_mapping := None |};
     entry_files := ∅ |}.

(** The threshold 0.96 is a binary64 number that no float32 equals, and the
    scores of the index are float32 numbers: the float32 nearest to 0.96 lies
    below the threshold, the next float32 above it. *)
Definition float32_below_threshold : float := 0x1.eb851ep-1%float.
Definition float32_above_threshold : float := 0x1.eb8520p-1%float.

(** A loaded cache holding one entry whose stored vector has the least float32
    above the threshold as its first component, so that the unit query
    [[1; 0]] scores the smallest score that is a hit. *)
Definition boundary_state : state :=
  {| faiss_index :=
       Some {| d := 2; xb := [[float32_above_threshold; 0%float]] |};
     index_id_to_data := {[ 0%Z := ("Team A vs Team B score", "cache/ab.json") ]};
     next_faiss_id := 1;
     index_file := Absent; mapping_file := Absent;
     entry_files :=
       {[ "cache/ab.json" :=
            Json (<["_cache_timestamp" := PFloat 1700000000%float]>
                    {[ "Source" := PStr "Team A 2 - 1 Team B" ]}) ]} |}.

(** [boundary_state] after its entry file was deleted by hand. *)
Definition stale_state : state := set_entry_files ∅ boundary_state.

(** A world whose embedding client was never initialised. *)
Definition no_client_world : world :=
  {| client_ready := false; embed_content := fun _ => None;
     live_search := fun _ => {["Bing Search Results Page" := "Team A 2 - 1 Team B"]};
     time_now := 0%float; can_write := fun _ => true |}.

(** A world whose embedding is the unit vector [[1; 0]]. *)
Definition unit_query_world : world :=
  {| client_ready := true;
     embed_content := fun _ => Some [1%float; 0%float];
     live_search := fun _ => {[ "Source" := "Team A 3 - 1 Team B" ]};
     time_now := 1700000100%float;
     can_write := fun _ => true |}.

(** A world whose embedding is not of unit length. *)
Definition long_vector_world : world :=
  {| client_ready := true;
     embed_content := fun _ => Some [3%float; 4%float];
     live_search := fun _ => {[ "Source" := "Team C 0 - 0 Team D" ]};
     time_now := 1700000200%float;
     can_write := fun _ => true |}.

(** A world whose scraper cannot start its browser. *)
Definition failing_search_world : world :=
  {| client_ready := true;
     embed_content := fun _ => Some [1%float; 0%float];
     live_search := fun _ =>
       <["error" := "WebDriver initialization failed"]>
         {[ "_cache_status" := "Live Search Triggered" ]};
     time_now := 1700000300%float;
     can_write := fun _ => true |}.

(** An embedding of full dimension and Euclidean length 5. *)
Definition long_embedding : vec := 3%float :: 4%float :: repeat 0%float 766.

(** A world that embeds every query as [long_embedding]. *)
Definition long_embedding_world : world :=
  {| client_ready := true;
     embed_content := fun _ => Some long_embedding;
     live_search := fun _ =>
       <["Bing Search Results Page" := "Team A 2 - 1 Team B"]>
         {[ "_cache_status" := "Live Search Triggered" ]};
     time_now := 1700000400%float;
     can_write := fun _ => true |}.

(** An embedding of full dimension and unit length. *)
Definition unit_embedding : vec := 1%float :: repeat 0%float 767.

(** A world that embeds every query as [unit_embedding]. *)
Definition unit_embedding_world : world :=
  {| client_ready := true;
     embed_content := fun _ => Some unit_embedding;
     live_search := fun _ =>
       <["Bing Search Results Page" := "Team A 2 - 1 Team B"]>
         {[ "_cache_status" := "Live Search Triggered" ]};
     time_now := 1700000500%float;
     can_write := fun _ => true |}.

(** A persisted pair that agrees on the size (one vector, one record) but
    whose mapping file carries no "next_id". *)
Definition drifted_state : state :=
  {| faiss_index := None; index_id_to_data := ∅; next_faiss_id := 0;
     index_file := Stored {| d := EMBEDDING_DIM; xb := [unit_embedding] |};
     mapping_file :=
       Stored {| mj_next_id := None;
                 mj_mapping := Some [(0%Z, ("Team A vs Team B score", "cache/ab.json"))] |};
     entry_files := ∅ |}.

(** Two resolve calls in a row on a pristine cache. *)
Definition first_call : payload * state * list event :=
  @get_search_results_with_cache binary64_externals unit_embedding_world
    pristine (PyStr "Team A vs Team B score").

(** The same query again, on the state the first call left. *)
Definition second_call : payload * state * list event :=
  @get_search_results_with_cache binary64_externals unit_embedding_world
    first_call.1.2 (PyStr "Team A vs Team B score").

(** The state the first call left, after its entry file was deleted by hand. *)
Definition entry_deleted : state := set_entry_files ∅ first_call.1.2.

(** An embedding of full dimension and length 0.5, stored as it is by the
    first call: the same text then scores 0.5 against its own row and is
    searched live a second time. *)
Definition short_embedding : vec := 0.5%float :: repeat 0%float 767.

(** A world that embeds every query as [short_embedding]. *)
Definition short_embedding_world : world :=
  {| client_ready := true;
     embed_content := fun _ => Some short_embedding;
     live_search := fun _ =>
       <["Bing Search Results Page" := "Team A 2 - 1 Team B"]>
         {[ "_cache_status" := "Live Search Triggered" ]};
     time_now := 1700000600%float;
     can_write := fun _ => true |}.


(** An embedding of full dimension close to [unit_embedding]: cosine 0.98. *)
Definition near_embedding : vec :=
  0x1.f5c28f5c28f5cp-1%float :: 0x1.978bfea3afa1dp-3%float :: repeat 0%float 766.

(** A world that embeds every query as [near_embedding] and whose live
    search would bring something else. *)
Definition near_embedding_world : world :=
  {| client_ready := true;
     embed_content := fun _ => Some near_embedding;
     live_search := fun _ => {[ "Bing Search Results Page" := "Team A 5 - 5 Team B" ]};
     time_now := 1700000800%float;
     can_write := fun _ => true |}.

(** A world in which no file can be written. *)
Definition read_only_world : world :=
  {| client_ready := true;
     embed_content := fun _ => Some [0%float; 1%float];
     live_search := fun _ => {[ "Source" := "Team E 1 - 1 Team F" ]};
     time_now := 1700000900%float;
     can_write := fun _ => false |}.

(** A world whose live search comes back with an empty dictionary. *)
Definition empty_search_world : world :=
  {| client_ready := true;
     embed_content := fun _ => Some [0%float; 1%float];
     live_search := fun _ => ∅;
     time_now := 1700001000%float;
     can_write := fun _ => true |}.

(** A timeout, and an exception no handler of the link loop expects. *)
Definition timed_out : exn :=
  {| exn_kind := TimeoutException; exn_name := "TimeoutException";
     exn_text := "Message: timeout" |}.

Definition bad_markup : exn :=
  {| exn_kind := OtherException; exn_name := "ValueError";
     exn_text := "bad markup" |}.

(** The links of a result page: two that pass the filter around two that
    do not, and more than three that pass overall. *)
Definition sample_links : list (string * string) :=
  [ ("Match report", "https://example.org/report");
    ("Sponsored", "https://www.bing.com/aclk");
    ("Jump", "https://example.org/page#top");
    ("Live score", "http://scores.example.net/live");
    ("Archive", "https://example.org/archive");
    ("Preview", "https://example.org/preview") ].

(** A browser whose result page times out while loading but can be read,
    and whose links answer with a text, a timeout and an empty page. *)
Definition patchy_browser : browser :=
  {| start_driver := Done tt;
     prepare_search := Done tt;
     open_results := Raises timed_out;
     await_results := Done tt;
     read_results := Done "India won by 5 wickets";
     result_links := Done sample_links;
     visit_link := fun i _ =>
       match i with
       | O => Done "Full report"
       | 1%nat => Raises timed_out
       | _ => Done ""
       end |}.

(** A browser whose second link raises an unexpected exception. *)
Definition tripping_browser : browser :=
  {| start_driver := Done tt;
     prepare_search := Done tt;
     open_results := Done tt;
     await_results := Done tt;
     read_results := Done "India won by 5 wickets";
     result_links := Done sample_links;
     visit_link := fun i _ =>
       match i with
       | O => Done "Full report"
       | _ => Raises bad_markup
       end |}.

(** A world whose live search is the scraper over a given browser. *)
Definition scraping_world (b : browser) : world :=
  {| client_ready := true;
     embed_content := fun _ => Some [0%float; 1%float];
     live_search := _perform_web_search_and_extract (fun query => query) b;
     time_now := 1700001100%float;
     can_write := fun _ => true |}.

(** Embeddings of full dimension whose only component is the float32 just
    above the threshold, and the float32 nearest to 0.96, just below it. *)
Definition above_embedding : vec := float32_above_threshold :: repeat 0%float 767.
Definition below_embedding : vec := float32_below_threshold :: repeat 0%float 767.

(** Worlds that embed every query as one of them. *)
Definition above_embedding_world : world :=
  {| client_ready := true;
     embed_content := fun _ => Some above_embedding;
     live_search := fun _ =>
       <["Bing Search Results Page" := "Team A 2 - 1 Team B"]>
         {[ "_cache_status" := "Live Search Triggered" ]};
     time_now := 1700001200%float;
     can_write := fun _ => true |}.

Definition below_embedding_world : world :=
  {| client_ready := true;
     embed_content := fun _ => Some below_embedding;
     live_search := fun _ =>
       <["Bing Search Results Page" := "Team A 2 - 1 Team B"]>
         {[ "_cache_status" := "Live Search Triggered" ]};
     time_now := 1700001300%float;
     can_write := fun _ => true |}.

(** The states a first resolve call leaves on a pristine cache in these two
    worlds: the embedding is the only row of the index, stored as it was
    returned. *)
Definition above_cached : state :=
  (@get_search_results_with_cache binary64_externals above_embedding_world
     pristine (PyStr "Team A vs Team B score")).1.2.

Definition below_cached : state :=
  (@get_search_results_with_cache binary64_externals below_embedding_world
     pristine (PyStr "Team A vs Team B score")).1.2.

(** * Properties *)

(** ** The helpers on concrete inputs *)

Example render_4f_one : render_4f 1%float = "1.0000".
Proof. vm_compute. reflexivity. Qed.

Example render_4f_threshold : render_4f CACHE_SIMILARITY_THRESHOLD = "0.9600".
Proof. vm_compute. reflexivity. Qed.

Example render_4f_ties_even : render_4f 0.03125%float = "0.0312".
Proof. vm_compute. reflexivity. Qed.

Example renorm_3_4 :
  renorm_L2 [3%float; 4%float] = [0x1.3333333333334p-1%float; 0x1.999999999999ap-1%float].
Proof. vm_compute. reflexivity. Qed.

Example strip_example : strip "  Team A vs Team B score " = "Team A vs Team B score".
Proof. vm_compute. reflexivity. Qed.

(** ** Loading *)

(** Case analysis on the outcome of the disk read inside [load_faiss_cache]. *)
Ltac case_disk_read st :=
  destruct (exists_file (index_file st) && exists_file (mapping_file st));
  [destruct (try_load st) as [[[? ?] ?]|]|].

Lemma load_loaded (st : state) (idx : IndexFlatIP) :
  faiss_index st = Some idx -> load_faiss_cache st = (idx, st).
Proof. intros Hidx. unfold load_faiss_cache. rewrite Hidx. reflexivity. Qed.

Lemma load_index (st : state) :
  faiss_index (load_faiss_cache st).2 = Some (load_faiss_cache st).1.
Proof.
  unfold load_faiss_cache.
  destruct (faiss_index st) eqn:Hidx; [exact Hidx|].
  case_disk_read st; reflexivity.
Qed.

Lemma load_idempotent (st : state) :
  load_faiss_cache (load_faiss_cache st).2 = load_faiss_cache st.
Proof.
  rewrite (load_loaded _ _ (load_index st)).
  destruct (load_faiss_cache st); reflexivity.
Qed.

Lemma load_entry_files (st : state) :
  entry_files (load_faiss_cache st).2 = entry_files st.
Proof.
  unfold load_faiss_cache.
  destruct (faiss_index st); [reflexivity|].
  case_disk_read st; reflexivity.
Qed.

Lemma try_load_sizes (st : state) idx m n :
  try_load st = Some (idx, m, n) -> ntotal idx = size m.
Proof.
  unfold try_load.
  destruct (index_file st); try discriminate.
  destruct (mapping_file st); try discriminate.
  case_decide as Hsz; [discriminate|].
  intros [= <- <- _]. lia.
Qed.

Lemma unloadable_try_load (st : state) :
  unloadable st ->
  (if exists_file (index_file st) && exists_file (mapping_file st)
   then try_load st else None) = None.
Proof.
  unfold unloadable, try_load.
  intros [Hi|[Hm|[Hi|[Hm|(idx & mj & Hi & Hm & Hsz)]]]].
  - rewrite Hi. reflexivity.
  - rewrite Hm. destruct (index_file st); reflexivity.
  - rewrite Hi. destruct (mapping_file st); reflexivity.
  - rewrite Hm. destruct (index_file st); reflexivity.
  - rewrite Hi, Hm. simpl. case_decide; [reflexivity|contradiction].
Qed.

Lemma get_embedding_events (w : world) (text : string) :
  existsb touches_cache (get_embedding w text).2 = false /\
  existsb is_live (get_embedding w text).2 = false.
Proof.
  unfold get_embedding.
  destruct (client_ready w); simpl; [|done].
  destruct text as [|c text]; [done|].
  destruct (strip (String c text)); [done|].
  destruct (embed_content w _) as [[|x values]|]; done.
Qed.

(** Both cache operations see the state only through the load. *)
Lemma cache_calls_by_load `{Externals} (st st' : state) :
  load_faiss_cache st = load_faiss_cache st' ->
  (forall query v, get_from_cache st query v = get_from_cache st' query v) /\
  (forall w query v result_data,
      add_to_cache w st query v result_data = add_to_cache w st' query v result_data).
Proof.
  intros Hload. split; intros; unfold get_from_cache, add_to_cache;
    rewrite Hload; reflexivity.
Qed.

(** C7. Loading is total and fail-safe: with the globals not yet initialised,
    whenever the index file or the mapping file is missing or cannot be read,
    or the two disagree on the number of records, [load_faiss_cache] returns
    (it has no exceptional outcome) a fresh empty index of dimension
    [EMBEDDING_DIM], an empty mapping and the counter 0; from then on the
    cache behaves as a cold one: a lookup is a plain miss that leaves the
    query vector alone, and lookups and insertions give what they give on the
    reset state. *)
Theorem load_unloadable_gives_cold_cache `{Externals}
    (st : state) (query : string) (v : vec) :
  faiss_index st = None ->
  unloadable st ->
  load_faiss_cache st = (new_index, cold st) /\
  faiss_index (cold st) = Some new_index /\
  ntotal new_index = 0 /\
  index_id_to_data (cold st) = ∅ /\
  next_faiss_id (cold st) = 0%Z /\
  get_from_cache st query v = (MISS, v, cold st) /\
  (forall w result_data,
      add_to_cache w st query (Some v) result_data
        = add_to_cache w (cold st) query (Some v) result_data).
Proof.
  intros Hnone Hbad.
  assert (Hload : load_faiss_cache st = (new_index, cold st)).
  { unfold load_faiss_cache. rewrite Hnone.
    rewrite (unloadable_try_load st Hbad). reflexivity. }
  split; [exact Hload|]. do 4 (split; [reflexivity|]). split.
  - unfold get_from_cache. rewrite Hload. reflexivity.
  - intros w result_data. apply cache_calls_by_load. exact Hload.
Qed.

Lemma load_torn_state_cold :
  load_faiss_cache torn_state = (new_index, cold torn_state) /\
  faiss_index (cold torn_state) = Some new_index /\
  ntotal new_index = 0 /\
  index_id_to_data (cold torn_state) = ∅ /\
  next_faiss_id (cold torn_state) = 0%Z /\
  @get_from_cache binary64_externals torn_state "score" [3%float; 4%float]
    = (@MISS, [3%float; 4%float], cold torn_state) /\
  (forall w result_data,
      @add_to_cache binary64_externals w torn_state "score"
          (Some [3%float; 4%float]) result_data
        = @add_to_cache binary64_externals w (cold torn_state) "score"
            (Some [3%float; 4%float]) result_data).
Proof.
  apply (@load_unloadable_gives_cold_cache binary64_externals torn_state).
  - reflexivity.
  - do 4 right. eexists _, _. split; [reflexivity|]. split; [reflexivity|].
    vm_compute. lia.
Defined.

(** ** Input validation *)

(** C8. For every query that is not a string, or that is empty after trimming
    whitespace, the coordinator returns an error dictionary ("error" and
    "_cache_status" = "Error") at once: the state (index, mapping, counter and
    all files) is returned unchanged and no call was made (no embedding
    request, no live search, no write). *)
Theorem blank_query_rejected `{Externals} (w : world) (st : state) (query : pyobj) :
  blank query ->
  exists msg : string,
    get_search_results_with_cache w st query =
      (<["error" := PStr msg]> (<["_cache_status" := PStr "Error"]> ∅), st, []).
Proof.
  destruct query as [s|b]; simpl.
  - destruct s as [|c s].
    + intros _. eexists. reflexivity.
    + intros Hblank. rewrite Hblank. eexists. reflexivity.
  - intros _. eexists. reflexivity.
Qed.

Lemma whitespace_query_rejected :
  exists msg : string,
    @get_search_results_with_cache binary64_externals
      {| client_ready := true; embed_content := fun _ => Some [1%float];
         live_search := fun _ => {["Source" := "text"]};
         time_now := 0%float; can_write := fun _ => true |}
      torn_state (PyStr "  ") =
      (<["error" := PStr msg]> (<["_cache_status" := PStr "Error"]> ∅), torn_state, []).
Proof.
  apply (@blank_query_rejected binary64_externals). reflexivity.
Defined.

(** ** Embedding failure *)

(** The coordinator, once the query is accepted and could not be embedded. *)
Lemma resolve_not_embedded `{Externals} (w : world) (st : state) (s : string) :
  strip s <> "" ->
  (get_embedding w (strip s)).1 = None ->
  get_search_results_with_cache w st (PyStr s) =
    (<["_cache_status" := PStr "Live Search (Embedding Failed)"]>
       (as_payload (live_search w (strip s))),
     st,
     (get_embedding w (strip s)).2 ++ [EvLive (strip s)]).
Proof.
  intros Hq Hemb. unfold get_search_results_with_cache.
  destruct s as [|c s]; [done|].
  destruct (strip (String c s)) as [|c' q] eqn:Hstrip; [done|].
  destruct (get_embedding w (String c' q)) as [[v|] evs]; [discriminate|].
  reflexivity.
Qed.

(** C9. Whenever [get_embedding] returns no vector for the (trimmed, non-empty)
    query, the coordinator does not consult the cache: it performs the live
    search, returns its dictionary with "_cache_status" set to
    "Live Search (Embedding Failed)", and returns the state unchanged (index,
    mapping, counter and entry files); the calls made are the embedding
    request, if one was sent, and the live search, and none of them touches
    the cache. *)
Theorem embedding_failure_goes_live `{Externals} (w : world) (st : state) (s : string) :
  strip s <> "" ->
  (get_embedding w (strip s)).1 = None ->
  get_search_results_with_cache w st (PyStr s) =
    (<["_cache_status" := PStr "Live Search (Embedding Failed)"]>
       (as_payload (live_search w (strip s))),
     st,
     (get_embedding w (strip s)).2 ++ [EvLive (strip s)]) /\
  existsb touches_cache ((get_embedding w (strip s)).2 ++ [EvLive (strip s)]) = false.
Proof.
  intros Hq Hemb. split.
  - exact (resolve_not_embedded w st s Hq Hemb).
  - rewrite existsb_app.
    rewrite (proj1 (get_embedding_events w (strip s))). reflexivity.
Qed.

Lemma no_client_goes_live :
  @get_search_results_with_cache binary64_externals no_client_world torn_state
      (PyStr " Team A vs Team B score") =
    (<["_cache_status" := PStr "Live Search (Embedding Failed)"]>
       (as_payload (live_search no_client_world (strip " Team A vs Team B score"))),
     torn_state,
     (get_embedding no_client_world (strip " Team A vs Team B score")).2
       ++ [EvLive (strip " Team A vs Team B score")]) /\
  existsb touches_cache
    ((get_embedding no_client_world (strip " Team A vs Team B score")).2
       ++ [EvLive (strip " Team A vs Team B score")]) = false.
Proof.
  apply (@embedding_failure_goes_live binary64_externals).
  - vm_compute. discriminate.
  - reflexivity.
Defined.

(** ** Order on binary64 floats *)

Lemma SFcompare_Lt_swap (a b : spec_float) :
  SFcompare a b = Some Lt -> SFcompare b a = Some Gt.
Proof.
  destruct a as [sa|sa| |sa ma ea], b as [sb|sb| |sb mb eb]; simpl;
    try destruct sa; try destruct sb; try done;
    change (Pos.compare_cont Eq mb ma) with (mb ?= ma)%positive;
    change (Pos.compare_cont Eq ma mb) with (ma ?= mb)%positive;
    rewrite (Z.compare_antisym ea eb), (Pos.compare_antisym ma mb);
    destruct (ea ?= eb)%Z; simpl; try done;
    destruct (ma ?= mb)%positive; simpl; done.
Qed.

(** [x < y] excludes [x >= y]. *)
Lemma ltb_not_geb (x y : float) : (x <? y)%float = true -> (y <=? x)%float = false.
Proof.
  rewrite ltb_spec, leb_spec. unfold SFltb, SFleb.
  destruct (SFcompare (Prim2SF x) (Prim2SF y)) as [[]|] eqn:Hc; try done.
  intros _. rewrite (SFcompare_Lt_swap _ _ Hc). reflexivity.
Qed.

(** A score that meets the threshold is above the seed of the top-1 scan. *)
Lemma threshold_above_lowest (x : float) :
  (CACHE_SIMILARITY_THRESHOLD <=? x)%float = true -> (FLT_LOWEST <? x)%float = true.
Proof.
  rewrite ltb_spec, leb_spec.
  replace (Prim2SF CACHE_SIMILARITY_THRESHOLD)
    with (S754_finite false 8646911284551352 (-53)) by (vm_compute; reflexivity).
  replace (Prim2SF FLT_LOWEST)
    with (S754_finite true 9007198717870080 75) by (vm_compute; reflexivity).
  unfold SFltb, SFleb.
  destruct (Prim2SF x) as [s|s| |s m e]; simpl; try destruct s; done.
Qed.

(** ** How the functions compose *)

Lemma save_keeps_memory (w : world) (st : state) :
  faiss_index (save_faiss_cache w st) = faiss_index st /\
  index_id_to_data (save_faiss_cache w st) = index_id_to_data st /\
  next_faiss_id (save_faiss_cache w st) = next_faiss_id st /\
  entry_files (save_faiss_cache w st) = entry_files st.
Proof.
  unfold save_faiss_cache.
  destruct (faiss_index st) as [idx|] eqn:Hidx; [|done].
  destruct (_ && _); [|done].
  destruct (can_write w CACHE_INDEX_FILE); [|done].
  destruct (can_write w CACHE_MAPPING_FILE); done.
Qed.

Section CacheFacts.
Context `{Externals}.

(** The lookup, once the load is known. *)
Lemma get_from_cache_loaded (st st1 : state) (idx : IndexFlatIP)
    (query : string) (v : vec) :
  load_faiss_cache st = (idx, st1) ->
  get_from_cache st query v =
    if (ntotal idx =? 0)%nat then (MISS, v, st1)
    else
      (match index_search idx (normalize_L2 v) with
       | Some (score, id) =>
           if (CACHE_SIMILARITY_THRESHOLD <=? score)%float
           then cached_entry_lookup st1 id score else MISS
       | None => MISS
       end, normalize_L2 v, st1).
Proof.
  intros Hload. unfold get_from_cache. rewrite Hload.
  destruct (ntotal idx =? 0)%nat; [reflexivity|].
  destruct (index_search idx (normalize_L2 v)) as [[score id]|]; [|reflexivity].
  destruct (CACHE_SIMILARITY_THRESHOLD <=? score)%float; reflexivity.
Qed.

Lemma get_from_cache_state (st : state) (query : string) (v : vec) :
  (get_from_cache st query v).2 = (load_faiss_cache st).2.
Proof.
  destruct (load_faiss_cache st) as [idx st1] eqn:Hload.
  rewrite (get_from_cache_loaded st st1 idx query v Hload).
  destruct (ntotal idx =? 0)%nat; reflexivity.
Qed.

(** The coordinator, once the query is accepted and embedded. *)
Lemma resolve_embedded (w : world) (st : state) (s query : string) (v : vec)
    (evs : list event) :
  strip s = query -> query <> "" ->
  get_embedding w query = (Some v, evs) ->
  get_search_results_with_cache w st (PyStr s) =
    match (get_from_cache st query v).1.1.1 with
    | Some cached_data => (cached_data, (get_from_cache st query v).2, evs)
    | None =>
        after_calls evs
          (live_and_cache w (get_from_cache st query v).2 query
             (get_from_cache st query v).1.2)
    end.
Proof.
  intros Hstrip Hq Hemb. unfold get_search_results_with_cache.
  destruct s as [|c s]; [by subst|].
  rewrite Hstrip. destruct query as [|c' q]; [done|].
  rewrite Hemb.
  destruct (get_from_cache st (String c' q) v) as [[cached qv] st']. reflexivity.
Qed.

(** [add_to_cache] on a state that is already loaded. *)
Lemma add_to_cache_loaded (w : world) (st : state) (idx : IndexFlatIP)
    (query : string) (v : vec) (result_data : payload) :
  faiss_index st = Some idx ->
  add_to_cache w st query (Some v) result_data =
    let path := cache_filepath query in
    let saved :=
      <["_cache_timestamp" := PFloat (time_now w)]>
        (<["_cached_original_query" := PStr query]> result_data) in
    if can_write w path then
      let st2 := set_entry_files (<[path := Json saved]> (entry_files st)) st in
      match index_add idx v with
      | Some idx' =>
          (true,
           save_faiss_cache w
             (set_globals idx' (<[next_faiss_id st := (query, path)]> (index_id_to_data st))
                (next_faiss_id st + 1)%Z st2),
           [EvWriteEntry path; EvIndexAdd v])
      | None => (false, st2, [EvWriteEntry path; EvIndexAdd v])
      end
    else (false, st, []).
Proof.
  intros Hidx. unfold add_to_cache. rewrite (load_loaded st idx Hidx). reflexivity.
Qed.

(** Records of the mapping survive [add_to_cache]. *)
Lemma add_to_cache_keeps_records (w : world) (st : state) (idx : IndexFlatIP)
    (query : string) (v : vec) (result_data : payload) (k : Z) :
  faiss_index st = Some idx ->
  is_Some (index_id_to_data st !! k) ->
  is_Some (index_id_to_data (add_to_cache w st query (Some v) result_data).1.2 !! k).
Proof.
  intros Hidx Hk. rewrite (add_to_cache_loaded w st idx query v result_data Hidx).
  simpl. destruct (can_write w (cache_filepath query)); [|exact Hk].
  destruct (index_add idx v) as [idx'|]; [|exact Hk].
  simpl. rewrite (proj1 (proj2 (save_keeps_memory w _))). simpl.
  destruct (decide (next_faiss_id st = k)) as [->|Hne].
  - rewrite lookup_insert_eq. eauto.
  - rewrite lookup_insert_ne by exact Hne. exact Hk.
Qed.

(** The only vector [add_to_cache] hands to the index is its argument. *)
Lemma add_to_cache_adds (w : world) (st : state) (query : string) (v x : vec)
    (result_data : payload) :
  In (EvIndexAdd x) (add_to_cache w st query (Some v) result_data).2 -> x = v.
Proof.
  unfold add_to_cache. destruct (load_faiss_cache st) as [idx st1].
  destruct (can_write w (cache_filepath query)); [|intros []].
  destruct (index_add idx v); simpl; intros [[=]|[[=]|[]]]; done.
Qed.

(** The miss branch: which vector can reach the index, and that the live
    search is its first call. *)
Lemma live_and_cache_adds (w : world) (st : state) (query : string) (qv x : vec) :
  In (EvIndexAdd x) (live_and_cache w st query qv).2 -> x = qv.
Proof.
  unfold live_and_cache.
  destruct (negb _ && _).
  - pose proof (add_to_cache_adds w st query qv x
                  (as_payload (live_search w query))) as Hadd.
    destruct (add_to_cache w st query (Some qv) _) as [[b st'] evs].
    simpl in *. intros [[=]|Hin]. exact (Hadd Hin).
  - destruct (has_key "error" _); simpl; intros [[=]|[]].
Qed.

End CacheFacts.

(** ** The miss branch *)

Lemma get_embedding_only_embeds (w : world) (text : string) (e : event) :
  In e (get_embedding w text).2 -> e = EvEmbed (strip text).
Proof.
  unfold get_embedding.
  destruct (client_ready w); simpl; [|intros []].
  destruct text as [|c text]; [intros []|].
  destruct (strip (String c text)) as [|c' t]; [intros []|].
  destruct (embed_content w _) as [[|x values]|]; simpl; intros [<-|[]]; done.
Qed.

Lemma has_key_as_payload (key : string) (found : sections) :
  has_key key (as_payload found) = bool_decide (is_Some (found !! key)).
Proof.
  unfold has_key, as_payload. apply bool_decide_ext.
  rewrite lookup_fmap. apply fmap_is_Some.
Qed.

Section MissFacts.
Context `{Externals}.

(** A failed live search: the dictionary gets its failure status and nothing
    else happens. *)
Lemma live_and_cache_error (w : world) (st : state) (query : string) (qv : vec)
    (err : string) :
  live_search w query !! "error" = Some err ->
  live_and_cache w st query qv =
    (<["_cache_status" := PStr ("Live Search Failed (" +:+ err +:+ ")")]>
       (as_payload (live_search w query)),
     st, [EvLive query]).
Proof.
  intros Herr. unfold live_and_cache.
  rewrite has_key_as_payload, Herr.
  rewrite bool_decide_eq_true_2 by eauto. reflexivity.
Qed.

(** The live search is always the first call of the miss branch. *)
Lemma live_and_cache_goes_live (w : world) (st : state) (query : string) (qv : vec) :
  In (EvLive query) (live_and_cache w st query qv).2.
Proof.
  unfold live_and_cache. destruct (negb _ && _).
  - destruct (add_to_cache w st query (Some qv) _) as [[b st'] evs]. left. reflexivity.
  - destruct (has_key "error" _); left; reflexivity.
Qed.

Lemma live_and_cache_keeps_records (w : world) (st : state) (idx : IndexFlatIP)
    (query : string) (qv : vec) (k : Z) :
  faiss_index st = Some idx ->
  is_Some (index_id_to_data st !! k) ->
  is_Some (index_id_to_data (live_and_cache w st query qv).1.2 !! k).
Proof.
  intros Hidx Hk. unfold live_and_cache. destruct (negb _ && _).
  - pose proof (add_to_cache_keeps_records w st idx query qv
                  (as_payload (live_search w query)) k Hidx Hk) as Hkeep.
    destruct (add_to_cache w st query (Some qv) _) as [[b st'] evs]. exact Hkeep.
  - destruct (has_key "error" _); exact Hk.
Qed.

(** Rows of the index after the miss branch: the old ones, possibly followed
    by the vector the branch was given. *)
Lemma live_and_cache_rows (w : world) (st : state) (idx idx' : IndexFlatIP)
    (query : string) (qv : vec) :
  faiss_index st = Some idx ->
  faiss_index (live_and_cache w st query qv).1.2 = Some idx' ->
  xb idx' = xb idx \/ xb idx' = xb idx ++ [qv].
Proof.
  intros Hidx. unfold live_and_cache. destruct (negb _ && _).
  - rewrite (add_to_cache_loaded w st idx query qv _ Hidx). simpl.
    destruct (can_write w (cache_filepath query)); simpl.
    + unfold index_add. case_decide; simpl.
      * rewrite (proj1 (save_keeps_memory w _)). simpl.
        intros [= <-]. right. reflexivity.
      * rewrite Hidx. intros [= <-]. left. reflexivity.
    + rewrite Hidx. intros [= <-]. left. reflexivity.
  - destruct (has_key "error" _); simpl; rewrite Hidx; intros [= <-];
      left; reflexivity.
Qed.

End MissFacts.

(** ** Threshold decision *)

(** [x < y] gives [x <= y]. *)
Lemma ltb_leb (x y : float) : (x <? y)%float = true -> (x <=? y)%float = true.
Proof.
  rewrite ltb_spec, leb_spec. unfold SFltb, SFleb.
  destruct (SFcompare (Prim2SF x) (Prim2SF y)) as [[]|]; done.
Qed.

(** C4. Threshold decision of a resolve call on a non-empty index, whose top-1
    search returned [score] and [id].  A score strictly below
    [CACHE_SIMILARITY_THRESHOLD] (0.96) makes the lookup a miss, and the
    coordinator performs the live search.  A score equal to the threshold or
    above it takes the cached-entry branch: when the mapping has a record for
    [id] and its entry file holds a JSON object, the lookup returns that
    object (bookkeeping keys removed, "HIT" status, the score) and the
    coordinator returns it without a live search; when the record or a
    readable entry file is missing, the lookup is a miss and the coordinator
    performs the live search. *)
Theorem threshold_decision `{Externals} (w : world) (st st1 : state)
    (idx : IndexFlatIP) (s query : string) (v : vec) (evs : list event)
    (score : float) (id : Z) :
  strip s = query -> query <> "" ->
  get_embedding w query = (Some v, evs) ->
  load_faiss_cache st = (idx, st1) ->
  ntotal idx <> 0 ->
  index_search idx (normalize_L2 v) = Some (score, id) ->
  ((score <? CACHE_SIMILARITY_THRESHOLD)%float = true ->
     get_from_cache st query v = ((None, (-1)%float), normalize_L2 v, st1) /\
     get_search_results_with_cache w st (PyStr s) =
       after_calls evs (live_and_cache w st1 query (normalize_L2 v)) /\
     In (EvLive query) (get_search_results_with_cache w st (PyStr s)).2) /\
  (score = CACHE_SIMILARITY_THRESHOLD \/
   (CACHE_SIMILARITY_THRESHOLD <? score)%float = true ->
     (forall cached_query_str cached_filepath cached_data,
        index_id_to_data st1 !! id = Some (cached_query_str, cached_filepath) ->
        entry_files st1 !! cached_filepath = Some (Json cached_data) ->
        get_from_cache st query v =
          ((Some (<["_cache_status" := PStr (hit_status score)]>
                    (delete "_cache_timestamp"
                       (delete "_cached_original_query" cached_data))),
            score),
           normalize_L2 v, st1) /\
        get_search_results_with_cache w st (PyStr s) =
          (<["_cache_status" := PStr (hit_status score)]>
             (delete "_cache_timestamp"
                (delete "_cached_original_query" cached_data)),
           st1, evs) /\
        existsb is_live (get_search_results_with_cache w st (PyStr s)).2 = false) /\
     (index_id_to_data st1 !! id = None \/
      (exists cached_query_str cached_filepath,
         index_id_to_data st1 !! id = Some (cached_query_str, cached_filepath) /\
         forall cached_data,
           entry_files st1 !! cached_filepath <> Some (Json cached_data)) ->
        get_from_cache st query v = ((None, (-1)%float), normalize_L2 v, st1) /\
        get_search_results_with_cache w st (PyStr s) =
          after_calls evs (live_and_cache w st1 query (normalize_L2 v)) /\
        In (EvLive query) (get_search_results_with_cache w st (PyStr s)).2)).
Proof.
  intros Hstrip Hq Hemb Hload Hn Hsearch.
  assert (Hget : get_from_cache st query v =
                 (if (CACHE_SIMILARITY_THRESHOLD <=? score)%float
                  then cached_entry_lookup st1 id score else MISS,
                  normalize_L2 v, st1)).
  { rewrite (get_from_cache_loaded st st1 idx query v Hload).
    apply Nat.eqb_neq in Hn. rewrite Hn, Hsearch. reflexivity. }
  pose proof (resolve_embedded w st s query v evs Hstrip Hq Hemb) as Hres.
  rewrite Hget in Hres. cbn [fst snd] in Hres.
  assert (Hlive : In (EvLive query)
                    (after_calls evs (live_and_cache w st1 query (normalize_L2 v))).2).
  { unfold after_calls. cbn [snd]. apply in_or_app. right.
    apply live_and_cache_goes_live. }
  split.
  - intros Hlt. apply ltb_not_geb in Hlt. rewrite Hlt in Hget, Hres.
    split; [exact Hget|]. split; [exact Hres|]. rewrite Hres. exact Hlive.
  - intros Hge.
    assert (Hleb : (CACHE_SIMILARITY_THRESHOLD <=? score)%float = true).
    { destruct Hge as [->|Hlt]; [vm_compute; reflexivity|by apply ltb_leb]. }
    rewrite Hleb in Hget, Hres. unfold cached_entry_lookup in Hget, Hres.
    split.
    + intros cached_query_str cached_filepath cached_data Hrec Hfile.
      rewrite Hrec, Hfile in Hget, Hres. cbn [fst] in Hres.
      split; [exact Hget|]. split; [exact Hres|].
      rewrite Hres. cbn [snd].
      pose proof (get_embedding_events w query) as [_ Hev].
      rewrite Hemb in Hev. exact Hev.
    + intros Hmissing.
      assert (Hnone :
        match index_id_to_data st1 !! id with
        | Some (_, cached_filepath) =>
            match entry_files st1 !! cached_filepath with
            | Some (Json cached_data) =>
                (Some (<["_cache_status" := PStr (hit_status score)]>
                         (pop "_cache_timestamp"
                            (pop "_cached_original_query" cached_data))),
                 score)
            | Some Garbled => MISS
            | None => MISS
            end
        | None => MISS
        end = MISS).
      { destruct Hmissing as [->|(cq & path & -> & Hfile)]; [reflexivity|].
        destruct (entry_files st1 !! path) as [[|cached_data]|] eqn:Hf;
          [reflexivity| |reflexivity].
        destruct (Hfile cached_data). reflexivity. }
      rewrite Hnone in Hget, Hres. cbn [fst MISS] in Hres.
      split; [exact Hget|]. split; [exact Hres|]. rewrite Hres. exact Hlive.
Qed.

(** Two caches that a first resolve call filled, probed with the unit
    vector.  Against the row holding the least float32 above the threshold
    the score is the smallest one that is a hit, and the entry is served from
    the cache; against the row holding the float32 nearest to 0.96 the score
    is the largest one that is a miss, and the coordinator searches live. *)
Lemma threshold_boundary_is_hit :
  (@get_from_cache binary64_externals above_cached "Team A vs Team B result"
       unit_embedding).1.1
    = (Some (<["_cache_status" := PStr "HIT (Similarity: 0.9600)"]>
               {[ "Bing Search Results Page" := PStr "Team A 2 - 1 Team B" ]}),
       float32_above_threshold) /\
  @get_search_results_with_cache binary64_externals unit_embedding_world
      above_cached (PyStr "Team A vs Team B result")
    = (<["_cache_status" := PStr "HIT (Similarity: 0.9600)"]>
         {[ "Bing Search Results Page" := PStr "Team A 2 - 1 Team B" ]},
       above_cached, [EvEmbed "Team A vs Team B result"]) /\
  (@get_from_cache binary64_externals below_cached "Team A vs Team B result"
       unit_embedding).1.1
    = (None, (-1)%float) /\
  In (EvLive "Team A vs Team B result")
     (@get_search_results_with_cache binary64_externals unit_embedding_world
        below_cached (PyStr "Team A vs Team B result")).2.
Proof.
  destruct (@threshold_decision binary64_externals unit_embedding_world above_cached
              above_cached {| d := EMBEDDING_DIM; xb := [above_embedding] |}
              "Team A vs Team B result" "Team A vs Team B result"
              unit_embedding [EvEmbed "Team A vs Team B result"]
              float32_above_threshold 0%Z)
    as [_ Habove].
  { vm_compute. reflexivity. }
  { discriminate. }
  { vm_compute. reflexivity. }
  { vm_compute. reflexivity. }
  { unfold ntotal. simpl. lia. }
  { vm_compute. reflexivity. }
  destruct (@threshold_decision binary64_externals unit_embedding_world below_cached
              below_cached {| d := EMBEDDING_DIM; xb := [below_embedding] |}
              "Team A vs Team B result" "Team A vs Team B result"
              unit_embedding [EvEmbed "Team A vs Team B result"]
              float32_below_threshold 0%Z)
    as [Hbelow _].
  { vm_compute. reflexivity. }
  { discriminate. }
  { vm_compute. reflexivity. }
  { vm_compute. reflexivity. }
  { unfold ntotal. simpl. lia. }
  { vm_compute. reflexivity. }
  destruct Habove as [Hhit _]; [right; vm_compute; reflexivity|].
  destruct (Hhit "Team A vs Team B score"
              (@cache_filepath binary64_externals "Team A vs Team B score")
              (<["_cache_timestamp" := PFloat 1700001200%float]>
                 (<["_cached_original_query" := PStr "Team A vs Team B score"]>
                    (as_payload (live_search above_embedding_world
                                   "Team A vs Team B score")))))
    as (Hget & Hres & _); [vm_compute; reflexivity|vm_compute; reflexivity|].
  destruct Hbelow as (Hmiss & _ & Hlive); [vm_compute; reflexivity|].
  split; [rewrite Hget; vm_compute; reflexivity|].
  split; [rewrite Hres; vm_compute; reflexivity|].
  split; [rewrite Hmiss; reflexivity|exact Hlive].
Defined.

Example float32_threshold_query_searches_live :
  (@get_search_results_with_cache binary64_externals unit_embedding_world
     below_cached (PyStr "Team A vs Team B result")).1.1 !! "_cache_status"
    = Some (PStr "Live Search (Cache Miss)") /\
  xb <$> faiss_index above_cached = Some [above_embedding] /\
  xb <$> faiss_index below_cached = Some [below_embedding] /\
  (float32_below_threshold <? CACHE_SIMILARITY_THRESHOLD)%float = true /\
  (CACHE_SIMILARITY_THRESHOLD <? float32_above_threshold)%float = true.
Proof. vm_compute. repeat split; reflexivity. Qed.

(** ** A mapping record whose entry file is gone *)

(** C1. A resolve call on a non-empty index whose top-1 score meets the
    threshold and whose matched [id] has a mapping record pointing to an entry
    file that no longer exists: the coordinator performs the live search, and
    when the call returns the mapping still holds a record under [id] (the
    stale record is not removed). *)
Theorem stale_record_stays_in_mapping `{Externals} (w : world) (st st1 : state)
    (idx : IndexFlatIP) (s query : string) (v : vec) (evs : list event)
    (score : float) (id : Z) (cached_query_str cached_filepath : string) :
  strip s = query -> query <> "" ->
  get_embedding w query = (Some v, evs) ->
  load_faiss_cache st = (idx, st1) ->
  ntotal idx <> 0 ->
  index_search idx (normalize_L2 v) = Some (score, id) ->
  (CACHE_SIMILARITY_THRESHOLD <=? score)%float = true ->
  index_id_to_data st1 !! id = Some (cached_query_str, cached_filepath) ->
  entry_files st1 !! cached_filepath = None ->
  In (EvLive query) (get_search_results_with_cache w st (PyStr s)).2 /\
  is_Some (index_id_to_data (get_search_results_with_cache w st (PyStr s)).1.2 !! id).
Proof.
  intros Hstrip Hq Hemb Hload Hn Hsearch Hge Hrec Hgone.
  assert (Hidx : faiss_index st1 = Some idx).
  { pose proof (load_index st) as Hli. rewrite Hload in Hli. exact Hli. }
  rewrite (resolve_embedded w st s query v evs Hstrip Hq Hemb).
  rewrite (get_from_cache_loaded st st1 idx query v Hload).
  apply Nat.eqb_neq in Hn. rewrite Hn, Hsearch, Hge.
  unfold cached_entry_lookup. rewrite Hrec, Hgone. simpl. split.
  - apply in_or_app. right. apply live_and_cache_goes_live.
  - apply (live_and_cache_keeps_records w st1 idx); [exact Hidx|].
    rewrite Hrec. eauto.
Qed.

Lemma deleted_entry_record_kept :
  In (EvLive "Team A vs Team B result")
     (@get_search_results_with_cache binary64_externals unit_embedding_world
        entry_deleted (PyStr "Team A vs Team B result")).2 /\
  is_Some
    (index_id_to_data
       (@get_search_results_with_cache binary64_externals unit_embedding_world
          entry_deleted (PyStr "Team A vs Team B result")).1.2 !! 0%Z).
Proof.
  apply (@stale_record_stays_in_mapping binary64_externals unit_embedding_world
           entry_deleted entry_deleted
           {| d := EMBEDDING_DIM; xb := [unit_embedding] |}
           "Team A vs Team B result" "Team A vs Team B result"
           unit_embedding [EvEmbed "Team A vs Team B result"]
           1%float 0%Z "Team A vs Team B score"
           (@cache_filepath binary64_externals "Team A vs Team B score")).
  - vm_compute. reflexivity.
  - discriminate.
  - vm_compute. reflexivity.
  - vm_compute. reflexivity.
  - unfold ntotal. simpl. lia.
  - vm_compute. reflexivity.
  - vm_compute. reflexivity.
  - vm_compute. reflexivity.
  - vm_compute. reflexivity.
Defined.

(** The whole mapping after that call: the stale record under 0 is intact,
    still pointing to the deleted file, and the new record sits next to it. *)
Example deleted_entry_mapping_after :
  index_id_to_data
    (@get_search_results_with_cache binary64_externals unit_embedding_world
       entry_deleted (PyStr "Team A vs Team B result")).1.2 =
  <[1%Z := ("Team A vs Team B result",
            @cache_filepath binary64_externals "Team A vs Team B result")]>
    {[ 0%Z := ("Team A vs Team B score",
               @cache_filepath binary64_externals "Team A vs Team B score") ]} /\
  entry_files
    (@get_search_results_with_cache binary64_externals unit_embedding_world
       entry_deleted (PyStr "Team A vs Team B result")).1.2
    !! @cache_filepath binary64_externals "Team A vs Team B score" = None.
Proof. vm_compute. split; reflexivity. Qed.

(** ** What the lookup does to the query vector *)

Section StoredVector.
Context `{Externals}.

(** The miss handling with a usable live result that can be stored: its
    calls, and the rows of the index afterwards. *)
Lemma live_and_cache_stores (w : world) (st : state) (idx : IndexFlatIP)
    (query : string) (qv : vec) :
  faiss_index st = Some idx ->
  live_search w query !! "error" = None ->
  size (live_search w query) <> 0 ->
  can_write w (cache_filepath query) = true ->
  length qv = d idx ->
  (live_and_cache w st query qv).2
    = [EvLive query; EvWriteEntry (cache_filepath query); EvIndexAdd qv] /\
  xb <$> faiss_index (live_and_cache w st query qv).1.2 = Some (xb idx ++ [qv]).
Proof.
  intros Hidx Herr Hsize Hwrite Hlen. unfold live_and_cache.
  rewrite has_key_as_payload, Herr.
  rewrite bool_decide_eq_false_2 by (by intros []).
  assert (Htruthy : truthy_dict (as_payload (live_search w query)) = true).
  { unfold truthy_dict, as_payload. rewrite map_size_fmap.
    by apply negb_true_iff, bool_decide_eq_false. }
  rewrite Htruthy. cbn [negb andb].
  rewrite (add_to_cache_loaded w st idx query qv _ Hidx). cbv zeta.
  rewrite Hwrite. unfold index_add. rewrite decide_True by exact Hlen.
  cbn [fst snd]. split; [reflexivity|].
  rewrite (proj1 (save_keeps_memory w _)). reflexivity.
Qed.

End StoredVector.

(** C10. The lookup normalizes the caller's vector in place exactly when the
    index is not empty, and the miss handling stores the array as the lookup
    left it.  For a resolve call that embedded its query as [v]: with a
    non-empty index the caller's array holds [normalize_L2 v] when
    [get_from_cache] returns, the search was run on that normalized array, any
    vector handed to the index is that same array, and when the lookup misses
    and the live result is usable and can be stored, the call hands
    [normalize_L2 v] to the index, whose rows afterwards are the old rows
    followed by [normalize_L2 v]; with an empty index the array is returned
    as it was passed, and it is [v] itself that is appended. *)
Theorem lookup_normalizes_shared_vector `{Externals} (w : world) (st st1 : state)
    (idx : IndexFlatIP) (s query : string) (v : vec) (evs : list event) :
  strip s = query -> query <> "" ->
  get_embedding w query = (Some v, evs) ->
  load_faiss_cache st = (idx, st1) ->
  (ntotal idx <> 0 ->
     (get_from_cache st query v).1.2 = normalize_L2 v /\
     (get_from_cache st query v).1.1 =
       match index_search idx (normalize_L2 v) with
       | Some (score, id) =>
           if (CACHE_SIMILARITY_THRESHOLD <=? score)%float
           then cached_entry_lookup st1 id score else MISS
       | None => MISS
       end /\
     (forall x, In (EvIndexAdd x) (get_search_results_with_cache w st (PyStr s)).2 ->
                x = normalize_L2 v) /\
     (forall idx',
        faiss_index (get_search_results_with_cache w st (PyStr s)).1.2 = Some idx' ->
        xb idx' = xb idx \/ xb idx' = xb idx ++ [normalize_L2 v]) /\
     ((get_from_cache st query v).1.1.1 = None ->
      live_search w query !! "error" = None ->
      size (live_search w query) <> 0 ->
      can_write w (cache_filepath query) = true ->
      length v = d idx ->
      (get_search_results_with_cache w st (PyStr s)).2
        = evs ++ [EvLive query; EvWriteEntry (cache_filepath query);
                  EvIndexAdd (normalize_L2 v)] /\
      xb <$> faiss_index (get_search_results_with_cache w st (PyStr s)).1.2
        = Some (xb idx ++ [normalize_L2 v]))) /\
  (ntotal idx = 0 ->
     (get_from_cache st query v).1.2 = v /\
     (forall x, In (EvIndexAdd x) (get_search_results_with_cache w st (PyStr s)).2 ->
                x = v) /\
     (forall idx',
        faiss_index (get_search_results_with_cache w st (PyStr s)).1.2 = Some idx' ->
        xb idx' = xb idx \/ xb idx' = xb idx ++ [v]) /\
     (live_search w query !! "error" = None ->
      size (live_search w query) <> 0 ->
      can_write w (cache_filepath query) = true ->
      length v = d idx ->
      (get_search_results_with_cache w st (PyStr s)).2
        = evs ++ [EvLive query; EvWriteEntry (cache_filepath query); EvIndexAdd v] /\
      xb <$> faiss_index (get_search_results_with_cache w st (PyStr s)).1.2
        = Some (xb idx ++ [v]))).
Proof.
  intros Hstrip Hq Hemb Hload.
  assert (Hidx : faiss_index st1 = Some idx).
  { pose proof (load_index st) as Hli. rewrite Hload in Hli. exact Hli. }
  assert (Hevs : forall x, ~ In (EvIndexAdd x) evs).
  { intros x Hin. pose proof (get_embedding_only_embeds w query (EvIndexAdd x)) as He.
    rewrite Hemb in He. specialize (He Hin). discriminate. }
  pose proof (resolve_embedded w st s query v evs Hstrip Hq Hemb) as Hres.
  pose proof (get_from_cache_loaded st st1 idx query v Hload) as Hget.
  split; intros Hn.
  - apply Nat.eqb_neq in Hn. rewrite Hn in Hget. rewrite Hget in Hres |- *.
    cbn [fst snd] in Hres |- *.
    split; [reflexivity|]. split; [reflexivity|]. split; [|split].
    + intros x. rewrite Hres.
      destruct (match index_search idx (normalize_L2 v) with _ => _ end).1;
        simpl; [intros Hin; destruct (Hevs x Hin)|].
      intros [Hin|Hin]%in_app_or; [destruct (Hevs x Hin)|].
      exact (live_and_cache_adds w st1 query _ x Hin).
    + intros idx'. rewrite Hres.
      destruct (match index_search idx (normalize_L2 v) with _ => _ end).1; simpl.
      * rewrite Hidx. intros [= <-]. left. reflexivity.
      * apply live_and_cache_rows. exact Hidx.
    + intros Hmiss Herr Hsize Hwrite Hlen. rewrite Hmiss in Hres. rewrite Hres.
      unfold after_calls. cbn [fst snd].
      destruct (live_and_cache_stores w st1 idx query (normalize_L2 v))
        as [Hcalls Hrows]; try done.
      { by rewrite normalize_L2_length. }
      rewrite Hcalls, Hrows. done.
  - apply Nat.eqb_eq in Hn. rewrite Hn in Hget. rewrite Hget in Hres |- *.
    cbn [fst snd MISS] in Hres |- *.
    split; [reflexivity|]. split; [|split].
    + intros x. rewrite Hres. simpl.
      intros [Hin|Hin]%in_app_or; [destruct (Hevs x Hin)|].
      exact (live_and_cache_adds w st1 query _ x Hin).
    + intros idx'. rewrite Hres. simpl. apply live_and_cache_rows. exact Hidx.
    + intros Herr Hsize Hwrite Hlen. rewrite Hres.
      unfold after_calls. cbn [fst snd].
      destruct (live_and_cache_stores w st1 idx query v) as [Hcalls Hrows];
        try done.
      rewrite Hcalls, Hrows. done.
Qed.

(** On a non-empty index the embedding [[3; 4]] comes back from the lookup as
    [[0.6; 0.8]], and that array is the row the miss handling stores; on an
    empty index the embedding comes back untouched. *)
Lemma stale_state_vector_normalized :
  (@get_from_cache binary64_externals stale_state "C vs D" [3%float; 4%float]).1.2
    = [0x1.3333333333334p-1%float; 0x1.999999999999ap-1%float] /\
  (@get_search_results_with_cache binary64_externals long_vector_world
     stale_state (PyStr "C vs D")).2
    = [EvEmbed "C vs D"; EvLive "C vs D";
       EvWriteEntry (@cache_filepath binary64_externals "C vs D");
       EvIndexAdd [0x1.3333333333334p-1%float; 0x1.999999999999ap-1%float]] /\
  xb <$> faiss_index
    (@get_search_results_with_cache binary64_externals long_vector_world
       stale_state (PyStr "C vs D")).1.2
    = Some [[float32_above_threshold; 0%float];
            [0x1.3333333333334p-1%float; 0x1.999999999999ap-1%float]] /\
  (@get_from_cache binary64_externals (cold pristine) "Team A vs Team B score"
     long_embedding).1.2 = long_embedding.
Proof.
  destruct (@lookup_normalizes_shared_vector binary64_externals long_vector_world
              stale_state stale_state
              {| d := 2; xb := [[float32_above_threshold; 0%float]] |}
              "C vs D" "C vs D" [3%float; 4%float] [EvEmbed "C vs D"])
    as [Hfull _].
  { vm_compute. reflexivity. }
  { discriminate. }
  { vm_compute. reflexivity. }
  { reflexivity. }
  destruct (@lookup_normalizes_shared_vector binary64_externals long_embedding_world
              (cold pristine) (cold pristine) new_index
              "Team A vs Team B score" "Team A vs Team B score"
              long_embedding [EvEmbed "Team A vs Team B score"])
    as [_ Hempty].
  { vm_compute. reflexivity. }
  { discriminate. }
  { vm_compute. reflexivity. }
  { reflexivity. }
  destruct Hfull as (Hvec & _ & _ & _ & Hstore); [unfold ntotal; simpl; lia|].
  destruct Hstore as [Hcalls Hrows].
  { vm_compute. reflexivity. }
  { reflexivity. }
  { vm_compute. lia. }
  { reflexivity. }
  { reflexivity. }
  destruct Hempty as (Hraw & _); [reflexivity|].
  split; [rewrite Hvec; vm_compute; reflexivity|].
  split; [rewrite Hcalls; vm_compute; reflexivity|].
  split; [rewrite Hrows; vm_compute; reflexivity|exact Hraw].
Defined.

(** On the non-empty index the row that is stored is the normalized array,
    not the embedding [[3; 4]] that was returned. *)
Example nonempty_index_stores_normalized :
  xb <$> faiss_index
    (@get_search_results_with_cache binary64_externals long_vector_world
       stale_state (PyStr "C vs D")).1.2 =
  Some [[float32_above_threshold; 0%float];
        [0x1.3333333333334p-1%float; 0x1.999999999999ap-1%float]].
Proof. vm_compute. reflexivity. Qed.

(** ** A failed live search *)

(** C5. A failed live search is never cached.  For every resolve call that
    performs a live search whose result carries the reserved "error" key: the
    entry files are the same as before, no call of the run writes an entry or
    hands a vector to the index, and the index, the mapping and the counter,
    as a load sees them, are the same as before the call; the dictionary
    returned is the live result, "error" included, with "_cache_status"
    "Live Search Failed (<error>)" or, when the embedding had failed as well,
    "Live Search (Embedding Failed)". *)
Theorem failed_live_search_not_cached `{Externals} (w : world) (st : state)
    (s err : string) :
  strip s <> "" ->
  live_search w (strip s) !! "error" = Some err ->
  existsb is_live (get_search_results_with_cache w st (PyStr s)).2 = true ->
  entry_files (get_search_results_with_cache w st (PyStr s)).1.2 = entry_files st /\
  existsb touches_cache (get_search_results_with_cache w st (PyStr s)).2 = false /\
  load_faiss_cache (get_search_results_with_cache w st (PyStr s)).1.2
    = load_faiss_cache st /\
  (get_search_results_with_cache w st (PyStr s)).1.1 !! "error" = Some (PStr err) /\
  exists status : string,
    (get_search_results_with_cache w st (PyStr s)).1.1
      = <["_cache_status" := PStr status]> (as_payload (live_search w (strip s))) /\
    (status = "Live Search Failed (" +:+ err +:+ ")" \/
     status = "Live Search (Embedding Failed)").
Proof.
  intros Hq Herr.
  assert (Hlook : forall status,
            (<["_cache_status" := PStr status]> (as_payload (live_search w (strip s))))
              !! "error" = Some (PStr err)).
  { intros status. rewrite lookup_insert_ne by done.
    unfold as_payload. rewrite lookup_fmap, Herr. reflexivity. }
  destruct (get_embedding w (strip s)) as [[v|] evs] eqn:Hemb.
  - pose proof (get_embedding_events w (strip s)) as [Htouch Hlive].
    rewrite Hemb in Htouch, Hlive. simpl in Htouch, Hlive.
    rewrite (resolve_embedded w st s (strip s) v evs eq_refl Hq Hemb).
    pose proof (get_from_cache_state st (strip s) v) as Hst.
    destruct (get_from_cache st (strip s) v) as [[[cached score] qv] st1].
    simpl in Hst. subst st1. simpl.
    destruct cached as [cached_data|]; simpl.
    { rewrite Hlive. discriminate. }
    intros _. rewrite (live_and_cache_error w _ (strip s) qv err Herr).
    unfold after_calls. simpl. repeat split.
    + apply load_entry_files.
    + rewrite existsb_app, Htouch. reflexivity.
    + apply load_idempotent.
    + apply Hlook.
    + eexists. split; [reflexivity|]. left. reflexivity.
  - pose proof (get_embedding_events w (strip s)) as [Htouch _].
    rewrite (resolve_not_embedded w st s Hq) by (rewrite Hemb; reflexivity).
    rewrite Hemb in Htouch |- *. simpl in Htouch |- *.
    intros _. repeat split.
    + rewrite existsb_app, Htouch. reflexivity.
    + apply Hlook.
    + eexists. split; [reflexivity|]. right. reflexivity.
Qed.

Lemma failed_search_leaves_stale_state :
  entry_files
    (@get_search_results_with_cache binary64_externals failing_search_world
       stale_state (PyStr "A vs B")).1.2 = entry_files stale_state /\
  existsb touches_cache
    (@get_search_results_with_cache binary64_externals failing_search_world
       stale_state (PyStr "A vs B")).2 = false /\
  load_faiss_cache
    (@get_search_results_with_cache binary64_externals failing_search_world
       stale_state (PyStr "A vs B")).1.2 = load_faiss_cache stale_state /\
  (@get_search_results_with_cache binary64_externals failing_search_world
     stale_state (PyStr "A vs B")).1.1 !! "error"
    = Some (PStr "WebDriver initialization failed") /\
  exists status : string,
    (@get_search_results_with_cache binary64_externals failing_search_world
       stale_state (PyStr "A vs B")).1.1
      = <["_cache_status" := PStr status]>
          (as_payload (live_search failing_search_world (strip "A vs B"))) /\
    (status = "Live Search Failed (" +:+ "WebDriver initialization failed" +:+ ")" \/
     status = "Live Search (Embedding Failed)").
Proof.
  apply (@failed_live_search_not_cached binary64_externals failing_search_world
           stale_state "A vs B" "WebDriver initialization failed").
  - vm_compute. discriminate.
  - vm_compute. reflexivity.
  - vm_compute. reflexivity.
Defined.

Example failed_search_status :
  (@get_search_results_with_cache binary64_externals failing_search_world
     stale_state (PyStr "A vs B")).1.1 !! "_cache_status"
  = Some (PStr "Live Search Failed (WebDriver initialization failed)").
Proof. vm_compute. reflexivity. Qed.

(** ** Index and mapping sizes *)

Lemma cold_dense (st : state) : dense (cold st).
Proof.
  exists new_index. split; [reflexivity|]. split; [reflexivity|].
  split; [reflexivity|].
  intros k [x Hk]. simpl in Hk. rewrite lookup_empty in Hk. discriminate.
Qed.

(** Sizes agree after every load that reads the disk. *)
Lemma load_sizes (st : state) :
  faiss_index st = None ->
  size (index_id_to_data (load_faiss_cache st).2) = ntotal (load_faiss_cache st).1.
Proof.
  intros Hnone. unfold load_faiss_cache. rewrite Hnone.
  destruct (exists_file (index_file st) && exists_file (mapping_file st));
    [|reflexivity].
  destruct (try_load st) as [[[idx m] n]|] eqn:Htry; [|reflexivity].
  simpl. symmetry. exact (try_load_sizes st idx m n Htry).
Qed.

(** One append on a dense state. *)
Lemma add_to_cache_dense `{Externals} (w : world) (st : state) (idx : IndexFlatIP)
    (query : string) (v : vec) (result_data : payload) :
  faiss_index st = Some idx ->
  dense st ->
  dense (add_to_cache w st query (Some v) result_data).1.2 /\
  ((add_to_cache w st query (Some v) result_data).1.1 = true ->
     index_id_to_data st !! Z.of_nat (ntotal idx) = None /\
     index_id_to_data (add_to_cache w st query (Some v) result_data).1.2
       !! Z.of_nat (ntotal idx) = Some (query, cache_filepath query) /\
     exists idx' : IndexFlatIP,
       faiss_index (add_to_cache w st query (Some v) result_data).1.2 = Some idx' /\
       xb idx' = xb idx ++ [v] /\
       size (index_id_to_data (add_to_cache w st query (Some v) result_data).1.2)
         = ntotal idx').
Proof.
  intros Hidx Hdense.
  rewrite (add_to_cache_loaded w st idx query v result_data Hidx). simpl.
  pose proof Hdense as (idx0 & Hidx0 & Hsize & Hnext & Hkeys).
  rewrite Hidx in Hidx0. injection Hidx0 as <-.
  destruct (can_write w (cache_filepath query)); [|split; [exact Hdense|discriminate]].
  unfold index_add. case_decide; [|split; [exact Hdense|discriminate]].
  simpl.
  match goal with
  | |- context [save_faiss_cache w ?st2] =>
      destruct (save_keeps_memory w st2) as (Hsi & Hsm & Hsn & _)
  end.
  assert (Hfresh : index_id_to_data st !! next_faiss_id st = None).
  { destruct (index_id_to_data st !! next_faiss_id st) eqn:Hk; [|reflexivity].
    assert (Hs : is_Some (index_id_to_data st !! next_faiss_id st))
      by (rewrite Hk; eauto).
    apply Hkeys in Hs. lia. }
  split.
  - eexists. rewrite Hsi, Hsm, Hsn. simpl. split; [reflexivity|].
    unfold ntotal in *. simpl. rewrite length_app. simpl.
    split; [|split].
    + rewrite map_size_insert_None by exact Hfresh. lia.
    + lia.
    + intros k Hk.
      destruct (decide (next_faiss_id st = k)) as [<-|Hne]; [lia|].
      rewrite lookup_insert_ne in Hk by exact Hne. apply Hkeys in Hk. lia.
  - intros _. rewrite <- Hnext. split; [exact Hfresh|].
    rewrite Hsm. simpl. split; [apply lookup_insert_eq|].
    eexists. rewrite Hsi. simpl. split; [reflexivity|]. split; [reflexivity|].
    unfold ntotal in *. simpl. rewrite length_app. simpl.
    rewrite map_size_insert_None by exact Hfresh. lia.
Qed.

(** C6, in the form the code satisfies.  A load that reads the disk leaves as many
    mapping records as vectors, and a reset leaves a dense state.  On a dense
    state (counter equal to the vector count, every key below it)
    [add_to_cache] leaves a dense state again, so the two counts stay equal;
    when it appends, the record goes under a key that was free and equals the
    vector count before the insertion, and the vector goes behind the
    existing rows. *)
Theorem dense_append_keeps_sizes `{Externals} (w : world) (st0 st : state)
    (idx : IndexFlatIP) (query : string) (v : vec) (result_data : payload) :
  faiss_index st0 = None ->
  faiss_index st = Some idx ->
  dense st ->
  size (index_id_to_data (load_faiss_cache st0).2) = ntotal (load_faiss_cache st0).1 /\
  dense (cold st0) /\
  dense (add_to_cache w st query (Some v) result_data).1.2 /\
  ((add_to_cache w st query (Some v) result_data).1.1 = true ->
     index_id_to_data st !! Z.of_nat (ntotal idx) = None /\
     index_id_to_data (add_to_cache w st query (Some v) result_data).1.2
       !! Z.of_nat (ntotal idx) = Some (query, cache_filepath query) /\
     exists idx' : IndexFlatIP,
       faiss_index (add_to_cache w st query (Some v) result_data).1.2 = Some idx' /\
       xb idx' = xb idx ++ [v] /\
       size (index_id_to_data (add_to_cache w st query (Some v) result_data).1.2)
         = ntotal idx').
Proof.
  intros Hnone Hidx Hdense.
  split; [exact (load_sizes st0 Hnone)|].
  split; [exact (cold_dense st0)|].
  exact (add_to_cache_dense w st idx query v result_data Hidx Hdense).
Qed.

Lemma stale_state_dense : dense stale_state.
Proof.
  eexists. split; [reflexivity|]. split; [reflexivity|]. split; [reflexivity|].
  intros k [x Hk]. simpl in Hk.
  destruct (decide (k = 0%Z)) as [->|Hne]; [simpl; lia|].
  rewrite lookup_singleton_ne in Hk by congruence. discriminate.
Qed.

Lemma stale_state_append_keeps_sizes :
  size (index_id_to_data (load_faiss_cache torn_state).2)
    = ntotal (load_faiss_cache torn_state).1 /\
  dense (cold torn_state) /\
  dense (@add_to_cache binary64_externals unit_query_world stale_state "A vs B"
           (Some [1%float; 0%float]) {[ "Source" := PStr "A 1 - 0 B" ]}).1.2 /\
  ((@add_to_cache binary64_externals unit_query_world stale_state "A vs B"
      (Some [1%float; 0%float]) {[ "Source" := PStr "A 1 - 0 B" ]}).1.1 = true ->
     index_id_to_data stale_state
       !! Z.of_nat (ntotal {| d := 2; xb := [[float32_above_threshold; 0%float]] |})
       = None /\
     index_id_to_data
       (@add_to_cache binary64_externals unit_query_world stale_state "A vs B"
          (Some [1%float; 0%float]) {[ "Source" := PStr "A 1 - 0 B" ]}).1.2
       !! Z.of_nat (ntotal {| d := 2; xb := [[float32_above_threshold; 0%float]] |})
       = Some ("A vs B", @cache_filepath binary64_externals "A vs B") /\
     exists idx' : IndexFlatIP,
       faiss_index
         (@add_to_cache binary64_externals unit_query_world stale_state "A vs B"
            (Some [1%float; 0%float]) {[ "Source" := PStr "A 1 - 0 B" ]}).1.2
         = Some idx' /\
       xb idx' = [[float32_above_threshold; 0%float]] ++ [[1%float; 0%float]] /\
       size
         (index_id_to_data
            (@add_to_cache binary64_externals unit_query_world stale_state "A vs B"
               (Some [1%float; 0%float]) {[ "Source" := PStr "A 1 - 0 B" ]}).1.2)
         = ntotal idx').
Proof.
  apply (@dense_append_keeps_sizes binary64_externals unit_query_world torn_state
           stale_state {| d := 2; xb := [[float32_above_threshold; 0%float]] |}
           "A vs B" [1%float; 0%float] {[ "Source" := PStr "A 1 - 0 B" ]}).
  - reflexivity.
  - reflexivity.
  - exact stale_state_dense.
Defined.

(** The load accepts [drifted_state] (sizes 1 and 1, counter 0); the append
    that follows stores its record under row id 0 although one vector was
    already there, and leaves two vectors for one record. *)
Lemma append_after_drifted_load :
  ntotal (load_faiss_cache drifted_state).1 = 1 /\
  size (index_id_to_data (load_faiss_cache drifted_state).2) = 1 /\
  next_faiss_id (load_faiss_cache drifted_state).2 = 0%Z /\
  (@add_to_cache binary64_externals long_embedding_world drifted_state "C vs D"
     (Some long_embedding) {[ "Source" := PStr "C 0 - 0 D" ]}).1.1 = true /\
  ntotal <$>
    faiss_index
      (@add_to_cache binary64_externals long_embedding_world drifted_state "C vs D"
         (Some long_embedding) {[ "Source" := PStr "C 0 - 0 D" ]}).1.2 = Some 2 /\
  size
    (index_id_to_data
       (@add_to_cache binary64_externals long_embedding_world drifted_state "C vs D"
          (Some long_embedding) {[ "Source" := PStr "C 0 - 0 D" ]}).1.2) = 1 /\
  index_id_to_data
    (@add_to_cache binary64_externals long_embedding_world drifted_state "C vs D"
       (Some long_embedding) {[ "Source" := PStr "C 0 - 0 D" ]}).1.2
  = {[ 0%Z := ("C vs D", @cache_filepath binary64_externals "C vs D") ]}.
Proof. vm_compute. repeat split; reflexivity. Qed.

(** *** Saving, then loading in a new process *)

Lemma foldl_insert_list_to_map (l : list (Z * (string * string)))
    (acc : gmap Z (string * string)) :
  NoDup l.*1 ->
  foldl (fun m kv => <[kv.1 := kv.2]> m) acc l = list_to_map l ∪ acc.
Proof.
  revert acc. induction l as [|[k x] l IH]; intros acc Hnd.
  - simpl. by rewrite (left_id_L ∅ (∪)).
  - rewrite fmap_cons in Hnd. apply NoDup_cons in Hnd as [Hk Hnd].
    simpl. rewrite (IH _ Hnd).
    rewrite <- insert_union_l. symmetry. apply insert_union_r.
    by apply not_elem_of_list_to_map.
Qed.

Lemma mapping_of_json_to_list (m : gmap Z (string * string)) (n : option Z) :
  mapping_of_json {| mj_next_id := n; mj_mapping := Some (map_to_list m) |} = m.
Proof.
  unfold mapping_of_json. simpl.
  rewrite foldl_insert_list_to_map by apply NoDup_fst_map_to_list.
  rewrite (right_id_L ∅ (∪)). apply list_to_map_to_list.
Qed.

(** What a complete save persists is what the next process loads. *)
Lemma reload_after_save (w : world) (st : state) (idx : IndexFlatIP) :
  faiss_index st = Some idx ->
  size (index_id_to_data st) = ntotal idx ->
  (0 < next_faiss_id st)%Z -> 0 < ntotal idx ->
  can_write w CACHE_INDEX_FILE = true ->
  can_write w CACHE_MAPPING_FILE = true ->
  load_faiss_cache (restart (save_faiss_cache w st))
    = (idx, set_globals idx (index_id_to_data st) (next_faiss_id st)
              (restart (save_faiss_cache w st))).
Proof.
  intros Hidx Hsize Hnext Hn Hwi Hwm.
  unfold save_faiss_cache. rewrite Hidx, Hwi, Hwm.
  apply Z.ltb_lt in Hnext. apply Nat.ltb_lt in Hn. rewrite Hnext, Hn. simpl.
  unfold load_faiss_cache, try_load. simpl.
  rewrite mapping_of_json_to_list.
  rewrite decide_False by (intros Hne; apply Hne; symmetry; exact Hsize).
  reflexivity.
Qed.

(** *** The invariant along runs of the coordinator *)

Section Runs.
Context `{Externals}.

Lemma dense_loaded (st : state) : dense st -> load_faiss_cache st = ((load_faiss_cache st).1, st).
Proof.
  intros (idx & Hidx & _). rewrite (load_loaded st idx Hidx). reflexivity.
Qed.

Lemma live_and_cache_dense (w : world) (st : state) (query : string) (qv : vec) :
  dense st -> dense (live_and_cache w st query qv).1.2.
Proof.
  intros Hdense. pose proof Hdense as (idx & Hidx & _).
  unfold live_and_cache. destruct (negb _ && _).
  - pose proof (add_to_cache_dense w st idx query qv
                  (as_payload (live_search w query)) Hidx Hdense) as [Hkeep _].
    destruct (add_to_cache w st query (Some qv) _) as [[b st'] evs]. exact Hkeep.
  - destruct (has_key "error" _); exact Hdense.
Qed.

(** A resolve call on a dense state leaves a dense state. *)
Lemma resolve_dense (w : world) (st : state) (query : pyobj) :
  dense st -> dense (get_search_results_with_cache w st query).1.2.
Proof.
  intros Hdense. destruct query as [s|b]; [|exact Hdense].
  destruct (strip s) as [|c q] eqn:Hstrip.
  { unfold get_search_results_with_cache.
    destruct s as [|c s]; [exact Hdense|]. rewrite Hstrip. exact Hdense. }
  destruct (get_embedding w (String c q)) as [[v|] evs] eqn:Hemb.
  - rewrite (resolve_embedded w st s (String c q) v evs Hstrip ltac:(done) Hemb).
    pose proof (get_from_cache_state st (String c q) v) as Hst.
    rewrite (dense_loaded st Hdense) in Hst. simpl in Hst.
    destruct (get_from_cache st (String c q) v) as [[[cached score] qv] st1].
    simpl in Hst |- *. subst st1.
    destruct cached; [exact Hdense|].
    apply live_and_cache_dense. exact Hdense.
  - rewrite (resolve_not_embedded w st s).
    + exact Hdense.
    + rewrite Hstrip. discriminate.
    + rewrite Hstrip, Hemb. reflexivity.
Qed.

Lemma run_dense (st : state) : run st -> dense st.
Proof.
  induction 1 as [st|w st query _ IH|fs st _ IH].
  - apply cold_dense.
  - apply resolve_dense. exact IH.
  - exact IH.
Qed.

End Runs.

(** ** The first entry of a cache *)

Section FirstEntry.
Context `{Externals}.

(** A resolve call on an empty index whose live search succeeds and whose
    entry file can be written: the vector that reaches the index is the
    embedding as [get_embedding] returned it. *)
Lemma resolve_miss_on_empty (w : world) (st st1 : state) (idx : IndexFlatIP)
    (s query : string) (v : vec) (evs : list event) :
  strip s = query -> query <> "" ->
  get_embedding w query = (Some v, evs) ->
  load_faiss_cache st = (idx, st1) ->
  ntotal idx = 0 ->
  length v = d idx ->
  live_search w query !! "error" = None ->
  size (live_search w query) <> 0 ->
  can_write w (cache_filepath query) = true ->
  get_search_results_with_cache w st (PyStr s) =
    (<["_cache_status" := PStr "Live Search (Cache Miss)"]>
       (as_payload (live_search w query)),
     appended w st1 idx query v (as_payload (live_search w query)),
     evs ++ [EvLive query; EvWriteEntry (cache_filepath query); EvIndexAdd v]).
Proof.
  intros Hstrip Hq Hemb Hload Hn Hlen Hok Hsome Hwrite.
  assert (Hidx : faiss_index st1 = Some idx).
  { pose proof (load_index st) as Hli. rewrite Hload in Hli. exact Hli. }
  rewrite (resolve_embedded w st s query v evs Hstrip Hq Hemb).
  rewrite (get_from_cache_loaded st st1 idx query v Hload).
  apply Nat.eqb_eq in Hn. rewrite Hn. simpl.
  unfold live_and_cache.
  rewrite has_key_as_payload, Hok.
  rewrite bool_decide_eq_false_2 by (intros [x Hx]; discriminate).
  unfold truthy_dict, as_payload. rewrite map_size_fmap.
  rewrite bool_decide_eq_false_2 by exact Hsome. simpl.
  rewrite (add_to_cache_loaded w st1 idx query v _ Hidx). simpl.
  rewrite Hwrite. unfold index_add. rewrite decide_True by exact Hlen.
  reflexivity.
Qed.

End FirstEntry.

(** C2, on the first entry of a cache.  On a pristine cache the resolve call
    skips the normalization: the vector handed to [faiss_index.add], and the
    only row of the index afterwards, is the embedding exactly as returned,
    whose squared L2 norm is 25; its normalization would have been a different
    array. *)
Theorem first_vector_stored_unnormalized :
  (@get_search_results_with_cache binary64_externals long_embedding_world
     pristine (PyStr "Team A vs Team B score")).2
    = [EvEmbed "Team A vs Team B score"; EvLive "Team A vs Team B score";
       EvWriteEntry (@cache_filepath binary64_externals "Team A vs Team B score");
       EvIndexAdd long_embedding] /\
  xb <$> faiss_index
    (@get_search_results_with_cache binary64_externals long_embedding_world
       pristine (PyStr "Team A vs Team B score")).1.2 = Some [long_embedding] /\
  norm_L2sqr long_embedding = 25%float /\
  hd 0%float long_embedding = 3%float /\
  hd 0%float (renorm_L2 long_embedding) = 0x1.3333333333334p-1%float.
Proof. vm_compute. repeat split; reflexivity. Qed.

(** ** Miss, then hit *)

Lemma pop_saved_entry (w : world) (query : string) (result_data : payload) :
  pop "_cache_timestamp" (pop "_cached_original_query" (saved_entry w query result_data))
  = pop "_cache_timestamp" (pop "_cached_original_query" result_data).
Proof.
  unfold pop, saved_entry.
  rewrite delete_insert_ne by done.
  rewrite delete_insert_eq. rewrite delete_insert_eq. reflexivity.
Qed.

Lemma hit_status_prefix `{Externals} (score : float) :
  String.prefix "HIT" (hit_status score) = true.
Proof. reflexivity. Qed.

Section MissThenHit.
Context `{Externals}.

Lemma appended_memory (w : world) (st : state) (idx : IndexFlatIP)
    (query : string) (v : vec) (result_data : payload) :
  faiss_index (appended w st idx query v result_data)
    = Some {| d := d idx; xb := xb idx ++ [v] |} /\
  index_id_to_data (appended w st idx query v result_data)
    = <[next_faiss_id st := (query, cache_filepath query)]> (index_id_to_data st) /\
  entry_files (appended w st idx query v result_data)
    = <[cache_filepath query := Json (saved_entry w query result_data)]> (entry_files st).
Proof.
  unfold appended.
  match goal with
  | |- context [save_faiss_cache w ?st2] =>
      destruct (save_keeps_memory w st2) as (-> & -> & _ & ->)
  end.
  done.
Qed.

(** A lookup on an index with the single row [v], for a query vector that
    normalizes to a score at or above the threshold against that row. *)
Lemma lookup_single_row (st : state) (query : string) (v row : vec)
    (cached_query_str cached_filepath : string) (cached_data : payload) :
  faiss_index st = Some {| d := length v; xb := [row] |} ->
  index_id_to_data st !! 0%Z = Some (cached_query_str, cached_filepath) ->
  entry_files st !! cached_filepath = Some (Json cached_data) ->
  (CACHE_SIMILARITY_THRESHOLD <=? fvec_inner_product (normalize_L2 v) row)%float = true ->
  get_from_cache st query v =
    ((Some (<["_cache_status" :=
                PStr (hit_status (fvec_inner_product (normalize_L2 v) row))]>
              (pop "_cache_timestamp" (pop "_cached_original_query" cached_data))),
      fvec_inner_product (normalize_L2 v) row),
     normalize_L2 v, st).
Proof.
  intros Hidx Hrec Hfile Hge.
  rewrite (get_from_cache_loaded st st _ query v (load_loaded st _ Hidx)).
  simpl. unfold index_search. simpl.
  rewrite decide_True by apply normalize_L2_length.
  rewrite (threshold_above_lowest _ Hge). simpl. rewrite Hge.
  unfold cached_entry_lookup. rewrite Hrec, Hfile. reflexivity.
Qed.

End MissThenHit.

(** C3, in the form the code satisfies.  Starting from an empty cache, a resolve call
    whose query embeds to a vector [v] of the index dimension, whose live
    search succeeds and whose entry file can be written performs exactly one
    live search and caches the result.  If the immediately following resolve
    of the same text embeds to the same [v] and the normalized [v] scores at
    least the threshold against the stored row, that call performs no live
    search, leaves the state as it is, and returns the cached dictionary, its
    two bookkeeping keys removed, with a "_cache_status" that starts with
    "HIT". *)
Theorem miss_then_hit `{Externals} (w1 w2 : world) (st : state) (s query : string)
    (v : vec) (evs1 evs2 : list event) :
  load_faiss_cache st = (new_index, cold st) ->
  strip s = query -> query <> "" ->
  get_embedding w1 query = (Some v, evs1) ->
  get_embedding w2 query = (Some v, evs2) ->
  length v = EMBEDDING_DIM ->
  live_search w1 query !! "error" = None ->
  size (live_search w1 query) <> 0 ->
  can_write w1 (cache_filepath query) = true ->
  (CACHE_SIMILARITY_THRESHOLD <=? fvec_inner_product (normalize_L2 v) v)%float = true ->
  (get_search_results_with_cache w1 st (PyStr s)).1.1
    = <["_cache_status" := PStr "Live Search (Cache Miss)"]>
        (as_payload (live_search w1 query)) /\
  (get_search_results_with_cache w1 st (PyStr s)).2
    = evs1 ++ [EvLive query; EvWriteEntry (cache_filepath query); EvIndexAdd v] /\
  existsb is_live evs1 = false /\
  get_search_results_with_cache w2
      (get_search_results_with_cache w1 st (PyStr s)).1.2 (PyStr s)
    = (<["_cache_status" :=
           PStr (hit_status (fvec_inner_product (normalize_L2 v) v))]>
         (pop "_cache_timestamp"
            (pop "_cached_original_query" (as_payload (live_search w1 query)))),
       (get_search_results_with_cache w1 st (PyStr s)).1.2,
       evs2) /\
  existsb is_live evs2 = false /\
  String.prefix "HIT" (hit_status (fvec_inner_product (normalize_L2 v) v)) = true.
Proof.
  intros Hcold Hstrip Hq Hemb1 Hemb2 Hlen Hok Hsome Hwrite Hge.
  rewrite (resolve_miss_on_empty w1 st (cold st) new_index s query v evs1
             Hstrip Hq Hemb1 Hcold eq_refl Hlen Hok Hsome Hwrite).
  cbn [fst snd].
  pose proof (get_embedding_events w1 query) as [_ Hlive1].
  pose proof (get_embedding_events w2 query) as [_ Hlive2].
  rewrite Hemb1 in Hlive1. rewrite Hemb2 in Hlive2. cbn [fst snd] in Hlive1, Hlive2.
  split; [reflexivity|]. split; [reflexivity|]. split; [exact Hlive1|].
  split; [|split; [exact Hlive2|]].
  - destruct (appended_memory w1 (cold st) new_index query v
                (as_payload (live_search w1 query))) as (Hidx & Hmap & Hfiles).
    rewrite (resolve_embedded w2 _ s query v evs2 Hstrip Hq Hemb2).
    rewrite (lookup_single_row _ query v v query (cache_filepath query)
               (saved_entry w1 query (as_payload (live_search w1 query)))).
    + cbn [fst snd]. rewrite pop_saved_entry. reflexivity.
    + rewrite Hidx. simpl. rewrite Hlen. reflexivity.
    + rewrite Hmap. simpl. apply lookup_insert_eq.
    + rewrite Hfiles. apply lookup_insert_eq.
    + exact Hge.
  - apply hit_status_prefix.
Qed.

Lemma unit_embedding_miss_then_hit :
  first_call.1.1
    = <["_cache_status" := PStr "Live Search (Cache Miss)"]>
        (as_payload (live_search unit_embedding_world "Team A vs Team B score")) /\
  first_call.2
    = [EvEmbed "Team A vs Team B score"]
        ++ [EvLive "Team A vs Team B score";
            EvWriteEntry (@cache_filepath binary64_externals "Team A vs Team B score");
            EvIndexAdd unit_embedding] /\
  existsb is_live [EvEmbed "Team A vs Team B score"] = false /\
  second_call
    = (<["_cache_status" :=
           PStr (@hit_status binary64_externals
                   (inner_product (renorm_L2 unit_embedding) unit_embedding))]>
         (pop "_cache_timestamp"
            (pop "_cached_original_query"
               (as_payload (live_search unit_embedding_world "Team A vs Team B score")))),
       first_call.1.2,
       [EvEmbed "Team A vs Team B score"]) /\
  existsb is_live [EvEmbed "Team A vs Team B score"] = false /\
  String.prefix "HIT"
    (@hit_status binary64_externals
       (inner_product (renorm_L2 unit_embedding) unit_embedding)) = true.
Proof.
  apply (@miss_then_hit binary64_externals unit_embedding_world unit_embedding_world
           pristine "Team A vs Team B score" "Team A vs Team B score"
           unit_embedding [EvEmbed "Team A vs Team B score"]
           [EvEmbed "Team A vs Team B score"]).
  - reflexivity.
  - vm_compute. reflexivity.
  - discriminate.
  - vm_compute. reflexivity.
  - vm_compute. reflexivity.
  - vm_compute. reflexivity.
  - vm_compute. reflexivity.
  - vm_compute. lia.
  - reflexivity.
  - vm_compute. reflexivity.
Defined.

(** The status of the hit is spelled in capitals: it does not start with
    "hit". *)
Lemma hit_status_is_upper_case :
  second_call.1.1 !! "_cache_status" = Some (PStr "HIT (Similarity: 1.0000)") /\
  String.prefix "hit" "HIT (Similarity: 1.0000)" = false /\
  second_call.2 = [EvEmbed "Team A vs Team B score"] /\
  first_call.2
    = [EvEmbed "Team A vs Team B score"; EvLive "Team A vs Team B score";
       EvWriteEntry (@cache_filepath binary64_externals "Team A vs Team B score");
       EvIndexAdd unit_embedding].
Proof. vm_compute. repeat split; reflexivity. Qed.

(** With the embedding of length 5 the row stored by the first call is not
    normalized, and the second call scores 5 against it. *)
Example long_embedding_second_call :
  (@get_search_results_with_cache binary64_externals long_embedding_world
     (@get_search_results_with_cache binary64_externals long_embedding_world
        pristine (PyStr "Team A vs Team B score")).1.2
     (PyStr "Team A vs Team B score")).1.1 !! "_cache_status"
  = Some (PStr "HIT (Similarity: 5.0000)").
Proof. vm_compute. reflexivity. Qed.

Example short_embedding_second_call :
  (@get_search_results_with_cache binary64_externals short_embedding_world
     (@get_search_results_with_cache binary64_externals short_embedding_world
        pristine (PyStr "Team A vs Team B score")).1.2
     (PyStr "Team A vs Team B score")).2
  = [EvEmbed "Team A vs Team B score"; EvLive "Team A vs Team B score";
     EvWriteEntry (@cache_filepath binary64_externals "Team A vs Team B score");
     EvIndexAdd (renorm_L2 short_embedding)].
Proof. vm_compute. reflexivity. Qed.

(** * Further properties of the cache module *)

(** ** Trimming *)

Lemma rstrip_head (c : ascii) (s : string) :
  is_space c = false -> exists r, rstrip (String c s) = String c r.
Proof.
  intros Hc. simpl. destruct (rstrip s); rewrite ?Hc; eauto.
Qed.

Lemma lstrip_head (s : string) :
  lstrip s = "" \/ exists c r, lstrip s = String c r /\ is_space c = false.
Proof.
  induction s as [|c s IH]; [left; reflexivity|].
  simpl. destruct (is_space c) eqn:Hc; [exact IH|]. right. eauto.
Qed.

Lemma rstrip_idempotent (s : string) : rstrip (rstrip s) = rstrip s.
Proof.
  induction s as [|c s IH]; [reflexivity|].
  simpl. destruct (rstrip s) as [|c' r] eqn:Hr.
  - destruct (is_space c) eqn:Hc; [reflexivity|]. simpl. rewrite Hc. reflexivity.
  - simpl in IH |- *. destruct (rstrip r) as [|c'' r'] eqn:Hr'.
    + destruct (is_space c'); [discriminate|]. injection IH as <-. reflexivity.
    + injection IH as <-. reflexivity.
Qed.

Lemma strip_idempotent (s : string) : strip (strip s) = strip s.
Proof.
  unfold strip. destruct (lstrip_head s) as [->|(c & r & -> & Hc)]; [reflexivity|].
  destruct (rstrip_head c r Hc) as [r' Hr']. rewrite Hr'.
  simpl lstrip. rewrite Hc. rewrite <- Hr'. apply rstrip_idempotent.
Qed.

(** ** Shapes of results and of call lists *)

Lemma get_embedding_shape (w : world) (text : string) :
  (exists x values, get_embedding w text = (Some (x :: values), [EvEmbed (strip text)]) /\
                    client_ready w = true /\ strip text <> "" /\
                    embed_content w (strip text) = Some (x :: values)) \/
  get_embedding w text = (None, [EvEmbed (strip text)]) /\
    client_ready w = true /\ strip text <> "" \/
  get_embedding w text = (None, []) /\ (client_ready w = false \/ strip text = "").
Proof.
  unfold get_embedding. destruct (client_ready w); simpl; [|right; right; eauto].
  destruct text as [|c text]; [right; right; eauto|].
  destruct (strip (String c text)) as [|c' t] eqn:Hs; [right; right; eauto|].
  destruct (embed_content w (String c' t)) as [[|x values]|] eqn:He.
  - right. left. done.
  - left. exists x, values. done.
  - right. left. done.
Qed.

Section Shapes.
Context `{Externals}.

(** What a lookup that returns a dictionary has gone through. *)
Lemma get_from_cache_hit_inv (st : state) (query : string) (v : vec)
    (p : payload) (score : float) :
  (get_from_cache st query v).1.1 = (Some p, score) ->
  exists (id : Z) (cached_query_str cached_filepath : string) (cached_data : payload),
    ntotal (load_faiss_cache st).1 <> 0 /\
    index_search (load_faiss_cache st).1 (normalize_L2 v) = Some (score, id) /\
    (CACHE_SIMILARITY_THRESHOLD <=? score)%float = true /\
    index_id_to_data (load_faiss_cache st).2 !! id
      = Some (cached_query_str, cached_filepath) /\
    entry_files st !! cached_filepath = Some (Json cached_data) /\
    p = <["_cache_status" := PStr (hit_status score)]>
          (pop "_cache_timestamp" (pop "_cached_original_query" cached_data)).
Proof.
  destruct (load_faiss_cache st) as [idx st1] eqn:Hload.
  rewrite (get_from_cache_loaded st st1 idx query v Hload).
  pose proof (load_entry_files st) as Hfiles. rewrite Hload in Hfiles.
  simpl in Hfiles |- *.
  destruct (ntotal idx =? 0)%nat eqn:Hn; [discriminate|]. simpl.
  destruct (index_search idx (normalize_L2 v)) as [[sc id]|]; [|discriminate].
  destruct (CACHE_SIMILARITY_THRESHOLD <=? sc)%float eqn:Hge; [|discriminate].
  unfold cached_entry_lookup.
  destruct (index_id_to_data st1 !! id) as [[cq path]|] eqn:Hrec; [|discriminate].
  destruct (entry_files st1 !! path) as [[|data]|] eqn:Hfile; try discriminate.
  intros [= <- <-]. exists id, cq, path, data.
  apply Nat.eqb_neq in Hn. rewrite <- Hfiles. done.
Qed.

(** The calls of [add_to_cache]: none, or the entry write followed by the
    index insertion. *)
Lemma add_to_cache_calls (w : world) (st : state) (query : string) (v : vec)
    (result_data : payload) :
  (add_to_cache w st query (Some v) result_data).2 = [] \/
  (add_to_cache w st query (Some v) result_data).2
    = [EvWriteEntry (cache_filepath query); EvIndexAdd v].
Proof.
  unfold add_to_cache. destruct (load_faiss_cache st) as [idx st1].
  destruct (can_write w (cache_filepath query)); [|left; reflexivity].
  destruct (index_add idx v); right; reflexivity.
Qed.

Lemma live_and_cache_calls (w : world) (st : state) (query : string) (qv : vec) :
  (live_and_cache w st query qv).2 = [EvLive query] \/
  (live_and_cache w st query qv).2
    = [EvLive query; EvWriteEntry (cache_filepath query); EvIndexAdd qv].
Proof.
  unfold live_and_cache. destruct (negb _ && _).
  - pose proof (add_to_cache_calls w st query qv
                  (as_payload (live_search w query))) as Hadd.
    destruct (add_to_cache w st query (Some qv) _) as [[b st'] evs].
    simpl in *. destruct Hadd as [->| ->]; [left|right]; reflexivity.
  - destruct (has_key "error" _); left; reflexivity.
Qed.

Lemma live_and_cache_status (w : world) (st : state) (query : string) (qv : vec) :
  exists status : string,
    (live_and_cache w st query qv).1.1 !! "_cache_status" = Some (PStr status).
Proof.
  unfold live_and_cache. destruct (negb _ && _).
  - destruct (add_to_cache w st query (Some qv) _) as [[b st'] evs].
    eexists. simpl. apply lookup_insert_eq.
  - destruct (has_key "error" _); eexists; simpl.
    + apply lookup_insert_eq.
    + reflexivity.
Qed.

End Shapes.

(** X1. Leading and trailing whitespace of the query is immaterial: a query
    that is not blank gives the same dictionary, the same state and the same
    calls as its trimmed form. *)
Theorem resolve_ignores_outer_whitespace `{Externals} (w : world) (st : state)
    (s : string) :
  strip s <> "" ->
  get_search_results_with_cache w st (PyStr s)
    = get_search_results_with_cache w st (PyStr (strip s)).
Proof.
  intros Hq. unfold get_search_results_with_cache.
  destruct s as [|c s]; [done|].
  destruct (strip (String c s)) as [|c' q] eqn:Hs; [done|].
  rewrite <- Hs, strip_idempotent, Hs. reflexivity.
Qed.

Lemma padded_query_resolves_alike :
  @get_search_results_with_cache binary64_externals unit_embedding_world pristine
      (PyStr "  Team A vs Team B score ")
    = @get_search_results_with_cache binary64_externals unit_embedding_world pristine
        (PyStr (strip "  Team A vs Team B score ")).
Proof.
  apply (@resolve_ignores_outer_whitespace binary64_externals).
  vm_compute. discriminate.
Defined.

(** X2. Whatever the query, the state and the collaborators' answers, the
    dictionary returned carries a "_cache_status" string. *)
Theorem resolve_always_reports_status `{Externals} (w : world) (st : state)
    (query : pyobj) :
  exists status : string,
    (get_search_results_with_cache w st query).1.1 !! "_cache_status"
      = Some (PStr status).
Proof.
  destruct query as [s|b]; [|eexists; reflexivity].
  destruct (strip s) as [|c q] eqn:Hs.
  { unfold get_search_results_with_cache.
    destruct s; [|rewrite Hs]; eexists; reflexivity. }
  destruct (get_embedding w (String c q)) as [[v|] evs] eqn:Hemb.
  - rewrite (resolve_embedded w st s (String c q) v evs Hs ltac:(done) Hemb).
    destruct (get_from_cache st (String c q) v).1.1 as [[p|] score] eqn:Hget.
    + destruct (get_from_cache_hit_inv st _ v p score Hget)
        as (id & cq & path & data & _ & _ & _ & _ & _ & ->).
      eexists. simpl. apply lookup_insert_eq.
    + simpl. apply live_and_cache_status.
  - rewrite (resolve_not_embedded w st s).
    + eexists. simpl. apply lookup_insert_eq.
    + rewrite Hs. discriminate.
    + rewrite Hs, Hemb. reflexivity.
Qed.

(** X3. The calls of one resolve call come in a fixed order and at most once
    each: nothing at all; or the live search alone (no embedding client); or
    the embedding request alone (a hit); or the embedding request and then the
    live search; or these two followed by the write of the entry file and the
    insertion into the index.  Every call is made for the trimmed query. *)
Theorem resolve_call_order `{Externals} (w : world) (st : state) (s : string) :
  (get_search_results_with_cache w st (PyStr s)).2 = [] \/
  (get_search_results_with_cache w st (PyStr s)).2 = [EvLive (strip s)] \/
  (get_search_results_with_cache w st (PyStr s)).2 = [EvEmbed (strip s)] \/
  (get_search_results_with_cache w st (PyStr s)).2
    = [EvEmbed (strip s); EvLive (strip s)] \/
  exists v : vec,
    (get_search_results_with_cache w st (PyStr s)).2
      = [EvEmbed (strip s); EvLive (strip s);
         EvWriteEntry (cache_filepath (strip s)); EvIndexAdd v].
Proof.
  destruct (strip s) as [|c q] eqn:Hs.
  { left. unfold get_search_results_with_cache.
    destruct s; [|rewrite Hs]; reflexivity. }
  pose proof (get_embedding_shape w (strip s)) as Hshape.
  rewrite strip_idempotent, Hs in Hshape.
  destruct Hshape as [(x & values & Hemb & _)|[(Hemb & _)|(Hemb & _)]].
  - rewrite (resolve_embedded w st s (String c q) (x :: values) _ Hs ltac:(done) Hemb).
    destruct (get_from_cache st (String c q) (x :: values)) as [[[cached sc] qv] st1].
    simpl. destruct cached as [p|]; simpl.
    + right. right. left. reflexivity.
    + destruct (live_and_cache_calls w st1 (String c q) qv) as [-> | ->].
      * do 3 right. left. reflexivity.
      * do 4 right. exists qv. reflexivity.
  - rewrite (resolve_not_embedded w st s); rewrite ?Hs, ?Hemb; try done.
    do 3 right. left. reflexivity.
  - rewrite (resolve_not_embedded w st s); rewrite ?Hs, ?Hemb; try done.
    right. left. reflexivity.
Qed.

(** ** The lookup *)

Lemma load_keeps_files (st : state) :
  index_file (load_faiss_cache st).2 = index_file st /\
  mapping_file (load_faiss_cache st).2 = mapping_file st /\
  entry_files (load_faiss_cache st).2 = entry_files st.
Proof.
  unfold load_faiss_cache.
  destruct (faiss_index st); [done|].
  case_disk_read st; done.
Qed.

(** X4. A lookup returns a dictionary only when it is justified: the index is
    not empty, the top-1 search of the normalized vector gave the returned
    score and a row id, the score is at least the threshold, the mapping has a
    record for that row and its entry file holds a JSON object.  The
    dictionary is that object without its two bookkeeping keys and with the
    status "HIT (Similarity: <score>)". *)
Theorem lookup_hit_is_justified `{Externals} (st : state) (query : string)
    (v : vec) (p : payload) (score : float) :
  (get_from_cache st query v).1.1 = (Some p, score) ->
  (exists (id : Z) (cached_query_str cached_filepath : string) (cached_data : payload),
     ntotal (load_faiss_cache st).1 <> 0 /\
     index_search (load_faiss_cache st).1 (normalize_L2 v) = Some (score, id) /\
     (CACHE_SIMILARITY_THRESHOLD <=? score)%float = true /\
     index_id_to_data (load_faiss_cache st).2 !! id
       = Some (cached_query_str, cached_filepath) /\
     entry_files st !! cached_filepath = Some (Json cached_data) /\
     p = <["_cache_status" := PStr (hit_status score)]>
           (pop "_cache_timestamp" (pop "_cached_original_query" cached_data))) /\
  p !! "_cache_status" = Some (PStr (hit_status score)) /\
  p !! "_cached_original_query" = None /\
  p !! "_cache_timestamp" = None.
Proof.
  intros Hget.
  destruct (get_from_cache_hit_inv st query v p score Hget)
    as (id & cq & path & data & Hn & Hs & Hge & Hrec & Hfile & ->).
  split; [exists id, cq, path, data; done|].
  unfold pop. split; [apply lookup_insert_eq|].
  split; rewrite lookup_insert_ne by done.
  - rewrite lookup_delete_ne by done. apply lookup_delete_eq.
  - apply lookup_delete_eq.
Qed.

(** The lookup of the second of two identical queries, on the state the
    first one left. *)
Lemma second_lookup_hit_is_justified :
  (exists (id : Z) (cached_query_str cached_filepath : string) (cached_data : payload),
     ntotal (load_faiss_cache first_call.1.2).1 <> 0 /\
     @index_search binary64_externals (load_faiss_cache first_call.1.2).1
       (@normalize_L2 binary64_externals unit_embedding)
       = Some (1%float, id) /\
     (CACHE_SIMILARITY_THRESHOLD <=? 1)%float = true /\
     index_id_to_data (load_faiss_cache first_call.1.2).2 !! id
       = Some (cached_query_str, cached_filepath) /\
     entry_files first_call.1.2 !! cached_filepath = Some (Json cached_data) /\
     <["_cache_status" := PStr "HIT (Similarity: 1.0000)"]>
         {[ "Bing Search Results Page" := PStr "Team A 2 - 1 Team B" ]}
       = <["_cache_status" := PStr (@hit_status binary64_externals 1)]>
           (pop "_cache_timestamp" (pop "_cached_original_query" cached_data))) /\
  (<["_cache_status" := PStr "HIT (Similarity: 1.0000)"]>
     {[ "Bing Search Results Page" := PStr "Team A 2 - 1 Team B" ]} : payload)
    !! "_cache_status" = Some (PStr (@hit_status binary64_externals 1)) /\
  (<["_cache_status" := PStr "HIT (Similarity: 1.0000)"]>
     {[ "Bing Search Results Page" := PStr "Team A 2 - 1 Team B" ]} : payload)
    !! "_cached_original_query" = None /\
  (<["_cache_status" := PStr "HIT (Similarity: 1.0000)"]>
     {[ "Bing Search Results Page" := PStr "Team A 2 - 1 Team B" ]} : payload)
    !! "_cache_timestamp" = None.
Proof.
  apply (@lookup_hit_is_justified binary64_externals first_call.1.2
           "Team A vs Team B score" unit_embedding).
  vm_compute. reflexivity.
Defined.

(** X5. A lookup never writes: the state it leaves is the loaded state, with
    the index file, the mapping file and the entry files as they were; and
    whenever it returns no dictionary the score it returns is [-1.0]. *)
Theorem lookup_reads_only `{Externals} (st : state) (query : string) (v : vec) :
  (get_from_cache st query v).2 = (load_faiss_cache st).2 /\
  index_file (get_from_cache st query v).2 = index_file st /\
  mapping_file (get_from_cache st query v).2 = mapping_file st /\
  entry_files (get_from_cache st query v).2 = entry_files st /\
  ((get_from_cache st query v).1.1.1 = None ->
   (get_from_cache st query v).1.1.2 = (-1)%float).
Proof.
  pose proof (get_from_cache_state st query v) as Hst.
  destruct (load_keeps_files st) as (Hi & Hm & He).
  rewrite Hst. do 4 (split; [done|]).
  destruct (get_from_cache st query v).1.1 as [[p|] score] eqn:Hget; [done|].
  intros _. simpl.
  destruct (load_faiss_cache st) as [idx st1] eqn:Hload.
  rewrite (get_from_cache_loaded st st1 idx query v Hload) in Hget.
  destruct (ntotal idx =? 0)%nat; simpl in Hget; [by injection Hget as <-|].
  destruct (index_search idx (normalize_L2 v)) as [[sc id]|];
    [|by injection Hget as <-].
  destruct (CACHE_SIMILARITY_THRESHOLD <=? sc)%float; [|by injection Hget as <-].
  unfold cached_entry_lookup in Hget.
  destruct (index_id_to_data st1 !! id) as [[cq path]|]; [|by injection Hget as <-].
  destruct (entry_files st1 !! path) as [[|data]|];
    try discriminate; by injection Hget as <-.
Qed.

(** ** Insertion *)

(** X6. When [add_to_cache] succeeds and when it does not.  It returns [True]
    exactly when the entry file could be written, a vector was given and the
    vector has the dimension of the index.  When it returns [False] the index,
    the mapping, the counter and the two persisted files are those the load
    left; the entry file has been written all the same unless the write itself
    was what failed. *)
Theorem add_to_cache_outcomes `{Externals} (w : world) (st : state) (query : string)
    (query_vector : option vec) (result_data : payload) :
  ((add_to_cache w st query query_vector result_data).1.1 = true <->
   can_write w (cache_filepath query) = true /\
   exists v, query_vector = Some v /\ length v = d (load_faiss_cache st).1) /\
  ((add_to_cache w st query query_vector result_data).1.1 = false ->
   set_entry_files (entry_files (load_faiss_cache st).2)
     (add_to_cache w st query query_vector result_data).1.2
     = (load_faiss_cache st).2 /\
   entry_files (add_to_cache w st query query_vector result_data).1.2
     = if can_write w (cache_filepath query)
       then <[cache_filepath query := Json (saved_entry w query result_data)]>
              (entry_files st)
       else entry_files st).
Proof.
  unfold add_to_cache.
  pose proof (load_entry_files st) as Hfiles.
  destruct (load_faiss_cache st) as [idx st1]. simpl in Hfiles |- *.
  destruct (can_write w (cache_filepath query)) eqn:Hw.
  - destruct query_vector as [v|].
    + unfold index_add. case_decide as Hlen; simpl.
      * split; [split; eauto|discriminate].
      * split.
        -- split; [discriminate|]. intros [_ (v' & [= <-] & Hlen')]. contradiction.
        -- intros _. rewrite <- Hfiles. by destruct st1.
    + simpl. split.
      * split; [discriminate|]. intros [_ (v' & [=] & _)].
      * intros _. rewrite <- Hfiles. by destruct st1.
  - simpl. split.
    + split; [discriminate|]. intros [[=] _].
    + intros _. rewrite <- Hfiles. by destruct st1.
Qed.

(** X7. What was just added can be read back: after a successful
    [add_to_cache], the record stored under the counter value the call
    started from leads to the entry file just written, and reading it through
    the cached-entry branch gives the result dictionary, without the two
    bookkeeping keys, under a "HIT" status. *)
Theorem added_entry_reads_back `{Externals} (w : world) (st : state) (query : string)
    (v : vec) (result_data : payload) (score : float) :
  (add_to_cache w st query (Some v) result_data).1.1 = true ->
  index_id_to_data (add_to_cache w st query (Some v) result_data).1.2
    !! next_faiss_id (load_faiss_cache st).2 = Some (query, cache_filepath query) /\
  entry_files (add_to_cache w st query (Some v) result_data).1.2
    !! cache_filepath query = Some (Json (saved_entry w query result_data)) /\
  next_faiss_id (add_to_cache w st query (Some v) result_data).1.2
    = (next_faiss_id (load_faiss_cache st).2 + 1)%Z /\
  cached_entry_lookup (add_to_cache w st query (Some v) result_data).1.2
      (next_faiss_id (load_faiss_cache st).2) score
    = (Some (<["_cache_status" := PStr (hit_status score)]>
               (pop "_cache_timestamp" (pop "_cached_original_query" result_data))),
       score).
Proof.
  pose proof (load_index st) as Hidx.
  destruct (load_faiss_cache st) as [idx st1] eqn:Hload. simpl in Hidx |- *.
  assert (Hl : load_faiss_cache st = load_faiss_cache st1)
    by (rewrite Hload; symmetry; apply load_loaded; exact Hidx).
  destruct (cache_calls_by_load st st1 Hl) as [_ Hsame]. rewrite Hsame.
  rewrite (add_to_cache_loaded w st1 idx query v result_data Hidx). simpl.
  destruct (can_write w (cache_filepath query)); [|discriminate].
  destruct (index_add idx v) as [idx'|]; [|discriminate].
  intros _. simpl.
  match goal with
  | |- context [save_faiss_cache w ?st2] =>
      destruct (save_keeps_memory w st2) as (Hsi & Hsm & Hsn & Hse)
  end.
  assert (Hrec : index_id_to_data (save_faiss_cache w
              (set_globals idx'
                 (<[next_faiss_id st1 := (query, cache_filepath query)]>
                    (index_id_to_data st1))
                 (next_faiss_id st1 + 1)%Z
                 (set_entry_files
                    (<[cache_filepath query :=
                         Json (<["_cache_timestamp" := PFloat (time_now w)]>
                                 (<["_cached_original_query" := PStr query]>
                                    result_data))]> (entry_files st1)) st1)))
            !! next_faiss_id st1 = Some (query, cache_filepath query)).
  { rewrite Hsm. simpl. apply lookup_insert_eq. }
  assert (Hfile : entry_files (save_faiss_cache w
              (set_globals idx'
                 (<[next_faiss_id st1 := (query, cache_filepath query)]>
                    (index_id_to_data st1))
                 (next_faiss_id st1 + 1)%Z
                 (set_entry_files
                    (<[cache_filepath query :=
                         Json (<["_cache_timestamp" := PFloat (time_now w)]>
                                 (<["_cached_original_query" := PStr query]>
                                    result_data))]> (entry_files st1)) st1)))
            !! cache_filepath query = Some (Json (saved_entry w query result_data))).
  { rewrite Hse. simpl. apply lookup_insert_eq. }
  split; [exact Hrec|]. split; [exact Hfile|]. split; [rewrite Hsn; reflexivity|].
  unfold cached_entry_lookup. rewrite Hrec, Hfile.
  rewrite pop_saved_entry. reflexivity.
Qed.

Lemma stale_state_added_entry_reads_back :
  index_id_to_data
    (@add_to_cache binary64_externals unit_query_world stale_state "A vs B"
       (Some [1%float; 0%float]) {[ "Source" := PStr "A 1 - 0 B" ]}).1.2
    !! next_faiss_id (load_faiss_cache stale_state).2
    = Some ("A vs B", @cache_filepath binary64_externals "A vs B") /\
  entry_files
    (@add_to_cache binary64_externals unit_query_world stale_state "A vs B"
       (Some [1%float; 0%float]) {[ "Source" := PStr "A 1 - 0 B" ]}).1.2
    !! @cache_filepath binary64_externals "A vs B"
    = Some (Json (saved_entry unit_query_world "A vs B"
                    {[ "Source" := PStr "A 1 - 0 B" ]})) /\
  next_faiss_id
    (@add_to_cache binary64_externals unit_query_world stale_state "A vs B"
       (Some [1%float; 0%float]) {[ "Source" := PStr "A 1 - 0 B" ]}).1.2
    = (next_faiss_id (load_faiss_cache stale_state).2 + 1)%Z /\
  @cached_entry_lookup binary64_externals
      (@add_to_cache binary64_externals unit_query_world stale_state "A vs B"
         (Some [1%float; 0%float]) {[ "Source" := PStr "A 1 - 0 B" ]}).1.2
      (next_faiss_id (load_faiss_cache stale_state).2) 1%float
    = (Some (<["_cache_status" := PStr (@hit_status binary64_externals 1%float)]>
               (pop "_cache_timestamp"
                  (pop "_cached_original_query" {[ "Source" := PStr "A 1 - 0 B" ]}))),
       1%float).
Proof.
  apply (@added_entry_reads_back binary64_externals unit_query_world stale_state
           "A vs B" [1%float; 0%float] {[ "Source" := PStr "A 1 - 0 B" ]} 1%float).
  vm_compute. reflexivity.
Defined.

(** ** Persistence *)

(** X8. [save_faiss_cache] touches nothing but the two persisted files, and
    these only under its guard: the index, the mapping, the counter and the
    entry files are never changed; nothing is written while the index is not
    initialised or empty or the counter is not positive, nor when the index
    file cannot be written; and the mapping file is only ever written together
    with the index file, with the counter and the records of that moment. *)
Theorem save_footprint (w : world) (st : state) :
  faiss_index (save_faiss_cache w st) = faiss_index st /\
  index_id_to_data (save_faiss_cache w st) = index_id_to_data st /\
  next_faiss_id (save_faiss_cache w st) = next_faiss_id st /\
  entry_files (save_faiss_cache w st) = entry_files st /\
  ((forall idx, faiss_index st = Some idx ->
                (next_faiss_id st <= 0)%Z \/ ntotal idx = 0) ->
   save_faiss_cache w st = st) /\
  (can_write w CACHE_INDEX_FILE = false -> save_faiss_cache w st = st) /\
  (mapping_file (save_faiss_cache w st) = mapping_file st \/
   exists idx,
     faiss_index st = Some idx /\
     index_file (save_faiss_cache w st) = Stored idx /\
     mapping_file (save_faiss_cache w st)
       = Stored {| mj_next_id := Some (next_faiss_id st);
                   mj_mapping := Some (map_to_list (index_id_to_data st)) |}).
Proof.
  destruct (save_keeps_memory w st) as (Hi & Hm & Hn & He).
  do 4 (split; [done|]).
  unfold save_faiss_cache.
  destruct (faiss_index st) as [idx|];
    [|do 2 (split; [done|]); left; reflexivity].
  destruct (0 <? next_faiss_id st)%Z eqn:Hnext; simpl.
  - destruct (0 <? ntotal idx)%nat eqn:Hcount; simpl.
    + apply Z.ltb_lt in Hnext. apply Nat.ltb_lt in Hcount.
      split; [intros Hguard; destruct (Hguard idx eq_refl); lia|].
      destruct (can_write w CACHE_INDEX_FILE);
        [|split; [done|left; reflexivity]].
      split; [discriminate|].
      destruct (can_write w CACHE_MAPPING_FILE); [|left; reflexivity].
      right. exists idx. done.
    + do 2 (split; [done|]). left. reflexivity.
  - do 2 (split; [done|]). left. reflexivity.
Qed.

(** What the first call of the sample run persisted and kept in memory. *)
Example first_call_saved :
  index_file first_call.1.2
    = Stored {| d := EMBEDDING_DIM; xb := [unit_embedding] |} /\
  size (index_id_to_data first_call.1.2) = 1 /\
  next_faiss_id first_call.1.2 = 1%Z.
Proof. vm_compute. repeat split; reflexivity. Qed.

(** The state [add_to_cache] leaves when it succeeds on a loaded state. *)
Lemma add_to_cache_success (w : world) `{Externals} (st : state) (idx : IndexFlatIP)
    (query : string) (v : vec) (result_data : payload) :
  faiss_index st = Some idx ->
  (add_to_cache w st query (Some v) result_data).1.1 = true ->
  (add_to_cache w st query (Some v) result_data).1.2
    = appended w st idx query v result_data.
Proof.
  intros Hidx. rewrite (add_to_cache_loaded w st idx query v result_data Hidx).
  simpl. destruct (can_write w (cache_filepath query)); [|discriminate].
  unfold index_add. case_decide; [|discriminate]. reflexivity.
Qed.

(** X9. Entries survive a restart of a dense cache.  On a loaded cache whose
    mapping has one record per vector, whose counter equals the vector count
    and whose keys all lie below the counter (the state every run from a cold
    cache keeps): when an insertion succeeds and both persisted files can be
    written, a new process (globals gone, files kept) loads exactly the
    index, the mapping and the counter the old process had in memory. *)
Theorem cached_entries_survive_restart `{Externals} (w : world) (st : state)
    (idx : IndexFlatIP) (query : string) (v : vec) (result_data : payload) :
  faiss_index st = Some idx ->
  dense st ->
  can_write w CACHE_INDEX_FILE = true ->
  can_write w CACHE_MAPPING_FILE = true ->
  (add_to_cache w st query (Some v) result_data).1.1 = true ->
  (load_faiss_cache
     (restart (add_to_cache w st query (Some v) result_data).1.2)).2
    = (add_to_cache w st query (Some v) result_data).1.2.
Proof.
  intros Hidx Hdense Hwi Hwm Hok.
  destruct (add_to_cache_dense w st idx query v result_data Hidx Hdense)
    as [Hd' _].
  rewrite (add_to_cache_success w st idx query v result_data Hidx Hok) in Hd' |- *.
  destruct Hdense as (idx0 & Hidx0 & Hsize & Hnext & Hkeys).
  rewrite Hidx in Hidx0. injection Hidx0 as <-.
  unfold appended in *.
  match goal with
  | |- context [save_faiss_cache w ?st2] => set (st2' := st2) in *
  end.
  destruct Hd' as (idx' & Hidx' & Hsize' & Hnext' & _).
  destruct (save_keeps_memory w st2') as (Hsi & Hsm & Hsn & Hse).
  rewrite Hsi in Hidx'. rewrite Hsm in Hsize'. rewrite Hsn in Hnext'.
  assert (Hcount : 0 < ntotal idx').
  { subst st2'. simpl in Hidx'. injection Hidx' as <-.
    unfold ntotal. simpl. rewrite length_app. simpl. lia. }
  rewrite (reload_after_save w st2' idx' Hidx' Hsize' ltac:(lia) Hcount Hwi Hwm).
  simpl. rewrite <- Hsi in Hidx'.
  destruct (save_faiss_cache w st2') as [fi m n ifile mfile efiles].
  simpl in *. subst. reflexivity.
Qed.

Lemma stale_state_entry_survives_restart :
  (load_faiss_cache
     (restart
        (@add_to_cache binary64_externals unit_query_world stale_state "A vs B"
           (Some [1%float; 0%float]) {[ "Source" := PStr "A 1 - 0 B" ]}).1.2)).2
    = (@add_to_cache binary64_externals unit_query_world stale_state "A vs B"
         (Some [1%float; 0%float]) {[ "Source" := PStr "A 1 - 0 B" ]}).1.2.
Proof.
  apply (@cached_entries_survive_restart binary64_externals unit_query_world
           stale_state {| d := 2; xb := [[float32_above_threshold; 0%float]] |}).
  - reflexivity.
  - exact stale_state_dense.
  - reflexivity.
  - reflexivity.
  - vm_compute. reflexivity.
Defined.



(** X11. The disk is read at most once per process: after a first load, later
    loads return the same index and leave the globals alone whatever has
    happened to the index file, the mapping file and the entry files in
    between. *)
Theorem load_reads_disk_once (st : state) (ifile : file IndexFlatIP)
    (mfile : file mapping_json) (efiles : gmap string entry_file) :
  load_faiss_cache
    (set_entry_files efiles
       (set_mapping_file mfile (set_index_file ifile (load_faiss_cache st).2)))
  = ((load_faiss_cache st).1,
     set_entry_files efiles
       (set_mapping_file mfile (set_index_file ifile (load_faiss_cache st).2))).
Proof.
  apply load_loaded. simpl. apply load_index.
Qed.

(** X12. [get_cache_info] always reports a loaded cache: it loads first, so
    its status is "Loaded" and its item count is the number of vectors of the
    loaded index (never "N/A"), it writes nothing, and on a disk that cannot
    be loaded the count is 0. *)
Theorem cache_info_always_loaded (abspath : string -> string) (st : state) :
  info_status (get_cache_info abspath st).1 = "Loaded" /\
  info_items (get_cache_info abspath st).1 = Some (ntotal (load_faiss_cache st).1) /\
  info_directory (get_cache_info abspath st).1 = abspath CACHE_DIR /\
  info_threshold (get_cache_info abspath st).1 = CACHE_SIMILARITY_THRESHOLD /\
  (get_cache_info abspath st).2 = (load_faiss_cache st).2 /\
  (faiss_index st = None -> unloadable st ->
   info_items (get_cache_info abspath st).1 = Some 0).
Proof.
  unfold get_cache_info.
  pose proof (load_index st) as Hidx.
  destruct (load_faiss_cache st) as [idx st1] eqn:Hload. simpl in Hidx |- *.
  rewrite Hidx. simpl. do 5 (split; [reflexivity|]).
  intros Hnone Hbad. unfold load_faiss_cache in Hload. rewrite Hnone in Hload.
  rewrite (unloadable_try_load st Hbad) in Hload. by injection Hload as <- _.
Qed.

(** ** The embedding gateway *)

(** X13. When [get_embedding] returns a vector, the vector is not empty, the
    client was initialised, the text was not blank, and exactly one request
    was sent, for the trimmed text, whose answer is the vector returned.
    Without a client, or for a blank text, no request is sent at all. *)
Theorem get_embedding_answers (w : world) (text : string) (v : vec)
    (evs : list event) :
  get_embedding w text = (Some v, evs) ->
  (exists x values, v = x :: values) /\
  client_ready w = true /\
  strip text <> "" /\
  evs = [EvEmbed (strip text)] /\
  embed_content w (strip text) = Some v /\
  (forall w' text',
      client_ready w' = false \/ strip text' = "" ->
      get_embedding w' text' = (None, [])).
Proof.
  intros Hget.
  assert (Hnone : forall w' text',
             client_ready w' = false \/ strip text' = "" ->
             get_embedding w' text' = (None, [])).
  { intros w' text' Hwhy.
    destruct (get_embedding_shape w' text')
      as [(x & values & _ & Hc & Hs & _)|[(_ & Hc & Hs)|(He & _)]];
      [| |exact He]; destruct Hwhy as [Hw|Hw]; congruence. }
  destruct (get_embedding_shape w text)
    as [(x & values & He & Hc & Hs & Hans)|[(He & _)|(He & _)]];
    rewrite He in Hget; try discriminate.
  injection Hget as <- <-. repeat split; eauto.
Qed.

Lemma unit_query_embedding_answers :
  (exists x values, [1%float; 0%float] = x :: values) /\
  client_ready unit_query_world = true /\
  strip " A vs B " <> "" /\
  [EvEmbed "A vs B"] = [EvEmbed (strip " A vs B ")] /\
  embed_content unit_query_world (strip " A vs B ") = Some [1%float; 0%float] /\
  (forall w' text',
      client_ready w' = false \/ strip text' = "" ->
      get_embedding w' text' = (None, [])).
Proof.
  apply (get_embedding_answers unit_query_world " A vs B " [1%float; 0%float]
           [EvEmbed "A vs B"]).
  vm_compute. reflexivity.
Defined.

(** ** The coordinator on a miss *)

Section MissOutcomes.
Context `{Externals}.


End MissOutcomes.



(** ** Row ids along a run *)

(** In a dense state the keys of the mapping are exactly the row ids. *)
Lemma dense_keys (st : state) (k : Z) :
  dense st -> (0 <= k < next_faiss_id st)%Z -> is_Some (index_id_to_data st !! k).
Proof.
  intros (idx & Hidx & Hsize & Hnext & Hkeys) Hk.
  assert (Hdom : dom (index_id_to_data st)
                 = list_to_set (C := gset Z) (seqZ 0 (next_faiss_id st))).
  { apply set_subseteq_size_eq.
    - intros i Hi. apply elem_of_dom in Hi. apply Hkeys in Hi.
      apply elem_of_list_to_set, elem_of_seqZ. lia.
    - rewrite size_list_to_set by apply NoDup_seqZ.
      rewrite length_seqZ, size_dom. lia. }
  apply elem_of_dom. rewrite Hdom.
  apply elem_of_list_to_set, elem_of_seqZ. lia.
Qed.

Section Labels.
Context `{Externals}.

(** The top-1 scan returns its seed, or a score with the position of a row. *)
Lemma top1_label (q : vec) (rows : list vec) (i : Z) (best : float * Z) :
  top1 q rows i best = best \/
  (i <= (top1 q rows i best).2 < i + Z.of_nat (length rows))%Z.
Proof.
  revert i best. induction rows as [|x rows IH]; intros i best; [left; reflexivity|].
  simpl top1. cbn [length].
  destruct (IH (i + 1)%Z
              (if (best.1 <? fvec_inner_product q x)%float
               then (fvec_inner_product q x, i) else best)) as [-> | Hin].
  - destruct (best.1 <? fvec_inner_product q x)%float; [right; simpl; lia|left; reflexivity].
  - right. lia.
Qed.

(** A search result that meets the threshold names a row of the index. *)
Lemma index_search_label (idx : IndexFlatIP) (q : vec) (score : float) (id : Z) :
  index_search idx q = Some (score, id) ->
  (CACHE_SIMILARITY_THRESHOLD <=? score)%float = true ->
  (0 <= id < Z.of_nat (ntotal idx))%Z.
Proof.
  unfold index_search. case_decide; [|discriminate].
  intros [= Hres] Hge.
  destruct (top1_label q (xb idx) 0 (FLT_LOWEST, (-1)%Z)) as [Hseed|Hin].
  - rewrite Hseed in Hres. injection Hres as <- <-.
    vm_compute in Hge. discriminate.
  - rewrite Hres in Hin. unfold ntotal. simpl in Hin. lia.
Qed.

End Labels.

(** X15. Along every run that starts on a cold cache (resolve calls, entry
    files changed or deleted from outside) the mapping has one record per
    vector, the counter equals the vector count, and every row id that a
    search can return with a score at or above the threshold has its mapping
    record: the lookup never finds the mapping without the matched row. *)
Theorem run_mapping_covers_rows `{Externals} (st : state) (idx : IndexFlatIP)
    (q : vec) (score : float) (id : Z) :
  run st ->
  faiss_index st = Some idx ->
  index_search idx q = Some (score, id) ->
  (CACHE_SIMILARITY_THRESHOLD <=? score)%float = true ->
  size (index_id_to_data st) = ntotal idx /\
  next_faiss_id st = Z.of_nat (ntotal idx) /\
  is_Some (index_id_to_data st !! id).
Proof.
  intros Hrun Hidx Hsearch Hge.
  pose proof (run_dense st Hrun) as Hdense.
  pose proof Hdense as (idx0 & Hidx0 & Hsize & Hnext & _).
  rewrite Hidx in Hidx0. injection Hidx0 as <-.
  split; [exact Hsize|]. split; [exact Hnext|].
  apply dense_keys; [exact Hdense|].
  rewrite Hnext. exact (index_search_label idx q score id Hsearch Hge).
Qed.

Lemma first_call_mapping_covers_rows :
  size (index_id_to_data first_call.1.2)
    = ntotal {| d := EMBEDDING_DIM; xb := [unit_embedding] |} /\
  next_faiss_id first_call.1.2
    = Z.of_nat (ntotal {| d := EMBEDDING_DIM; xb := [unit_embedding] |}) /\
  is_Some (index_id_to_data first_call.1.2 !! 0%Z).
Proof.
  apply (@run_mapping_covers_rows binary64_externals first_call.1.2
           {| d := EMBEDDING_DIM; xb := [unit_embedding] |}
           unit_embedding 1%float 0%Z).
  - unfold first_call.
    apply (@run_resolve binary64_externals unit_embedding_world (cold pristine)
             (PyStr "Team A vs Team B score")).
    apply run_cold.
  - vm_compute. reflexivity.
  - vm_compute. reflexivity.
  - vm_compute. reflexivity.
Defined.

(** ** Near duplicates, unwritable entries, empty results *)

(** X16. A near duplicate is served from the cache.  After a first resolve on
    an empty cache has cached its result under the embedding [v1], a resolve
    of any other text whose embedding [v2], once normalized, scores at least
    the threshold against [v1] returns the dictionary cached for the first
    query (bookkeeping keys removed, "HIT" status), performs no live search
    and leaves the state as it is. *)
Theorem near_duplicate_is_hit `{Externals} (w1 w2 : world) (st : state)
    (s1 q1 s2 q2 : string) (v1 v2 : vec) (evs1 evs2 : list event) :
  load_faiss_cache st = (new_index, cold st) ->
  strip s1 = q1 -> q1 <> "" ->
  strip s2 = q2 -> q2 <> "" ->
  get_embedding w1 q1 = (Some v1, evs1) ->
  get_embedding w2 q2 = (Some v2, evs2) ->
  length v1 = EMBEDDING_DIM ->
  length v2 = EMBEDDING_DIM ->
  live_search w1 q1 !! "error" = None ->
  size (live_search w1 q1) <> 0 ->
  can_write w1 (cache_filepath q1) = true ->
  (CACHE_SIMILARITY_THRESHOLD <=? fvec_inner_product (normalize_L2 v2) v1)%float = true ->
  get_search_results_with_cache w2
      (get_search_results_with_cache w1 st (PyStr s1)).1.2 (PyStr s2)
    = (<["_cache_status" :=
           PStr (hit_status (fvec_inner_product (normalize_L2 v2) v1))]>
         (pop "_cache_timestamp"
            (pop "_cached_original_query" (as_payload (live_search w1 q1)))),
       (get_search_results_with_cache w1 st (PyStr s1)).1.2,
       evs2) /\
  existsb is_live evs2 = false.
Proof.
  intros Hcold Hs1 Hq1 Hs2 Hq2 Hemb1 Hemb2 Hlen1 Hlen2 Hok Hsome Hwrite Hge.
  rewrite (resolve_miss_on_empty w1 st (cold st) new_index s1 q1 v1 evs1
             Hs1 Hq1 Hemb1 Hcold eq_refl Hlen1 Hok Hsome Hwrite).
  cbn [fst snd].
  pose proof (get_embedding_events w2 q2) as [_ Hlive2].
  rewrite Hemb2 in Hlive2. cbn [fst snd] in Hlive2.
  split; [|exact Hlive2].
  destruct (appended_memory w1 (cold st) new_index q1 v1
              (as_payload (live_search w1 q1))) as (Hidx & Hmap & Hfiles).
  rewrite (resolve_embedded w2 _ s2 q2 v2 evs2 Hs2 Hq2 Hemb2).
  rewrite (lookup_single_row _ q2 v2 v1 q1 (cache_filepath q1)
             (saved_entry w1 q1 (as_payload (live_search w1 q1)))).
  - cbn [fst snd]. rewrite pop_saved_entry. reflexivity.
  - rewrite Hidx. simpl. rewrite Hlen2. reflexivity.
  - rewrite Hmap. simpl. apply lookup_insert_eq.
  - rewrite Hfiles. apply lookup_insert_eq.
  - exact Hge.
Qed.

Lemma paraphrase_is_hit :
  @get_search_results_with_cache binary64_externals near_embedding_world
      first_call.1.2 (PyStr "score of Team A against Team B")
    = (<["_cache_status" :=
           PStr (@hit_status binary64_externals
                   (inner_product (renorm_L2 near_embedding) unit_embedding))]>
         (pop "_cache_timestamp"
            (pop "_cached_original_query"
               (as_payload (live_search unit_embedding_world "Team A vs Team B score")))),
       first_call.1.2,
       [EvEmbed "score of Team A against Team B"]) /\
  existsb is_live [EvEmbed "score of Team A against Team B"] = false.
Proof.
  apply (@near_duplicate_is_hit binary64_externals unit_embedding_world
           near_embedding_world pristine
           "Team A vs Team B score" "Team A vs Team B score"
           "score of Team A against Team B" "score of Team A against Team B"
           unit_embedding near_embedding
           [EvEmbed "Team A vs Team B score"]
           [EvEmbed "score of Team A against Team B"]).
  - reflexivity.
  - vm_compute. reflexivity.
  - discriminate.
  - vm_compute. reflexivity.
  - discriminate.
  - vm_compute. reflexivity.
  - vm_compute. reflexivity.
  - vm_compute. reflexivity.
  - vm_compute. reflexivity.
  - vm_compute. reflexivity.
  - vm_compute. lia.
  - reflexivity.
  - vm_compute. reflexivity.
Defined.

Example paraphrase_status :
  (@get_search_results_with_cache binary64_externals near_embedding_world
     first_call.1.2 (PyStr "score of Team A against Team B")).1.1 !! "_cache_status"
  = Some (PStr "HIT (Similarity: 0.9800)").
Proof. vm_compute. reflexivity. Qed.

Section MissResults.
Context `{Externals}.

(** The coordinator after a lookup that found nothing. *)
Lemma resolve_after_miss (w : world) (st : state) (s query : string) (v : vec)
    (evs : list event) :
  strip s = query -> query <> "" ->
  get_embedding w query = (Some v, evs) ->
  (get_from_cache st query v).1.1.1 = None ->
  get_search_results_with_cache w st (PyStr s)
    = after_calls evs
        (live_and_cache w (load_faiss_cache st).2 query
           (get_from_cache st query v).1.2).
Proof.
  intros Hs Hq Hemb Hmiss.
  rewrite (resolve_embedded w st s query v evs Hs Hq Hemb), Hmiss.
  rewrite get_from_cache_state. reflexivity.
Qed.

End MissResults.

(** X17. A result that cannot be stored is returned all the same: on a miss
    with a successful live search whose entry file cannot be written, the
    dictionary returned is the live result under the status
    "Live Search (Cache Miss)", exactly as when it is cached, while the state
    is just the loaded one: no entry, no vector, no record was added. *)
Theorem unwritable_entry_is_invisible `{Externals} (w : world) (st : state)
    (s query : string) (v : vec) (evs : list event) :
  strip s = query -> query <> "" ->
  get_embedding w query = (Some v, evs) ->
  (get_from_cache st query v).1.1.1 = None ->
  live_search w query !! "error" = None ->
  size (live_search w query) <> 0 ->
  can_write w (cache_filepath query) = false ->
  get_search_results_with_cache w st (PyStr s)
    = (<["_cache_status" := PStr "Live Search (Cache Miss)"]>
         (as_payload (live_search w query)),
       (load_faiss_cache st).2,
       evs ++ [EvLive query]).
Proof.
  intros Hs Hq Hemb Hmiss Hok Hsome Hwrite.
  rewrite (resolve_after_miss w st s query v evs Hs Hq Hemb Hmiss).
  unfold live_and_cache.
  rewrite has_key_as_payload, Hok.
  rewrite bool_decide_eq_false_2 by (intros [x Hx]; discriminate).
  unfold truthy_dict, as_payload. rewrite map_size_fmap.
  rewrite bool_decide_eq_false_2 by exact Hsome. simpl.
  unfold add_to_cache. rewrite load_idempotent.
  destruct (load_faiss_cache st) as [idx st1]. simpl.
  rewrite Hwrite. reflexivity.
Qed.

Lemma read_only_result_returned :
  @get_search_results_with_cache binary64_externals read_only_world stale_state
      (PyStr "E vs F")
    = (<["_cache_status" := PStr "Live Search (Cache Miss)"]>
         (as_payload (live_search read_only_world "E vs F")),
       (load_faiss_cache stale_state).2,
       [EvEmbed "E vs F"] ++ [EvLive "E vs F"]).
Proof.
  apply (@unwritable_entry_is_invisible binary64_externals read_only_world
           stale_state "E vs F" "E vs F" [0%float; 1%float] [EvEmbed "E vs F"]).
  - vm_compute. reflexivity.
  - discriminate.
  - vm_compute. reflexivity.
  - vm_compute. reflexivity.
  - vm_compute. reflexivity.
  - vm_compute. lia.
  - reflexivity.
Defined.

(** X18. An empty live result counts as a failure: on a miss, when the live
    search returns an empty dictionary, the coordinator returns a new
    dictionary with "error" = "Live search returned empty results." and
    "_cache_status" = "Live Search Failed (Empty)", and caches nothing. *)
Theorem empty_live_result_is_failure `{Externals} (w : world) (st : state)
    (s query : string) (v : vec) (evs : list event) :
  strip s = query -> query <> "" ->
  get_embedding w query = (Some v, evs) ->
  (get_from_cache st query v).1.1.1 = None ->
  live_search w query = ∅ ->
  get_search_results_with_cache w st (PyStr s)
    = (<["error" := PStr "Live search returned empty results."]>
         (<["_cache_status" := PStr "Live Search Failed (Empty)"]> ∅),
       (load_faiss_cache st).2,
       evs ++ [EvLive query]).
Proof.
  intros Hs Hq Hemb Hmiss Hempty.
  rewrite (resolve_after_miss w st s query v evs Hs Hq Hemb Hmiss).
  unfold live_and_cache. rewrite Hempty. reflexivity.
Qed.

Lemma empty_search_is_failure :
  @get_search_results_with_cache binary64_externals empty_search_world stale_state
      (PyStr "E vs F")
    = (<["error" := PStr "Live search returned empty results."]>
         (<["_cache_status" := PStr "Live Search Failed (Empty)"]> ∅),
       (load_faiss_cache stale_state).2,
       [EvEmbed "E vs F"] ++ [EvLive "E vs F"]).
Proof.
  apply (@empty_live_result_is_failure binary64_externals empty_search_world
           stale_state "E vs F" "E vs F" [0%float; 1%float] [EvEmbed "E vs F"]).
  - vm_compute. reflexivity.
  - discriminate.
  - vm_compute. reflexivity.
  - vm_compute. reflexivity.
  - reflexivity.
Defined.

(** * The scraper *)

(** ** Keys of the result *)

Lemma prefix_append (s x : string) : String.prefix s (s +:+ x) = true.
Proof.
  induction s as [|c s IH].
  - change ("" +:+ x) with x. by destruct x.
  - change (String c s +:+ x) with (String c (s +:+ x)).
    cbn [String.prefix]. by destruct (ascii_dec c c).
Qed.

Lemma source_key_prefix (i : nat) (u t : string) :
  String.prefix "Source [" (source_key i u t) = true.
Proof. apply prefix_append. Qed.

Lemma digits_then_bracket (d d' : Decimal.uint) (x y : string) :
  NilEmpty.string_of_uint d +:+ String "]" x
    = NilEmpty.string_of_uint d' +:+ String "]" y ->
  d = d'.
Proof.
  revert d'. induction d; intros [] Heq; cbn in Heq;
    first [ discriminate | reflexivity
          | by (injection Heq as Heq; f_equal; eauto) ].
Qed.

Lemma to_uint_nonnil (n : nat) : Nat.to_uint n <> Decimal.Nil.
Proof.
  rewrite <- (Unsigned.of_to n) at 1. rewrite Unsigned.to_of.
  apply unorm_nonnil.
Qed.

Lemma string_of_uint_nonnil (d : Decimal.uint) :
  d <> Decimal.Nil -> NilZero.string_of_uint d = NilEmpty.string_of_uint d.
Proof. by destruct d. Qed.

Lemma source_key_index (i j : nat) (u t u' t' : string) :
  source_key i u t = source_key j u' t' -> i = j.
Proof.
  unfold source_key. intros Heq.
  rewrite !string_of_uint_nonnil in Heq by apply to_uint_nonnil.
  cbv [String.append] in Heq. injection Heq as Heq.
  apply digits_then_bracket in Heq.
  apply Unsigned.to_uint_inj in Heq. lia.
Qed.

Lemma source_key_not_plain (i : nat) (u t k : string) :
  String.prefix "Source [" k = false -> source_key i u t <> k.
Proof. intros Hk <-. by rewrite source_key_prefix in Hk. Qed.

(** ** The link filter *)

Lemma select_links_take (tags acc : list (string * string)) :
  (length acc < 3)%nat ->
  select_links tags acc = take 3 (acc ++ filter (fun tag => kept tag = true) tags).
Proof.
  revert acc. induction tags as [|[title link] rest IH]; intros acc Hacc.
  - simpl. rewrite app_nil_r. symmetry. apply take_ge. lia.
  - cbn [select_links].
    destruct (keep_link title link) eqn:Hk.
    + rewrite filter_cons_True by exact Hk.
      destruct (3 <=? length (acc ++ [(title, link)]))%nat eqn:Hlen.
      * apply Nat.leb_le in Hlen.
        rewrite (cons_middle (title, link) acc (filter _ rest)).
        rewrite (assoc_L (++) acc [(title, link)]).
        rewrite (take_app_le (acc ++ [(title, link)])) by exact Hlen.
        symmetry. apply take_ge. rewrite length_app. simpl. lia.
      * apply Nat.leb_gt in Hlen. rewrite IH by done.
        by rewrite (cons_middle (title, link) acc (filter _ rest)),
             (assoc_L (++)).
    + rewrite filter_cons_False by (unfold kept; cbn [fst snd]; by rewrite Hk).
      destruct (3 <=? length acc)%nat eqn:Hlen.
      * apply Nat.leb_le in Hlen. lia.
      * by apply IH.
Qed.


Example sample_links_selected :
  links_to_visit patchy_browser
    = [ ("Match report", "https://example.org/report");
        ("Live score", "http://scores.example.net/live");
        ("Archive", "https://example.org/archive") ].
Proof. vm_compute. reflexivity. Qed.

(** ** The link loop *)

Lemma visit_links_cons (b : browser) (i : nat) (t u : string)
    (rest : list (string * string)) (sd : sections) :
  visit_links b i ((t, u) :: rest) sd
    = match link_text (visit_link b i u) with
      | Some text => visit_links b (S i) rest (<[source_key i u t := text]> sd)
      | None => (sd, Some unbound_e)
      end.
Proof.
  cbn [visit_links]. unfold link_text.
  destruct (visit_link b i u) as [x|e]; [done|].
  by destruct (exn_kind e).
Qed.

Lemma visit_links_abort_exn (b : browser) (i : nat) (l : list (string * string))
    (sd : sections) (e : exn) :
  (visit_links b i l sd).2 = Some e -> e = unbound_e.
Proof.
  revert i sd. induction l as [|[t u] rest IH]; intros i sd; [done|].
  rewrite visit_links_cons. destruct (link_text _); [apply IH|].
  simpl. congruence.
Qed.

Lemma visit_links_completes (b : browser) (i : nat) (l : list (string * string))
    (sd : sections) :
  (visit_links b i l sd).2 = None <->
  forall j t u, l !! j = Some (t, u) ->
    is_Some (link_text (visit_link b (i + j) u)).
Proof.
  revert i sd. induction l as [|[t u] rest IH]; intros i sd.
  - split; [|done]. intros _ j t u Hj. by rewrite lookup_nil in Hj.
  - rewrite visit_links_cons. destruct (link_text (visit_link b i u)) eqn:Hl.
    + rewrite IH. split.
      * intros Hrest [|j] t' u' Hj.
        -- simpl in Hj. injection Hj as -> ->. rewrite Nat.add_0_r, Hl. by eexists.
        -- simpl in Hj. rewrite Nat.add_succ_r. by apply (Hrest j t' u').
      * intros Hall j t' u' Hj. specialize (Hall (S j) t' u' Hj).
        by rewrite Nat.add_succ_r in Hall.
    + split; [done|]. intros Hall. specialize (Hall 0%nat t u eq_refl).
      rewrite Nat.add_0_r, Hl in Hall. by destruct Hall.
Qed.

Lemma visit_links_other_keys (b : browser) (i : nat) (l : list (string * string))
    (sd : sections) (k : string) :
  (forall j t u, l !! j = Some (t, u) -> k <> source_key (i + j) u t) ->
  (visit_links b i l sd).1 !! k = sd !! k.
Proof.
  revert i sd. induction l as [|[t u] rest IH]; intros i sd Hk; [done|].
  rewrite visit_links_cons. destruct (link_text _); [|done].
  rewrite IH.
  - apply lookup_insert_ne. intros Heq. apply (Hk 0%nat t u eq_refl).
    by rewrite Nat.add_0_r.
  - intros j t' u' Hj. specialize (Hk (S j) t' u' Hj).
    by rewrite Nat.add_succ_r in Hk.
Qed.

Lemma visit_links_plain_key (b : browser) (i : nat) (l : list (string * string))
    (sd : sections) (k : string) :
  String.prefix "Source [" k = false ->
  (visit_links b i l sd).1 !! k = sd !! k.
Proof.
  intros Hk. apply visit_links_other_keys. intros j t u _ ->.
  by rewrite source_key_prefix in Hk.
Qed.

(** An entry found under the key of link number [j] was written for that
    link. *)
Lemma visit_links_entry (b : browser) (i j : nat) (l : list (string * string))
    (sd : sections) (t u v : string) :
  l !! j = Some (t, u) ->
  (forall j' t' u', sd !! source_key (i + j') u' t' = None) ->
  (visit_links b i l sd).1 !! source_key (i + j) u t = Some v ->
  link_text (visit_link b (i + j) u) = Some v.
Proof.
  revert i j sd. induction l as [|[t0 u0] rest IH]; intros i j sd Hj Hsd; [done|].
  rewrite visit_links_cons. destruct j as [|j]; simpl in Hj.
  - injection Hj as -> ->. rewrite Nat.add_0_r.
    destruct (link_text (visit_link b i u)) as [text|] eqn:Hl.
    + rewrite visit_links_other_keys.
      * by rewrite lookup_insert_eq.
      * intros j' t' u' _ Heq. apply source_key_index in Heq. lia.
    + simpl. specialize (Hsd 0%nat t u). rewrite Nat.add_0_r in Hsd.
      by rewrite Hsd.
  - destruct (link_text (visit_link b i u0)) as [text|] eqn:Hl.
    + rewrite Nat.add_succ_r. apply (IH (S i) j); [done|].
      intros j' t' u'. rewrite lookup_insert_ne; [|].
      * specialize (Hsd (S j') t' u'). by rewrite Nat.add_succ_r in Hsd.
      * intros Heq. apply source_key_index in Heq. lia.
    + simpl. by rewrite Hsd.
Qed.

(** In a loop that is not left early every link has its entry. *)
Lemma visit_links_lookup (b : browser) (i j : nat) (l : list (string * string))
    (sd : sections) (t u : string) :
  l !! j = Some (t, u) ->
  (visit_links b i l sd).2 = None ->
  (visit_links b i l sd).1 !! source_key (i + j) u t
    = link_text (visit_link b (i + j) u).
Proof.
  revert i j sd. induction l as [|[t0 u0] rest IH]; intros i j sd Hj; [done|].
  rewrite visit_links_cons.
  destruct (link_text (visit_link b i u0)) as [text|] eqn:Hl; [|done].
  intros Hrun. destruct j as [|j]; simpl in Hj.
  - injection Hj as -> ->. rewrite Nat.add_0_r, Hl.
    rewrite visit_links_other_keys.
    + by rewrite lookup_insert_eq.
    + intros j' t' u' _ Heq. apply source_key_index in Heq. lia.
  - rewrite Nat.add_succ_r. by apply (IH (S i) j).
Qed.

Lemma visit_links_size (b : browser) (i : nat) (l : list (string * string))
    (sd : sections) :
  (size (visit_links b i l sd).1 <= size sd + length l)%nat.
Proof.
  revert i sd. induction l as [|[t u] rest IH]; intros i sd; [simpl; lia|].
  rewrite visit_links_cons. destruct (link_text _) as [text|].
  - etrans; [apply IH|]. rewrite map_size_insert. simpl.
    destruct (sd !! _); simpl; lia.
  - simpl. lia.
Qed.

Lemma visit_links_aborts (b : browser) (i : nat) (l : list (string * string))
    (sd : sections) (e : exn) :
  (visit_links b i l sd).2 = Some e ->
  exists j t u, l !! j = Some (t, u) /\
    link_text (visit_link b (i + j) u) = None.
Proof.
  revert i sd. induction l as [|[t u] rest IH]; intros i sd; [done|].
  rewrite visit_links_cons.
  destruct (link_text (visit_link b i u)) as [text|] eqn:Hl.
  - intros Hrun. destruct (IH _ _ Hrun) as (j & t' & u' & Hj & Hnone).
    exists (S j), t', u'. split; [done|]. by rewrite Nat.add_succ_r.
  - intros _. exists 0%nat, t, u. split; [done|]. by rewrite Nat.add_0_r.
Qed.

Lemma link_text_none (o : outcome string) :
  link_text o = None <->
  exists e, o = Raises e /\ exn_kind e = OtherException.
Proof.
  unfold link_text. destruct o as [x|e].
  - split; [done|]. by intros (e & He & _).
  - destruct (exn_kind e) eqn:Hk.
    + split; [done|]. intros (e' & [= <-] & Hk'). congruence.
    + split; [done|]. intros (e' & [= <-] & Hk'). congruence.
    + split; [|done]. intros _. by exists e.
Qed.

(** Once a link aborts the loop, neither it nor a later link has an
    entry. *)
Lemma visit_links_stops (b : browser) (i j j' : nat) (l : list (string * string))
    (sd : sections) (t u t' u' : string) :
  l !! j = Some (t, u) ->
  link_text (visit_link b (i + j) u) = None ->
  (j <= j')%nat -> l !! j' = Some (t', u') ->
  (forall m t0 u0, sd !! source_key (i + m) u0 t0 = None) ->
  (visit_links b i l sd).1 !! source_key (i + j') u' t' = None.
Proof.
  revert i j j' sd. induction l as [|[t0 u0] rest IH];
    intros i j j' sd Hj Hnone Hle Hj' Hsd; [done|].
  rewrite visit_links_cons.
  destruct (link_text (visit_link b i u0)) as [text|] eqn:Hl; [|apply Hsd].
  destruct j as [|j]; simpl in Hj.
  { injection Hj as -> ->. rewrite Nat.add_0_r in Hnone. congruence. }
  destruct j' as [|j']; [lia|]. simpl in Hj'.
  rewrite Nat.add_succ_r. apply (IH (S i) j j' _); try done.
  - by replace (S i + j)%nat with (i + S j)%nat by lia.
  - lia.
  - intros m t1 u1. rewrite lookup_insert_ne.
    + specialize (Hsd (S m) t1 u1). by rewrite Nat.add_succ_r in Hsd.
    + intros Heq. apply source_key_index in Heq. lia.
Qed.

Lemma visit_links_size_lower (b : browser) (i : nat) (l : list (string * string))
    (sd : sections) :
  (size sd <= size (visit_links b i l sd).1)%nat.
Proof.
  revert i sd. induction l as [|[t u] rest IH]; intros i sd; [done|].
  rewrite visit_links_cons. destruct (link_text _) as [text|]; [|done].
  etrans; [|apply IH]. rewrite map_size_insert.
  destruct (sd !! _); simpl; lia.
Qed.

Lemma links_to_visit_length (b : browser) : (length (links_to_visit b) <= 3)%nat.
Proof.
  unfold links_to_visit. destruct (result_links b) as [tags|e]; [|simpl; lia].
  rewrite select_links_take by (simpl; lia). rewrite length_take. lia.
Qed.

(** ** The whole function *)

Lemma substring_length (n : nat) (s : string) :
  (String.length (String.substring 0 n s) <= n)%nat.
Proof.
  revert s. induction n as [|n IH]; intros [|c s]; simpl; try lia.
  specialize (IH s). lia.
Qed.

Lemma scrape_pages_result (b : browser) (sd : sections) :
  scrape_pages b sd
    = let r := visit_links b 0 (links_to_visit b)
                 (<["Bing Search Results Page" := main_page_entry b]> sd) in
      match r.2 with
      | None => r.1
      | Some e => major_error e r.1
      end.
Proof.
  unfold scrape_pages, main_page_entry. cbv zeta.
  by destruct (visit_links _ _ _ _) as [d [e|]].
Qed.

Ltac stage_passed :=
  repeat split; try assumption; intros Hbad;
  first [ destruct Hbad as (e & [= <-] & Hne); congruence
        | destruct Hbad as (e & He & Hne); congruence
        | destruct Hbad as (e & He); congruence ].

(** The two ways the function ends: the result page is parsed, or an error
    is recorded next to the initial status. *)
Lemma scrape_cases (quote_plus : string -> string) (b : browser) (query : string) :
  (reaches_results b /\
   _perform_web_search_and_extract quote_plus b query
     = scrape_pages b fresh_result) \/
  ((raised (start_driver b) \/ raised (prepare_search b) \/
    fatal (open_results b) \/ fatal (await_results b)) /\
   exists msg,
     _perform_web_search_and_extract quote_plus b query
       = <["error" := msg]> fresh_result).
Proof.
  unfold _perform_web_search_and_extract, reaches_results, raised, fatal, major_error.
  destruct (start_driver b) as [[]|e0].
  2:{ right. split; [left; by eexists|]. destruct (exn_kind e0); by eexists. }
  destruct (prepare_search b) as [[]|e1].
  2:{ right. split; [right; left; by eexists|]. by eexists. }
  assert (Hwait :
    (~ (exists e, await_results b = Raises e /\ exn_kind e <> TimeoutException) /\
     match await_results b with
     | Done _ => scrape_pages b fresh_result
     | Raises e =>
         match exn_kind e with
         | TimeoutException => scrape_pages b fresh_result
         | _ => major_error e fresh_result
         end
     end = scrape_pages b fresh_result) \/
    ((exists e, await_results b = Raises e /\ exn_kind e <> TimeoutException) /\
     exists msg,
       match await_results b with
       | Done _ => scrape_pages b fresh_result
       | Raises e =>
           match exn_kind e with
           | TimeoutException => scrape_pages b fresh_result
           | _ => major_error e fresh_result
           end
       end = <["error" := msg]> fresh_result)).
  { destruct (await_results b) as [[]|e3].
    - left. split; [|done]. intros (e & He & _). done.
    - destruct (exn_kind e3) eqn:Hk3.
      + left. split; [|done]. intros (e & [= <-] & Hne). done.
      + right. split; [exists e3; by rewrite Hk3|]. by eexists.
      + right. split; [exists e3; by rewrite Hk3|]. by eexists. }
  unfold major_error in Hwait.
  destruct (open_results b) as [[]|e2].
  - destruct Hwait as [[Hok ->]|[Hbad Hmsg]].
    + left. split; [|done]. stage_passed.
    + right. split; [|done]. by do 3 right.
  - destruct (exn_kind e2) eqn:Hk2.
    + destruct Hwait as [[Hok ->]|[Hbad Hmsg]].
      * left. split; [|done]. stage_passed.
      * right. split; [|done]. by do 3 right.
    + right. split; [|by eexists]. do 2 right. left. exists e2. by rewrite Hk2.
    + right. split; [|by eexists]. do 2 right. left. exists e2. by rewrite Hk2.
Qed.

Lemma scrape_pages_plain_key (b : browser) (sd : sections) (k : string) :
  String.prefix "Source [" k = false -> k <> "error" ->
  k <> "Bing Search Results Page" ->
  scrape_pages b sd !! k = sd !! k.
Proof.
  intros Hk Herr Hmain. rewrite scrape_pages_result. cbv zeta.
  destruct (visit_links _ _ _ _).2 as [e|].
  - unfold major_error. rewrite lookup_insert_ne by done.
    rewrite visit_links_plain_key by done. by rewrite lookup_insert_ne.
  - rewrite visit_links_plain_key by done. by rewrite lookup_insert_ne.
Qed.

Lemma scrape_pages_error (b : browser) (sd : sections) :
  sd !! "error" = None ->
  scrape_pages b sd !! "error"
    = match (visit_links b 0 (links_to_visit b)
               (<["Bing Search Results Page" := main_page_entry b]> sd)).2 with
      | Some _ =>
          Some "Major error during web search execution: NameError - name 'e' is not defined"
      | None => None
      end.
Proof.
  intros Hsd. rewrite scrape_pages_result. cbv zeta.
  destruct (visit_links _ _ _ _).2 as [e|] eqn:Hrun.
  - apply visit_links_abort_exn in Hrun as ->.
    unfold major_error. by rewrite lookup_insert_eq.
  - rewrite visit_links_plain_key by done. by rewrite lookup_insert_ne.
Qed.

Lemma fresh_page_no_sources (b : browser) (m : nat) (t u : string) :
  (<["Bing Search Results Page" := main_page_entry b]> fresh_result)
    !! source_key (0 + m) u t = None.
Proof.
  rewrite lookup_insert_ne by (symmetry; by apply source_key_not_plain).
  apply lookup_singleton_ne. symmetry. by apply source_key_not_plain.
Qed.

(** X19. Whatever the browser does, the scraper's dictionary keeps the status
    it starts with, "_cache_status" = "Live Search Triggered"; so it is never
    empty. *)
Theorem scrape_keeps_status_marker (quote_plus : string -> string) (b : browser)
    (query : string) :
  _perform_web_search_and_extract quote_plus b query !! "_cache_status"
    = Some "Live Search Triggered".
Proof.
  destruct (scrape_cases quote_plus b query) as [[_ ->]|[_ [msg ->]]].
  - by rewrite scrape_pages_plain_key.
  - done.
Qed.

(** X21. The scraper's dictionary has an "error" key exactly when the driver
    could not be started, the preparation of the search raised, loading or
    awaiting the result page raised something other than a timeout, or the
    block of a visited link raised an exception that is neither a timeout
    nor a WebDriver error. *)
Theorem scrape_error_iff (quote_plus : string -> string) (b : browser)
    (query : string) :
  is_Some (_perform_web_search_and_extract quote_plus b query !! "error") <->
  raised (start_driver b) \/ raised (prepare_search b) \/
  fatal (open_results b) \/ fatal (await_results b) \/
  exists j t u, links_to_visit b !! j = Some (t, u) /\
    exists e, visit_link b j u = Raises e /\ exn_kind e = OtherException.
Proof.
  destruct (scrape_cases quote_plus b query)
    as [[(Hs & Hp & Ho & Ha) ->]|[Hstage [msg ->]]].
  - rewrite scrape_pages_error by done.
    destruct (visit_links _ _ _ _).2 as [e|] eqn:Hrun.
    + split; [intros _|by eexists]. do 4 right.
      destruct (visit_links_aborts _ _ _ _ _ Hrun) as (j & t & u & Hj & Hnone).
      exists j, t, u. split; [done|]. by apply link_text_none.
    + split; [by intros []|].
      intros [?|[?|[?|[?|(j & t & u & Hj & Hbad)]]]]; try done.
      apply link_text_none in Hbad.
      pose proof (proj1 (visit_links_completes _ _ _ _) Hrun j t u Hj) as Hsome.
      simpl in Hsome. rewrite Hbad in Hsome. by destruct Hsome.
  - rewrite lookup_insert_eq. split; [intros _|by eexists].
    destruct Hstage as [?|[?|[?|?]]]; auto.
Qed.

(** X22. An unexpected exception in the block of one link fails the whole
    search.  The handler formats [type(e)] with no [e] bound; so, once the
    result page is reached, the dictionary ends with "error" = "Major error
    during web search execution: NameError - name 'e' is not defined", and
    neither that link nor any later one has an entry. *)
Theorem link_processing_error_aborts_search (quote_plus : string -> string)
    (b : browser) (query : string) (j : nat) (t u : string) (e : exn) :
  reaches_results b ->
  links_to_visit b !! j = Some (t, u) ->
  visit_link b j u = Raises e -> exn_kind e = OtherException ->
  let scraped_data := _perform_web_search_and_extract quote_plus b query in
  scraped_data !! "error"
    = Some "Major error during web search execution: NameError - name 'e' is not defined" /\
  forall j' t' u', (j <= j')%nat -> links_to_visit b !! j' = Some (t', u') ->
    scraped_data !! source_key j' u' t' = None.
Proof.
  intros Hreach Hj He Hk scraped_data. subst scraped_data.
  assert (Hnone : link_text (visit_link b (0 + j) u) = None).
  { apply link_text_none. by exists e. }
  destruct (scrape_cases quote_plus b query) as [[_ ->]|[Hstage _]].
  2:{ destruct Hreach as (? & ? & ? & ?). by destruct Hstage as [?|[?|[?|?]]]. }
  assert (Hrun : (visit_links b 0 (links_to_visit b)
                    (<["Bing Search Results Page" := main_page_entry b]>
                       fresh_result)).2 <> None).
  { intros Hrun.
    pose proof (proj1 (visit_links_completes _ _ _ _) Hrun j t u Hj) as Hsome.
    rewrite Hnone in Hsome. by destruct Hsome. }
  split.
  - rewrite scrape_pages_error by done. by destruct (visit_links _ _ _ _).2.
  - intros j' t' u' Hle Hj'. rewrite scrape_pages_result. cbv zeta.
    destruct (visit_links _ _ _ _).2 as [e'|]; [|done].
    unfold major_error.
    rewrite lookup_insert_ne by (symmetry; by apply source_key_not_plain).
    apply (visit_links_stops b 0 j j' _ _ t u t' u');
      first [done | apply fresh_page_no_sources].
Qed.

Lemma tripping_browser_aborts :
  let scraped_data :=
    _perform_web_search_and_extract (fun query => query) tripping_browser "E vs F" in
  scraped_data !! "error"
    = Some "Major error during web search execution: NameError - name 'e' is not defined" /\
  forall j' t' u', (1 <= j')%nat ->
    links_to_visit tripping_browser !! j' = Some (t', u') ->
    scraped_data !! source_key j' u' t' = None.
Proof.
  apply (link_processing_error_aborts_search (fun query => query)
           tripping_browser "E vs F" 1 "Live score"
           "http://scores.example.net/live" bad_markup).
  - unfold reaches_results, raised, fatal. simpl. stage_passed.
  - vm_compute. reflexivity.
  - reflexivity.
  - reflexivity.
Defined.

Example tripping_browser_keeps_first_link :
  _perform_web_search_and_extract (fun query => query) tripping_browser "E vs F"
    !! source_key 0 "https://example.org/report" "Match report"
    = Some "Full report".
Proof. vm_compute. reflexivity. Qed.

(** X23. A dictionary without "error" holds the text of the result page and,
    for every link collected, an entry of its own under the key built from
    its number, address and title: the text scraped, or the placeholder for a
    timeout, a WebDriver error or an empty page. *)
Theorem error_free_scrape_entries (quote_plus : string -> string) (b : browser)
    (query : string) :
  let scraped_data := _perform_web_search_and_extract quote_plus b query in
  scraped_data !! "error" = None ->
  scraped_data !! "Bing Search Results Page" = Some (main_page_entry b) /\
  forall j t u, links_to_visit b !! j = Some (t, u) ->
    exists text, link_text (visit_link b j u) = Some text /\
      scraped_data !! source_key j u t = Some text.
Proof.
  intros scraped_data. subst scraped_data.
  destruct (scrape_cases quote_plus b query) as [[_ ->]|[_ [msg ->]]].
  2:{ by rewrite lookup_insert_eq. }
  rewrite scrape_pages_error by done. rewrite scrape_pages_result. cbv zeta.
  destruct (visit_links _ _ _ _).2 as [e|] eqn:Hrun; [done|]. intros _. split.
  - rewrite visit_links_plain_key by done. by rewrite lookup_insert_eq.
  - intros j t u Hj.
    pose proof (proj1 (visit_links_completes _ _ _ _) Hrun j t u Hj) as [text Ht].
    exists text. split; [done|].
    rewrite <- Ht. by apply (visit_links_lookup b 0 j).
Qed.

Lemma patchy_browser_entries :
  let scraped_data :=
    _perform_web_search_and_extract (fun query => query) patchy_browser "E vs F" in
  scraped_data !! "Bing Search Results Page" = Some (main_page_entry patchy_browser) /\
  forall j t u, links_to_visit patchy_browser !! j = Some (t, u) ->
    exists text, link_text (visit_link patchy_browser j u) = Some text /\
      scraped_data !! source_key j u t = Some text.
Proof.
  apply (error_free_scrape_entries (fun query => query) patchy_browser "E vs F").
  vm_compute. reflexivity.
Defined.

Example patchy_browser_result :
  _perform_web_search_and_extract (fun query => query) patchy_browser "E vs F"
    = {[ "_cache_status" := "Live Search Triggered";
         "Bing Search Results Page" := "India won by 5 wickets";
         "Source [1]: https://example.org/report (Title: Match report)" := "Full report";
         "Source [2]: http://scores.example.net/live (Title: Live score)"
           := "[Timeout Error loading page: 15s]";
         "Source [3]: https://example.org/archive (Title: Archive)"
           := "[No relevant text found on page]" ]}.
Proof. vm_compute. reflexivity. Qed.

(** X24. Scraped texts are cut: when the result page was parsed its entry has
    at most 5000 characters, and the entry of a link whose page was read has
    at most 4000. *)
Theorem scraped_texts_are_cut (quote_plus : string -> string) (b : browser)
    (query : string) :
  let scraped_data := _perform_web_search_and_extract quote_plus b query in
  (forall text v, read_results b = Done text ->
     scraped_data !! "Bing Search Results Page" = Some v ->
     (String.length v <= 5000)%nat) /\
  (forall j t u text v, links_to_visit b !! j = Some (t, u) ->
     visit_link b j u = Done text ->
     scraped_data !! source_key j u t = Some v ->
     (String.length v <= 4000)%nat).
Proof.
  intros scraped_data. subst scraped_data.
  destruct (scrape_cases quote_plus b query) as [[_ ->]|[_ [msg ->]]].
  2:{ split.
      - intros text v _. by rewrite lookup_insert_ne, lookup_singleton_ne.
      - intros j t u text v _ _.
        rewrite lookup_insert_ne by (symmetry; by apply source_key_not_plain).
        rewrite lookup_singleton_ne; [done|].
        symmetry. by apply source_key_not_plain. }
  rewrite scrape_pages_result. cbv zeta. split.
  - intros text v Hread Hv.
    assert (Hmain : main_page_entry b = v).
    { destruct (visit_links _ _ _ _).2 as [e|]; [unfold major_error in Hv|];
        rewrite ?lookup_insert_ne in Hv by done;
        rewrite visit_links_plain_key in Hv by done;
        rewrite lookup_insert_eq in Hv; congruence. }
    subst v. unfold main_page_entry. rewrite Hread.
    destruct (nonempty text); [apply substring_length|simpl; lia].
  - intros j t u text v Hj Hvisit Hv.
    assert (Hentry : link_text (visit_link b (0 + j) u) = Some v).
    { apply (visit_links_entry b 0 j (links_to_visit b)
               (<["Bing Search Results Page" := main_page_entry b]> fresh_result)
               t u v Hj).
      - apply fresh_page_no_sources.
      - destruct (visit_links _ _ _ _).2 as [e|]; [|done].
        unfold major_error in Hv.
        by rewrite lookup_insert_ne in Hv
          by (symmetry; by apply source_key_not_plain). }
    simpl in Hentry. rewrite Hvisit in Hentry. simpl in Hentry.
    injection Hentry as <-.
    destruct (nonempty _); [apply substring_length|simpl; lia].
Qed.

(** X25. The scraper's dictionary has between two and six entries: the
    status, and at most the result page, three sources and an error. *)
Theorem scrape_at_most_six_entries (quote_plus : string -> string) (b : browser)
    (query : string) :
  (2 <= size (_perform_web_search_and_extract quote_plus b query) <= 6)%nat.
Proof.
  destruct (scrape_cases quote_plus b query) as [[_ ->]|[_ [msg ->]]].
  2:{ rewrite map_size_insert_None by done. rewrite map_size_singleton. lia. }
  rewrite scrape_pages_result. cbv zeta.
  set (sd := <["Bing Search Results Page" := main_page_entry b]> fresh_result).
  assert (Hsd : size sd = 2%nat).
  { unfold sd. rewrite map_size_insert_None by done. by rewrite map_size_singleton. }
  pose proof (visit_links_size b 0 (links_to_visit b) sd) as Hup.
  pose proof (links_to_visit_length b) as Hlen.
  pose proof (visit_links_size_lower b 0 (links_to_visit b) sd) as Hlow.
  destruct (visit_links _ _ _ _).2 as [e|].
  - unfold major_error. rewrite map_size_insert. destruct (_ !! "error"); simpl; lia.
  - lia.
Qed.

(** ** The scraper behind the coordinator *)

Lemma truthy_scraped (quote_plus : string -> string) (b : browser) (query : string) :
  truthy_dict (as_payload (_perform_web_search_and_extract quote_plus b query)) = true.
Proof.
  unfold truthy_dict, as_payload. rewrite map_size_fmap.
  apply negb_true_iff, bool_decide_eq_false. intros Hsize.
  apply map_size_empty_iff in Hsize.
  assert (Hst : _perform_web_search_and_extract quote_plus b query
                  !! "_cache_status" = Some "Live Search Triggered").
  { destruct (scrape_cases quote_plus b query) as [[_ ->]|[_ [msg ->]]];
      [by rewrite scrape_pages_plain_key|done]. }
  by rewrite Hsize in Hst.
Qed.

(** X26. With the scraper as live search, a miss ends in one of two ways and
    never in the empty-result answer: the scraped dictionary comes back with
    status "Live Search (Cache Miss)" when it has no "error", and otherwise
    with status "Live Search Failed (<error>)", the state being just the
    loaded one and the live search the last call. *)
Theorem scraped_miss_outcomes `{Externals} (quote_plus : string -> string)
    (b : browser) (w : world) (st : state) (s query : string) (v : vec)
    (evs : list event) :
  strip s = query -> query <> "" ->
  get_embedding w query = (Some v, evs) ->
  (get_from_cache st query v).1.1.1 = None ->
  live_search w query = _perform_web_search_and_extract quote_plus b query ->
  let out := get_search_results_with_cache w st (PyStr s) in
  exists status,
    out.1.1 = <["_cache_status" := PStr status]> (as_payload (live_search w query)) /\
    (live_search w query !! "error" = None /\ status = "Live Search (Cache Miss)" \/
     exists msg, live_search w query !! "error" = Some msg /\
       status = "Live Search Failed (" +:+ msg +:+ ")" /\
       out.1.2 = (load_faiss_cache st).2 /\ out.2 = evs ++ [EvLive query]).
Proof.
  intros Hs Hq Hemb Hmiss Hlive out. subst out.
  rewrite (resolve_after_miss w st s query v evs Hs Hq Hemb Hmiss).
  destruct (live_search w query !! "error") as [msg|] eqn:Herr.
  - rewrite (live_and_cache_error _ _ _ _ msg Herr).
    eexists. split; [reflexivity|]. right. by exists msg.
  - unfold live_and_cache. rewrite has_key_as_payload, Herr.
    rewrite bool_decide_eq_false_2 by (by intros []).
    rewrite Hlive, truthy_scraped. cbn [negb andb].
    destruct (add_to_cache _ _ _ _ _) as [[ok st'] evs'].
    eexists. split; [reflexivity|]. by left.
Qed.

Lemma scraping_world_miss :
  let w := scraping_world patchy_browser in
  let out := @get_search_results_with_cache binary64_externals w stale_state
               (PyStr "E vs F") in
  exists status,
    out.1.1 = <["_cache_status" := PStr status]> (as_payload (live_search w "E vs F")) /\
    (live_search w "E vs F" !! "error" = None /\ status = "Live Search (Cache Miss)" \/
     exists msg, live_search w "E vs F" !! "error" = Some msg /\
       status = "Live Search Failed (" +:+ msg +:+ ")" /\
       out.1.2 = (load_faiss_cache stale_state).2 /\
       out.2 = [EvEmbed "E vs F"] ++ [EvLive "E vs F"]).
Proof.
  apply (@scraped_miss_outcomes binary64_externals (fun query => query)
           patchy_browser (scraping_world patchy_browser) stale_state
           "E vs F" "E vs F" [0%float; 1%float] [EvEmbed "E vs F"]).
  - vm_compute. reflexivity.
  - discriminate.
  - vm_compute. reflexivity.
  - vm_compute. reflexivity.
  - reflexivity.
Defined.

(** * The single-file version *)

Section PreviousFacts.
Context `{Externals}.

(** The single-file coordinator, once the query is accepted and embedded. *)
Lemma previous_resolve_embedded (w : world) (st : state) (idx : IndexFlatIP)
    (s query : string) (v : vec) (evs : list event) :
  strip s = query -> query <> "" ->
  faiss_index st = Some idx ->
  get_embedding w query = (Some v, evs) ->
  previous.get_search_results_with_cache w st (PyStr s) =
    match (previous.search_cache st idx (normalize_L2 v)).1 with
    | Some cached_data =>
        (cached_data, (previous.search_cache st idx (normalize_L2 v)).2, evs)
    | None =>
        after_calls evs
          (previous.live_and_cache w
             (previous.search_cache st idx (normalize_L2 v)).2 idx query
             (normalize_L2 v))
    end.
Proof.
  intros Hstrip Hq Hidx Hemb. unfold previous.get_search_results_with_cache.
  destruct s as [|c s]; [by subst|].
  rewrite Hstrip. destruct query as [|c' q]; [done|].
  rewrite Hidx, Hemb.
  destruct (previous.search_cache st idx (normalize_L2 v)) as [cached st'].
  reflexivity.
Qed.

(** The live branch of the single-file coordinator: its calls and its
    mapping. *)
Lemma previous_live_and_cache_goes_live (w : world) (st : state)
    (idx : IndexFlatIP) (query : string) (v : vec) :
  In (EvLive query) (previous.live_and_cache w st idx query v).2.
Proof.
  unfold previous.live_and_cache.
  destruct (if negb _ && _ then _ else _) as [[live_data st'] evs].
  left. reflexivity.
Qed.

Lemma previous_live_and_cache_mapping (w : world) (st : state)
    (idx : IndexFlatIP) (query : string) (v : vec) (k : Z) :
  k <> next_faiss_id st ->
  index_id_to_data (previous.live_and_cache w st idx query v).1.2 !! k
    = index_id_to_data st !! k.
Proof.
  intros Hk. unfold previous.live_and_cache.
  destruct (negb _ && _).
  - destruct (can_write w _); [|done].
    destruct (index_add idx v) as [idx'|]; [|done]. cbn [fst snd].
    match goal with
    | |- context [save_faiss_cache w ?s] =>
        destruct (save_keeps_memory w s) as (_ & -> & _)
    end.
    simpl. by rewrite lookup_insert_ne.
  - by destruct (has_key "error" _).
Qed.

End PreviousFacts.

(** X27. The single-file version does remove a stale record: on a loaded,
    non-empty index whose top-1 score meets the threshold and whose matched
    row has a mapping record pointing to an entry file that no longer exists,
    its coordinator performs the live search, and when the call returns the
    mapping holds no record under the matched row id (the id not being the
    one the next insertion uses). *)
Theorem previous_removes_stale_record `{Externals} (w : world) (st : state)
    (idx : IndexFlatIP) (s query : string) (v : vec) (evs : list event)
    (score : float) (id : Z) (cached_query_str cached_filepath : string) :
  strip s = query -> query <> "" ->
  get_embedding w query = (Some v, evs) ->
  faiss_index st = Some idx ->
  ntotal idx <> 0 ->
  index_search idx (normalize_L2 v) = Some (score, id) ->
  (CACHE_SIMILARITY_THRESHOLD <=? score)%float = true ->
  index_id_to_data st !! id = Some (cached_query_str, cached_filepath) ->
  entry_files st !! cached_filepath = None ->
  id <> next_faiss_id st ->
  In (EvLive query) (previous.get_search_results_with_cache w st (PyStr s)).2 /\
  index_id_to_data (previous.get_search_results_with_cache w st (PyStr s)).1.2 !! id
    = None.
Proof.
  intros Hstrip Hq Hemb Hidx Hn Hsearch Hge Hrec Hgone Hid.
  rewrite (previous_resolve_embedded w st idx s query v evs Hstrip Hq Hidx Hemb).
  unfold previous.search_cache.
  assert (Hpos : (0 <? ntotal idx)%nat = true) by (apply Nat.ltb_lt; lia).
  rewrite Hpos, Hsearch, Hge, Hrec, Hgone. cbn [fst snd]. split.
  - apply in_or_app. right. apply previous_live_and_cache_goes_live.
  - unfold after_calls. cbn [fst snd].
    rewrite previous_live_and_cache_mapping by done.
    simpl. apply lookup_delete_eq.
Qed.

Lemma previous_deleted_entry_record_removed :
  In (EvLive "Team A vs Team B result")
     (@previous.get_search_results_with_cache binary64_externals
        unit_embedding_world entry_deleted (PyStr "Team A vs Team B result")).2 /\
  index_id_to_data
    (@previous.get_search_results_with_cache binary64_externals
       unit_embedding_world entry_deleted (PyStr "Team A vs Team B result")).1.2
    !! 0%Z = None.
Proof.
  apply (@previous_removes_stale_record binary64_externals unit_embedding_world
           entry_deleted
           {| d := EMBEDDING_DIM; xb := [unit_embedding] |}
           "Team A vs Team B result" "Team A vs Team B result"
           unit_embedding [EvEmbed "Team A vs Team B result"] 1%float 0%Z
           "Team A vs Team B score"
           (@cache_filepath binary64_externals "Team A vs Team B score")).
  - vm_compute. reflexivity.
  - discriminate.
  - vm_compute. reflexivity.
  - vm_compute. reflexivity.
  - unfold ntotal. simpl. lia.
  - vm_compute. reflexivity.
  - vm_compute. reflexivity.
  - vm_compute. reflexivity.
  - vm_compute. reflexivity.
  - vm_compute. discriminate.
Defined.

Section PreviousMiss.
Context `{Externals}.

(** The live branch of the single-file coordinator when the result is usable
    and can be stored. *)
Lemma previous_live_and_cache_success (w : world) (st : state)
    (idx : IndexFlatIP) (query : string) (v : vec) :
  live_search w query !! "error" = None ->
  size (live_search w query) <> 0 ->
  can_write w (cache_filepath query) = true ->
  length v = d idx ->
  previous.live_and_cache w st idx query v
    = (pop "_cache_timestamp"
         (pop "_cached_original_query"
            (if has_key "_cache_status" (as_payload (live_search w query))
             then as_payload (live_search w query)
             else <["_cache_status" := PStr "Live Search (Cache Miss)"]>
                    (as_payload (live_search w query)))),
       appended w st idx query v (as_payload (live_search w query)),
       [EvLive query; EvWriteEntry (cache_filepath query); EvIndexAdd v]).
Proof.
  intros Herr Hsize Hwrite Hlen. unfold previous.live_and_cache.
  rewrite has_key_as_payload, Herr.
  rewrite bool_decide_eq_false_2 by (by intros []).
  assert (Htruthy : truthy_dict (as_payload (live_search w query)) = true).
  { unfold truthy_dict, as_payload. rewrite map_size_fmap.
    by apply negb_true_iff, bool_decide_eq_false. }
  rewrite Htruthy, Hwrite. cbn [negb andb].
  unfold index_add. rewrite decide_True by done. reflexivity.
Qed.

End PreviousMiss.

(** X28. The single-file version normalizes before it looks at the size of
    the index: on an empty index with a usable live result that can be
    stored, the vector handed to [faiss_index.add], and the only row of the
    index afterwards, is the normalized embedding. *)
Theorem previous_first_vector_normalized `{Externals} (w : world) (st : state)
    (idx : IndexFlatIP) (s query : string) (v : vec) (evs : list event) :
  strip s = query -> query <> "" ->
  get_embedding w query = (Some v, evs) ->
  faiss_index st = Some idx ->
  ntotal idx = 0 ->
  live_search w query !! "error" = None ->
  size (live_search w query) <> 0 ->
  can_write w (cache_filepath query) = true ->
  length v = d idx ->
  (previous.get_search_results_with_cache w st (PyStr s)).2
    = evs ++ [EvLive query; EvWriteEntry (cache_filepath query);
              EvIndexAdd (normalize_L2 v)] /\
  xb <$> faiss_index (previous.get_search_results_with_cache w st (PyStr s)).1.2
    = Some [normalize_L2 v].
Proof.
  intros Hstrip Hq Hemb Hidx Hn Herr Hsize Hwrite Hlen.
  rewrite (previous_resolve_embedded w st idx s query v evs Hstrip Hq Hidx Hemb).
  unfold previous.search_cache.
  assert (Hzero : (0 <? ntotal idx)%nat = false) by (apply Nat.ltb_ge; lia).
  rewrite Hzero. cbn [fst snd].
  rewrite previous_live_and_cache_success;
    [|done|done|done|by rewrite normalize_L2_length].
  unfold after_calls. cbn [fst snd]. split; [done|].
  unfold appended.
  match goal with
  | |- context [save_faiss_cache w ?s] =>
      destruct (save_keeps_memory w s) as (-> & _)
  end.
  simpl. unfold ntotal in Hn. apply length_zero_iff_nil in Hn. by rewrite Hn.
Qed.

Lemma previous_long_embedding_normalized :
  (@previous.get_search_results_with_cache binary64_externals long_embedding_world
     (previous.assign_globals pristine) (PyStr "Team A vs Team B score")).2
    = [EvEmbed "Team A vs Team B score"] ++
      [EvLive "Team A vs Team B score";
       EvWriteEntry (@cache_filepath binary64_externals "Team A vs Team B score");
       EvIndexAdd (renorm_L2 long_embedding)] /\
  xb <$> faiss_index
    (@previous.get_search_results_with_cache binary64_externals long_embedding_world
       (previous.assign_globals pristine) (PyStr "Team A vs Team B score")).1.2
    = Some [renorm_L2 long_embedding].
Proof.
  apply (@previous_first_vector_normalized binary64_externals long_embedding_world
           (previous.assign_globals pristine) new_index
           "Team A vs Team B score" "Team A vs Team B score"
           long_embedding [EvEmbed "Team A vs Team B score"]).
  - vm_compute. reflexivity.
  - discriminate.
  - vm_compute. reflexivity.
  - vm_compute. reflexivity.
  - reflexivity.
  - vm_compute. reflexivity.
  - vm_compute. lia.
  - reflexivity.
  - vm_compute. reflexivity.
Defined.

Example previous_long_embedding_row :
  hd 0%float (renorm_L2 long_embedding) = 0x1.3333333333334p-1%float /\
  hd 0%float long_embedding = 3%float.
Proof. vm_compute. split; reflexivity. Qed.

(** The scraper writes no bookkeeping key. *)
Lemma scraped_plain_key (quote_plus : string -> string) (b : browser)
    (query k : string) :
  String.prefix "Source [" k = false -> k <> "error" ->
  k <> "Bing Search Results Page" -> k <> "_cache_status" ->
  _perform_web_search_and_extract quote_plus b query !! k = None.
Proof.
  intros Hk Herr Hmain Hstatus.
  destruct (scrape_cases quote_plus b query) as [[_ ->]|[_ [msg ->]]].
  - rewrite scrape_pages_plain_key by done. by apply lookup_singleton_ne.
  - rewrite lookup_insert_ne by done. by apply lookup_singleton_ne.
Qed.

(** X29. In the single-file version a freshly cached result keeps the
    scraper's status: on a miss whose scraped dictionary has no "error" and
    can be stored, the dictionary returned is the scraped one unchanged, with
    "_cache_status" = "Live Search Triggered", and the entry file has been
    written. *)
Theorem previous_cached_miss_keeps_scraper_status `{Externals}
    (quote_plus : string -> string) (b : browser) (w : world) (st : state)
    (idx : IndexFlatIP) (s query : string) (v : vec) (evs : list event) :
  strip s = query -> query <> "" ->
  get_embedding w query = (Some v, evs) ->
  faiss_index st = Some idx ->
  (previous.search_cache st idx (normalize_L2 v)).1 = None ->
  live_search w query = _perform_web_search_and_extract quote_plus b query ->
  live_search w query !! "error" = None ->
  can_write w (cache_filepath query) = true ->
  length v = d idx ->
  (previous.get_search_results_with_cache w st (PyStr s)).1.1
    = as_payload (live_search w query) /\
  (previous.get_search_results_with_cache w st (PyStr s)).1.1 !! "_cache_status"
    = Some (PStr "Live Search Triggered") /\
  In (EvWriteEntry (cache_filepath query))
     (previous.get_search_results_with_cache w st (PyStr s)).2.
Proof.
  intros Hstrip Hq Hemb Hidx Hmiss Hlive Herr Hwrite Hlen.
  assert (Hstatus : live_search w query !! "_cache_status"
                    = Some "Live Search Triggered").
  { rewrite Hlive.
    destruct (scrape_cases quote_plus b query) as [[_ ->]|[_ [msg ->]]];
      [by rewrite scrape_pages_plain_key|done]. }
  assert (Hsize : size (live_search w query) <> 0).
  { intros Hzero. apply map_size_empty_iff in Hzero. by rewrite Hzero in Hstatus. }
  rewrite (previous_resolve_embedded w st idx s query v evs Hstrip Hq Hidx Hemb).
  rewrite Hmiss.
  rewrite previous_live_and_cache_success;
    [|done|done|done|by rewrite normalize_L2_length].
  unfold after_calls. cbn [fst snd].
  rewrite has_key_as_payload, Hstatus.
  rewrite bool_decide_eq_true_2 by eauto.
  assert (Hplain : pop "_cache_timestamp"
                     (pop "_cached_original_query" (as_payload (live_search w query)))
                   = as_payload (live_search w query)).
  { unfold pop, as_payload.
    rewrite (delete_id _ "_cached_original_query")
      by (rewrite lookup_fmap, Hlive, scraped_plain_key; done).
    apply delete_id. rewrite lookup_fmap, Hlive, scraped_plain_key; done. }
  rewrite Hplain. split; [done|]. split.
  - unfold as_payload. by rewrite lookup_fmap, Hstatus.
  - apply in_or_app. right. right. by left.
Qed.

Lemma previous_scraped_miss_status :
  let w := scraping_world patchy_browser in
  (@previous.get_search_results_with_cache binary64_externals w stale_state
     (PyStr "E vs F")).1.1
    = as_payload (live_search w "E vs F") /\
  (@previous.get_search_results_with_cache binary64_externals w stale_state
     (PyStr "E vs F")).1.1 !! "_cache_status"
    = Some (PStr "Live Search Triggered") /\
  In (EvWriteEntry (@cache_filepath binary64_externals "E vs F"))
     (@previous.get_search_results_with_cache binary64_externals w stale_state
        (PyStr "E vs F")).2.
Proof.
  apply (@previous_cached_miss_keeps_scraper_status binary64_externals
           (fun query => query) patchy_browser (scraping_world patchy_browser)
           stale_state
           {| d := 2; xb := [[float32_above_threshold; 0%float]] |}
           "E vs F" "E vs F" [0%float; 1%float] [EvEmbed "E vs F"]).
  - vm_compute. reflexivity.
  - discriminate.
  - vm_compute. reflexivity.
  - reflexivity.
  - vm_compute. reflexivity.
  - reflexivity.
  - vm_compute. reflexivity.
  - reflexivity.
  - reflexivity.
Defined.

Example current_scraped_miss_status :
  (@get_search_results_with_cache binary64_externals (scraping_world patchy_browser)
     stale_state (PyStr "E vs F")).1.1 !! "_cache_status"
    = Some (PStr "Live Search (Cache Miss)").
Proof. vm_compute. reflexivity. Qed.

(** X30. In the single-file version the removal of a stale record costs the
    whole cache at the next start.  On a loaded cache whose mapping has one
    record per vector, whose counter equals the vector count and whose keys
    all lie below the counter: when a stale record is removed and the live
    result is then stored and saved, the index has one vector more than the
    mapping has records, so the next process finds the persisted pair
    inconsistent and starts from an empty index, an empty mapping and
    counter 0. *)
Theorem previous_stale_removal_resets_next_start `{Externals} (w : world)
    (st : state) (idx : IndexFlatIP) (s query : string) (v : vec)
    (evs : list event) (score : float) (id : Z)
    (cached_query_str cached_filepath : string) :
  strip s = query -> query <> "" ->
  get_embedding w query = (Some v, evs) ->
  faiss_index st = Some idx ->
  dense st ->
  index_search idx (normalize_L2 v) = Some (score, id) ->
  (CACHE_SIMILARITY_THRESHOLD <=? score)%float = true ->
  index_id_to_data st !! id = Some (cached_query_str, cached_filepath) ->
  entry_files st !! cached_filepath = None ->
  live_search w query !! "error" = None ->
  size (live_search w query) <> 0 ->
  can_write w (cache_filepath query) = true ->
  can_write w CACHE_INDEX_FILE = true ->
  can_write w CACHE_MAPPING_FILE = true ->
  length v = d idx ->
  let st' := (previous.get_search_results_with_cache w st (PyStr s)).1.2 in
  ntotal <$> faiss_index st' = Some (S (ntotal idx)) /\
  size (index_id_to_data st') = ntotal idx /\
  previous.assign_globals (restart st') = cold (restart st').
Proof.
  intros Hstrip Hq Hemb Hidx Hdense Hsearch Hge Hrec Hgone Herr Hsize
    Hwrite Hwi Hwm Hlen st'. subst st'.
  destruct Hdense as (idx0 & Hidx0 & Hsz & Hnext & Hkeys).
  assert (idx0 = idx) as -> by congruence.
  assert (Hid : (0 <= id < next_faiss_id st)%Z) by (apply Hkeys; by rewrite Hrec).
  assert (Hn : ntotal idx <> 0).
  { intros Hzero. rewrite Hzero in Hsz. apply map_size_empty_iff in Hsz.
    by rewrite Hsz in Hrec. }
  rewrite (previous_resolve_embedded w st idx s query v evs Hstrip Hq Hidx Hemb).
  unfold previous.search_cache.
  assert (Hpos : (0 <? ntotal idx)%nat = true) by (apply Nat.ltb_lt; lia).
  rewrite Hpos, Hsearch, Hge, Hrec, Hgone. cbn [fst snd].
  rewrite previous_live_and_cache_success;
    [|done|done|done|by rewrite normalize_L2_length].
  unfold after_calls. cbn [fst snd].
  set (m' := <[next_faiss_id st := (query, cache_filepath query)]>
               (delete id (index_id_to_data st))).
  assert (Hm' : size m' = ntotal idx).
  { unfold m'. rewrite map_size_insert_None.
    - rewrite map_size_delete, Hrec. simpl. lia.
    - rewrite lookup_delete_ne by lia.
      destruct (index_id_to_data st !! next_faiss_id st) eqn:Hl; [|done].
      assert (0 <= next_faiss_id st < next_faiss_id st)%Z by (apply Hkeys; eauto).
      lia. }
  unfold appended, save_faiss_cache. cbn [faiss_index set_globals next_faiss_id
    set_entry_files index_id_to_data].
  rewrite Hwi, Hwm.
  assert (Hg1 : (0 <? next_faiss_id st + 1)%Z = true) by (apply Z.ltb_lt; lia).
  assert (Hg2 : (0 <? ntotal {| d := d idx; xb := xb idx ++ [normalize_L2 v] |})%nat
                = true).
  { apply Nat.ltb_lt. unfold ntotal. simpl. rewrite length_app. simpl. lia. }
  rewrite Hg1, Hg2. cbn [andb]. split; [|split].
  - simpl. unfold ntotal. simpl. rewrite length_app. simpl. f_equal. lia.
  - exact Hm'.
  - unfold previous.assign_globals, previous.load_faiss_cache, try_load. simpl.
    fold m'. rewrite mapping_of_json_to_list.
    rewrite decide_True; [reflexivity|].
    rewrite Hm'. unfold ntotal. simpl. rewrite length_app. simpl. lia.
Qed.

Lemma previous_deleted_entry_resets_next_start :
  let st' :=
    (@previous.get_search_results_with_cache binary64_externals
       unit_embedding_world entry_deleted (PyStr "Team A vs Team B result")).1.2 in
  ntotal <$> faiss_index st' = Some 2 /\
  size (index_id_to_data st') = 1 /\
  previous.assign_globals (restart st') = cold (restart st').
Proof.
  apply (@previous_stale_removal_resets_next_start binary64_externals
           unit_embedding_world entry_deleted
           {| d := EMBEDDING_DIM; xb := [unit_embedding] |}
           "Team A vs Team B result" "Team A vs Team B result"
           unit_embedding [EvEmbed "Team A vs Team B result"] 1%float 0%Z
           "Team A vs Team B score"
           (@cache_filepath binary64_externals "Team A vs Team B score")).
  - vm_compute. reflexivity.
  - discriminate.
  - vm_compute. reflexivity.
  - vm_compute. reflexivity.
  - apply (@run_dense binary64_externals). unfold entry_deleted.
    apply (@run_files binary64_externals). unfold first_call.
    apply (@run_resolve binary64_externals unit_embedding_world (cold pristine)
             (PyStr "Team A vs Team B score")).
    apply run_cold.
  - vm_compute. reflexivity.
  - vm_compute. reflexivity.
  - vm_compute. reflexivity.
  - vm_compute. reflexivity.
  - vm_compute. reflexivity.
  - vm_compute. lia.
  - reflexivity.
  - reflexivity.
  - reflexivity.
  - vm_compute. reflexivity.
Defined.
